(** * Helm multiplex daemon: a shallow embedding of its message handlers

    The daemon of helm-browser (daemon/state.ts, daemon/handlers.ts,
    daemon/chrome.ts, daemon/server.ts, shared/config.ts) is a single-threaded
    event loop over a handful of module-level tables.  Every callback of the
    source (a WebSocket [message] or [close], a [setTimeout] or [setInterval]
    firing) is one step of a deterministic machine here: it takes the tables
    and returns the new tables together with the frames it wrote.

    [console.error] diagnostics are not part of the model, but for the string
    conversion of a template that can throw inside a [try].  JSON numbers are
    integers.  One step reads the clock once. *)

From stdpp Require Import base decidable option list strings gmap pretty.
From Stdlib Require Import ZArith Lia Ascii.

Local Open Scope string_scope.
Local Open Scope list_scope.
Local Open Scope Z_scope.

(** ** JSON values, as produced by [JSON.parse] *)

#[local] Set Warnings "-register-all".

Inductive json :=
| JNull
| JBool (b : bool)
| JNum (n : Z)
| JStr (s : string)
| JArr (items : list json)
| JObj (fields : list (string * json)).

(** A field of an object; [None] is JavaScript's [undefined]. *)
Fixpoint assoc {V} (k : string) (fs : list (string * V)) : option V :=
  match fs with
  | [] => None
  | (k', v) :: fs' => if String.eqb k k' then Some v else assoc k fs'
  end.

(** [v?.k] for a parsed value: primitives and arrays have no such member. *)
Definition prop (k : string) (v : option json) : option json :=
  match v with
  | Some (JObj fs) => assoc k fs
  | _ => None
  end.

(** JavaScript truthiness of a possibly undefined JSON value. *)
Definition truthy (v : option json) : bool :=
  match v with
  | None => false
  | Some JNull => false
  | Some (JBool b) => b
  | Some (JNum n) => negb (n =? 0)
  | Some (JStr s) => negb (String.eqb s EmptyString)
  | Some (JArr _) => true
  | Some (JObj _) => true
  end.

(** [obj[k] = v] on an ordinary object: an existing key keeps its place. *)
Fixpoint assign {V} (k : string) (v : V) (fs : list (string * V)) : list (string * V) :=
  match fs with
  | [] => [(k, v)]
  | (k', v') :: fs' =>
      if String.eqb k k' then (k, v) :: fs' else (k', v') :: assign k v fs'
  end.

(** ** [String(v)]

    The conversion [new Error(v)] and a template literal apply to a value. *)

(** The double nearest to a whole number [a >= 0], ties to the even
    significand; [None] is Infinity. *)
Definition nearest_double (a : Z) : option Z :=
  if a <? 2 ^ 53 then Some a
  else
    let e := Z.log2 a - 52 in
    let q := Z.shiftr a e in
    let r := a - Z.shiftl q e in
    let half := Z.shiftl 1 (e - 1) in
    let q' := if (half <? r) || ((r =? half) && Z.odd q) then q + 1 else q in
    if Z.shiftl q' e <? 2 ^ 1024 then Some (Z.shiftl q' e) else None.

(** The [k]-digit numbers [s] with [s * 10^(n-k)] rounding to the double [d]:
    only the two next to [d / 10^(n-k)] can be closest. *)
Definition digits_at (d k n : Z) : list Z :=
  if n <? k then []
  else
    List.filter
      (fun s => (10 ^ (k - 1) <=? s) && (s <? 10 ^ k)
                && bool_decide (nearest_double (s * 10 ^ (n - k)) = Some d))
      [d / 10 ^ (n - k); d / 10 ^ (n - k) + 1].

Definition distance (d k : Z) (c : Z * Z) : Z := Z.abs (fst c * 10 ^ (snd c - k) - d).

Definition closer (d k : Z) (a b : Z * Z) : Z * Z :=
  if distance d k b <? distance d k a then b
  else if (distance d k b =? distance d k a) && Z.even (fst b) && Z.odd (fst a) then b
  else a.

(** Number::toString's [s], [n] and [k] for a double [d > 0]: as few digits as
    round back to [d], and among those the closest. *)
Fixpoint shortest (d size : Z) (ks : list Z) : option (Z * Z * Z) :=
  match ks with
  | [] => None
  | k :: ks' =>
      match map (fun s => (s, size)) (digits_at d k size)
            ++ map (fun s => (s, size + 1)) (digits_at d k (size + 1)) with
      | [] => shortest d size ks'
      | c :: cs => Some (foldl (closer d k) c cs, k)
      end
  end.

Fixpoint zeros (n : nat) : string :=
  match n with O => EmptyString | S n' => String "0" (zeros n') end.

(** [String(x)] for a whole number: the digits of the nearest double, in
    exponent form from 10^21 on. *)
Definition Number_toString (x : Z) : string :=
  let sign := if x <? 0 then "-" else EmptyString in
  match nearest_double (Z.abs x) with
  | None => sign +:+ "Infinity"
  | Some d =>
      match (if d <? 2 ^ 53 then None
             else shortest d (Z.of_nat (String.length (pretty d))) (Z.of_nat <$> seq 1 17)) with
      | None => sign +:+ pretty d       (* every digit counts below 2^53 *)
      | Some (s, n, k) =>
          if n <=? 21 then sign +:+ pretty s +:+ zeros (Z.to_nat (n - k))
          else
            match pretty s with
            | String c EmptyString => sign +:+ String c "e+" +:+ pretty (n - 1)
            | String c rest => sign +:+ String c ("." +:+ rest) +:+ "e+" +:+ pretty (n - 1)
            | EmptyString => EmptyString
            end
      end
  end.

(** [String(v)]; [None] where it throws a TypeError.  A parsed object has
    [Object.prototype.toString] unless a member of its own is in the way, and
    no member of a parsed object can be called; an array joins its items. *)
Fixpoint js_String (v : json) : option string :=
  match v with
  | JNull => Some "null"
  | JBool true => Some "true"
  | JBool false => Some "false"
  | JNum n => Some (Number_toString n)
  | JStr s => Some s
  | JArr items =>
      (fix join (l : list json) : option string :=
         match l with
         | [] => Some EmptyString
         | x :: l' =>
             match (match x with JNull => Some EmptyString | _ => js_String x end),
                   join l' with
             | Some s, Some rest =>
                 Some (s +:+ (match l' with [] => EmptyString | _ => "," +:+ rest end))
             | _, _ => None
             end
         end) items
  | JObj fields =>
      match assoc "toString" fields with
      | Some _ => None
      | None => Some "[object Object]"
      end
  end.

Arguments js_String : simpl never.

(** [n.toString(36)] for an integer. *)
Definition digit36 (d : N) : Ascii.ascii :=
  if (d <? 10)%N then Ascii.ascii_of_N (48 + d) else Ascii.ascii_of_N (87 + d).

Fixpoint toString36_go (fuel : nat) (n : N) (acc : string) : string :=
  match fuel with
  | O => acc
  | S fuel' =>
      let acc' := String (digit36 (n mod 36)) acc in
      if (n / 36 =? 0)%N then acc' else toString36_go fuel' (n / 36) acc'
  end.

Definition toString36 (n : Z) : string :=
  let digits := toString36_go (S (N.size_nat (Z.abs_N n))) (Z.abs_N n) EmptyString in
  if n <? 0 then "-" +:+ digits else digits.

(** ** Insertion-ordered maps (JavaScript [Map]) *)

Module JsMap.
Section ops.
Context {K V : Type} `{EqDecision K}.

Fixpoint get (k : K) (m : list (K * V)) : option V :=
  match m with
  | [] => None
  | (k', v) :: m' => if decide (k = k') then Some v else get k m'
  end.

Definition has (k : K) (m : list (K * V)) : bool :=
  match get k m with Some _ => true | None => false end.

Fixpoint set (k : K) (v : V) (m : list (K * V)) : list (K * V) :=
  match m with
  | [] => [(k, v)]
  | (k', v') :: m' =>
      if decide (k = k') then (k, v) :: m' else (k', v') :: set k v m'
  end.

Fixpoint delete (k : K) (m : list (K * V)) : list (K * V) :=
  match m with
  | [] => []
  | (k', v) :: m' =>
      if decide (k = k') then delete k m' else (k', v) :: delete k m'
  end.

Definition keys (m : list (K * V)) : list K := map fst m.
Definition values (m : list (K * V)) : list V := map snd m.
End ops.
End JsMap.

Arguments JsMap.keys : simpl never.

(** ** Wire messages (shared/protocol.ts) *)

(** A WebSocket handle; two handles are the same connection iff equal. *)
Definition Conn := nat.

Record HelloPayload := {
  hp_profileId : option string;
  hp_capabilities : option (list string);
}.

Record ErrorPayload := {
  ep_code : option string;
  ep_message : option string;
}.

(** An inbound frame after [JSON.parse], as a value of the interfaces of
    protocol.ts.  [MOther] is the open interface
    [{ type: string; [key: string]: unknown }]; it carries the frames whose
    tag is none of the eight closed ones (window_closed, pong, the legacy
    replies, anything unknown).  A frame with a closed tag is the
    constructor of its interface; on an [MOther] that carries a closed tag
    all the same, no handler has a case. *)
Inductive Message :=
| MRegister (sessionId label : string)
| MUnregister (sessionId : string)
| MCommand (reqId sessionId command : string) (params : list (string * json))
| MKeepalive (sessionId : string)
| MHello (payload : option HelloPayload)
| MRouteResult (reqId : string) (sessionId : option string) (payload : option json)
| MError (reqId sessionId : option string) (payload : option ErrorPayload)
| MTabClosed (tabId : option Z) (payload_tabId : option Z)
| MOther (type : string) (fields : list (string * json)).

Definition msg_type (m : Message) : string :=
  match m with
  | MRegister _ _ => "register"
  | MUnregister _ => "unregister"
  | MCommand _ _ _ _ => "command"
  | MKeepalive _ => "keepalive"
  | MHello _ => "hello"
  | MRouteResult _ _ _ => "route_result"
  | MError _ _ _ => "error"
  | MTabClosed _ _ => "tab_closed"
  | MOther t _ => t
  end.

(** A top-level member of a frame of the open interface.  The frames of the
    closed interfaces are dispatched on their tag before any member is read
    this way. *)
Definition open_member (k : string) (m : Message) : option json :=
  match m with
  | MOther _ fields => assoc k fields
  | _ => None
  end.

(** Frames the daemon writes to a client. *)
Inductive DaemonMessage :=
| Registered (sessionId : string) (success : bool)
| Response (reqId sessionId : string) (payload : option json)
| ErrorMessage (reqId sessionId code message : string).

(** One element of [getSessionList()]. *)
Record SessionInfo := {
  si_sessionId : string;
  si_label : string;
  si_windowId : json;
  si_lastSeen : Z;
  si_status : string;
}.

(** Frames the daemon writes to the extension. *)
Inductive ExtensionBound :=
| Welcome (serverId : string) (protocolVersion : Z) (sessions : list SessionInfo)
| Sessions (sessions : list SessionInfo) (tabRouting : list (Z * string))
| Route (reqId sessionId command : string) (params : list (string * json))
| Ping.

(** What a step does to the outside world, in order. *)
Inductive Output :=
| SendClient (ws : Conn) (m : DaemonMessage)
| SendExtension (ws : Conn) (m : ExtensionBound)
| CloseConn (ws : Conn) (code : Z) (reason : string).

(** ** Configuration (shared/config.ts) *)

Definition PROTOCOL_VERSION : Z := 3.
Definition REQUEST_TIMEOUT_MS : Z := 30000.
Definition EXTENSION_CONNECT_TIMEOUT_MS : Z := 15000.
Definition CLIENT_KEEPALIVE_INTERVAL_MS : Z := 30000.
Definition CLIENT_KEEPALIVE_TIMEOUT_MS : Z := 60000.
Definition EXTENSION_PING_INTERVAL_MS : Z := 25000.

Definition CHROME_PATHS : list string :=
  [ "/usr/bin/google-chrome-stable";
    "/usr/bin/google-chrome";
    "/usr/bin/chromium";
    "/usr/bin/chromium-browser";
    "/opt/google/chrome/chrome" ].

(** ** The daemon's tables (daemon/state.ts) *)

Record ClientSession := {
  cs_sessionId : string;
  cs_label : string;
  cs_ws : Conn;
  cs_windowId : json;          (* number | null *)
  cs_registeredAt : Z;
  cs_lastSeen : Z;
}.

Record ExtensionConnection := {
  ec_ws : Conn;
  ec_profileId : string;
  ec_capabilities : list string;
  ec_connectedAt : Z;
}.

(** Promises and timers are objects of the runtime; a handle names one. *)
Definition Handle := nat.

(** [resolve] and [reject] are the two closures of one promise, [timeout] is
    the timer started with it. *)
Record PendingRequest := {
  pr_promise : Handle;
  pr_timeout : Handle;
  pr_sessionId : string;
}.

(** The rest of [handleCommand] after each of its two awaits on
    [sendCommandToExtension]. *)
Inductive Continuation :=
| AwaitCreateWindow (clientWs : Conn) (reqId sessionId command : string)
                    (params : list (string * json))
| AwaitCommandResult (clientWs : Conn) (reqId sessionId : string).

(** The closure handed to [setTimeout] by [sendCommandToExtension]. *)
Record Timer := {
  tm_deadline : Z;
  tm_reqId : string;
  tm_promise : Handle;
}.

(** A [handleCommand] suspended inside [ensureExtensionConnected], asleep
    between two polls. *)
Record Sleeper := {
  sl_startTime : Z;
  sl_wakeAt : Z;
  sl_clientWs : Conn;
  sl_reqId : string;
  sl_sessionId : string;
  sl_command : string;
  sl_params : list (string * json);
}.

Record State := {
  clientSessions : list (string * ClientSession);
  windowCache : gset string;
  extensionConnection : option ExtensionConnection;
  tabRouting : list (Z * string);
  pendingRequests : list (string * PendingRequest);
  requestIdCounter : Z;
  chromeProcess : option Z;
  (* the runtime: unsettled promises with their awaiting code, armed timers,
     sleeping polls, and the next fresh handle *)
  promises : list (Handle * Continuation);
  timers : list (Handle * Timer);
  sleepers : list (Handle * Sleeper);
  nextHandle : Handle;
}.

Definition initial : State := {|
  clientSessions := [];
  windowCache := ∅;
  extensionConnection := None;
  tabRouting := [];
  pendingRequests := [];
  requestIdCounter := 0;
  chromeProcess := None;
  promises := [];
  timers := [];
  sleepers := [];
  nextHandle := O;
|}.

(** What a step reads from outside the tables. *)
Record Env := {
  now : Z;                                  (* Date.now() *)
  existsSync : string -> bool;              (* fs.existsSync *)
  spawn : string -> option Z;               (* Bun.spawn: pid, or it throws *)
  WS_PORT : Z;
  TypeError_message : string;               (* of the TypeError of a failed String(v) *)
}.

(** Assignment to one table, the others kept. *)
Definition set_clientSessions (v : list (string * ClientSession)) (st : State) : State :=
  {| clientSessions := v; windowCache := windowCache st;
     extensionConnection := extensionConnection st;
     tabRouting := tabRouting st; pendingRequests := pendingRequests st;
     requestIdCounter := requestIdCounter st;
     chromeProcess := chromeProcess st; promises := promises st;
     timers := timers st; sleepers := sleepers st;
     nextHandle := nextHandle st |}.

Definition set_windowCache (v : gset string) (st : State) : State :=
  {| clientSessions := clientSessions st; windowCache := v;
     extensionConnection := extensionConnection st;
     tabRouting := tabRouting st; pendingRequests := pendingRequests st;
     requestIdCounter := requestIdCounter st;
     chromeProcess := chromeProcess st; promises := promises st;
     timers := timers st; sleepers := sleepers st;
     nextHandle := nextHandle st |}.

Definition set_extensionConnection (v : option ExtensionConnection) (st : State) : State :=
  {| clientSessions := clientSessions st; windowCache := windowCache st;
     extensionConnection := v; tabRouting := tabRouting st;
     pendingRequests := pendingRequests st;
     requestIdCounter := requestIdCounter st;
     chromeProcess := chromeProcess st; promises := promises st;
     timers := timers st; sleepers := sleepers st;
     nextHandle := nextHandle st |}.

Definition set_tabRouting (v : list (Z * string)) (st : State) : State :=
  {| clientSessions := clientSessions st; windowCache := windowCache st;
     extensionConnection := extensionConnection st; tabRouting := v;
     pendingRequests := pendingRequests st;
     requestIdCounter := requestIdCounter st;
     chromeProcess := chromeProcess st; promises := promises st;
     timers := timers st; sleepers := sleepers st;
     nextHandle := nextHandle st |}.

Definition set_pendingRequests (v : list (string * PendingRequest)) (st : State) : State :=
  {| clientSessions := clientSessions st; windowCache := windowCache st;
     extensionConnection := extensionConnection st;
     tabRouting := tabRouting st; pendingRequests := v;
     requestIdCounter := requestIdCounter st;
     chromeProcess := chromeProcess st; promises := promises st;
     timers := timers st; sleepers := sleepers st;
     nextHandle := nextHandle st |}.

Definition set_requestIdCounter (v : Z) (st : State) : State :=
  {| clientSessions := clientSessions st; windowCache := windowCache st;
     extensionConnection := extensionConnection st;
     tabRouting := tabRouting st; pendingRequests := pendingRequests st;
     requestIdCounter := v; chromeProcess := chromeProcess st;
     promises := promises st; timers := timers st; sleepers := sleepers st;
     nextHandle := nextHandle st |}.

Definition set_chromeProcess (v : option Z) (st : State) : State :=
  {| clientSessions := clientSessions st; windowCache := windowCache st;
     extensionConnection := extensionConnection st;
     tabRouting := tabRouting st; pendingRequests := pendingRequests st;
     requestIdCounter := requestIdCounter st; chromeProcess := v;
     promises := promises st; timers := timers st; sleepers := sleepers st;
     nextHandle := nextHandle st |}.

Definition set_promises (v : list (Handle * Continuation)) (st : State) : State :=
  {| clientSessions := clientSessions st; windowCache := windowCache st;
     extensionConnection := extensionConnection st;
     tabRouting := tabRouting st; pendingRequests := pendingRequests st;
     requestIdCounter := requestIdCounter st;
     chromeProcess := chromeProcess st; promises := v; timers := timers st;
     sleepers := sleepers st; nextHandle := nextHandle st |}.

Definition set_timers (v : list (Handle * Timer)) (st : State) : State :=
  {| clientSessions := clientSessions st; windowCache := windowCache st;
     extensionConnection := extensionConnection st;
     tabRouting := tabRouting st; pendingRequests := pendingRequests st;
     requestIdCounter := requestIdCounter st;
     chromeProcess := chromeProcess st; promises := promises st; timers := v;
     sleepers := sleepers st; nextHandle := nextHandle st |}.

Definition set_sleepers (v : list (Handle * Sleeper)) (st : State) : State :=
  {| clientSessions := clientSessions st; windowCache := windowCache st;
     extensionConnection := extensionConnection st;
     tabRouting := tabRouting st; pendingRequests := pendingRequests st;
     requestIdCounter := requestIdCounter st;
     chromeProcess := chromeProcess st; promises := promises st;
     timers := timers st; sleepers := v; nextHandle := nextHandle st |}.

Definition set_nextHandle (v : Handle) (st : State) : State :=
  {| clientSessions := clientSessions st; windowCache := windowCache st;
     extensionConnection := extensionConnection st;
     tabRouting := tabRouting st; pendingRequests := pendingRequests st;
     requestIdCounter := requestIdCounter st;
     chromeProcess := chromeProcess st; promises := promises st;
     timers := timers st; sleepers := sleepers st; nextHandle := v |}.

(** ** Handlers as transformers of the tables

    A handler reads [Env], updates [State] and appends the frames it writes. *)

Definition Act (A : Type) : Type := Env -> State -> A * State * list Output.

#[global] Instance Act_ret : MRet Act := fun A a _ st => (a, st, []).

#[global] Instance Act_bind : MBind Act := fun A B f m env st =>
  let '(a, st1, o1) := m env st in
  let '(b, st2, o2) := f a env st1 in
  (b, st2, o1 ++ o2).

Definition ask : Act Env := fun env st => (env, st, []).
Definition gets {A} (f : State -> A) : Act A := fun _ st => (f st, st, []).
Definition modify (f : State -> State) : Act unit := fun _ st => (tt, f st, []).
Definition emit (o : Output) : Act unit := fun _ st => (tt, st, [o]).

(** [for (const x of l) body(x)] over the entries [l] had when the loop began. *)
Fixpoint for_each {A} (l : list A) (body : A -> Act unit) : Act unit :=
  match l with
  | [] => mret tt
  | x :: l' => body x;; for_each l' body
  end.

(** The tables and the frames written, the returned value dropped. *)
Definition exec {A} (m : Act A) (env : Env) (st : State) : State * list Output :=
  let '(_, st', out) := m env st in (st', out).

Definition state_after {A} (m : Act A) (env : Env) (st : State) : State :=
  fst (exec m env st).

Definition written {A} (m : Act A) (env : Env) (st : State) : list Output :=
  snd (exec m env st).

(** ** daemon/state.ts *)

Definition setExtensionConnection (conn : option ExtensionConnection) : Act unit :=
  modify (set_extensionConnection conn).

Definition setChromeProcess (proc : option Z) : Act unit :=
  modify (set_chromeProcess proc).

(** [`req_${counter}_${time.toString(36)}`] *)
Definition requestId (counter time : Z) : string :=
  "req_" +:+ pretty counter +:+ "_" +:+ toString36 time.

(** [`req_${++requestIdCounter}_${Date.now().toString(36)}`] *)
Definition generateRequestId : Act string :=
  env ← ask;
  counter ← gets requestIdCounter;
  modify (set_requestIdCounter (counter + 1));;
  mret (requestId (counter + 1) (now env)).

Definition registerClient (sessionId label : string) (ws : Conn) : Act unit :=
  env ← ask;
  let session :=
    {| cs_sessionId := sessionId; cs_label := label; cs_ws := ws;
       cs_windowId := JNull; cs_registeredAt := now env; cs_lastSeen := now env |} in
  sessions ← gets clientSessions;
  modify (set_clientSessions (JsMap.set sessionId session sessions)).

(** The loop of [unregisterClient] over [tabRouting]: every entry bound to
    the session is deleted by its key while the map is walked. *)
Definition purgeTabRouting (sessionId : string) (routes : list (Z * string)) : list (Z * string) :=
  foldl (fun acc '(tabId, sid) =>
           if decide (sid = sessionId) then JsMap.delete tabId acc else acc)
        routes routes.

Definition unregisterClient (sessionId : string) : Act unit :=
  sessions ← gets clientSessions;
  match JsMap.get sessionId sessions with
  | Some session =>
      modify (set_clientSessions (JsMap.delete sessionId sessions));;
      cache ← gets windowCache;
      modify (set_windowCache (cache ∖ {[ sessionId ]}));;
      routes ← gets tabRouting;
      modify (set_tabRouting (purgeTabRouting sessionId routes))
  | None => mret tt
  end.

Definition with_lastSeen (t : Z) (s : ClientSession) : ClientSession :=
  {| cs_sessionId := cs_sessionId s; cs_label := cs_label s; cs_ws := cs_ws s;
     cs_windowId := cs_windowId s; cs_registeredAt := cs_registeredAt s;
     cs_lastSeen := t |}.

Definition with_windowId (w : json) (s : ClientSession) : ClientSession :=
  {| cs_sessionId := cs_sessionId s; cs_label := cs_label s; cs_ws := cs_ws s;
     cs_windowId := w; cs_registeredAt := cs_registeredAt s;
     cs_lastSeen := cs_lastSeen s |}.

Definition updateClientLastSeen (sessionId : string) : Act unit :=
  env ← ask;
  sessions ← gets clientSessions;
  match JsMap.get sessionId sessions with
  | Some session =>
      modify (set_clientSessions
                (JsMap.set sessionId (with_lastSeen (now env) session) sessions))
  | None => mret tt
  end.

(** [windowId] is [JNull] for the source's [null]. *)
Definition setClientWindowId (sessionId : string) (windowId : json) : Act unit :=
  sessions ← gets clientSessions;
  match JsMap.get sessionId sessions with
  | Some session =>
      modify (set_clientSessions
                (JsMap.set sessionId (with_windowId windowId session) sessions));;
      match windowId with
      | JNull => mret tt
      | _ =>
          cache ← gets windowCache;
          modify (set_windowCache ({[ sessionId ]} ∪ cache))
      end
  | None => mret tt
  end.

Definition session_info (s : ClientSession) : SessionInfo :=
  {| si_sessionId := cs_sessionId s;
     si_label := cs_label s;
     si_windowId := cs_windowId s;
     si_lastSeen := cs_lastSeen s;
     si_status := if truthy (Some (cs_windowId s)) then "ready" else "pending" |}.

Definition getSessionList (st : State) : list SessionInfo :=
  map session_info (JsMap.values (clientSessions st)).

Definition clearAllWindowIds : Act unit :=
  sessions ← gets clientSessions;
  modify (set_clientSessions
            (map (fun '(k, session) => (k, with_windowId JNull session)) sessions));;
  modify (set_windowCache ∅);;
  modify (set_tabRouting []).

(** ** daemon/handlers.ts: helpers *)

Definition sendToExtension (m : ExtensionBound) : Act unit :=
  ext ← gets extensionConnection;
  match ext with
  | Some e => emit (SendExtension (ec_ws e) m)
  | None => mret tt
  end.

Definition broadcastSessionsToExtension : Act unit :=
  ext ← gets extensionConnection;
  match ext with
  | Some _ =>
      st ← gets id;
      sendToExtension (Sessions (getSessionList st) (tabRouting st))
  | None => mret tt
  end.

Definition sendResponseToClient (ws : Conn) (reqId sessionId : string)
    (payload : option json) : Act unit :=
  emit (SendClient ws (Response reqId sessionId payload)).

Definition sendErrorToClient (ws : Conn) (reqId sessionId code message : string) : Act unit :=
  emit (SendClient ws (ErrorMessage reqId sessionId code message)).

(** How a promise ends: [resolve(value)] or [reject(new Error(message))]. *)
Inductive Settlement :=
| Resolved (value : option json)
| Rejected (message : string).

Definition fresh : Act Handle :=
  h ← gets nextHandle;
  modify (set_nextHandle (S h));;
  mret h.

Definition clearTimeout (timer : Handle) : Act unit :=
  ts ← gets timers;
  modify (set_timers (JsMap.delete timer ts)).

(** [new Promise(executor)] of [sendCommandToExtension].  The code awaiting
    the promise is [k].  The result is [Some] when the executor settled the
    promise before returning (no extension), and [None] when the promise is
    left pending in the tables. *)
Definition sendCommandToExtension (command : string) (params : list (string * json))
    (sessionId : string) (k : Continuation) : Act (option Settlement) :=
  ext ← gets extensionConnection;
  match ext with
  | None => mret (Some (Rejected "Extension not connected"))
  | Some _ =>
      env ← ask;
      reqId ← generateRequestId;
      promise ← fresh;
      timeout ← fresh;
      ts ← gets timers;
      modify (set_timers
                (JsMap.set timeout
                   {| tm_deadline := now env + REQUEST_TIMEOUT_MS;
                      tm_reqId := reqId; tm_promise := promise |} ts));;
      ps ← gets promises;
      modify (set_promises (JsMap.set promise k ps));;
      pending ← gets pendingRequests;
      modify (set_pendingRequests
                (JsMap.set reqId
                   {| pr_promise := promise; pr_timeout := timeout;
                      pr_sessionId := sessionId |} pending));;
      (* Include sessionId in params for window isolation *)
      let paramsWithSession := assign "sessionId" (JStr sessionId) params in
      sendToExtension (Route reqId sessionId command paramsWithSession);;
      mret None
  end.

(** ** daemon/handlers.ts: [handleCommand], cut at its awaits *)

(** After [await sendCommandToExtension(command, params, sessionId)]. *)
Definition afterCommandResult (clientWs : Conn) (reqId sessionId : string)
    (outcome : Settlement) : Act unit :=
  match outcome with
  | Resolved result => sendResponseToClient clientWs reqId sessionId result
  | Rejected message =>
      sendErrorToClient clientWs reqId sessionId "COMMAND_FAILED" message
  end.

(** "Forward command to extension". *)
Definition forwardCommand (clientWs : Conn) (reqId sessionId command : string)
    (params : list (string * json)) : Act unit :=
  settled ← sendCommandToExtension command params sessionId
              (AwaitCommandResult clientWs reqId sessionId);
  match settled with
  | Some outcome => afterCommandResult clientWs reqId sessionId outcome
  | None => mret tt
  end.

(** After [await sendCommandToExtension("create_window", ...)]. *)
Definition afterCreateWindow (clientWs : Conn) (reqId sessionId command : string)
    (params : list (string * json)) (outcome : Settlement) : Act unit :=
  match outcome with
  | Resolved result =>
      match prop "windowId" result with
      | Some windowId =>
          if truthy (Some windowId) then
            setClientWindowId sessionId windowId;;
            (* the "Lazy window created" line converts windowId, inside the try *)
            match js_String windowId with
            | Some _ => forwardCommand clientWs reqId sessionId command params
            | None =>
                env ← ask;
                sendErrorToClient clientWs reqId sessionId "WINDOW_CREATION_FAILED"
                  (TypeError_message env)
            end
          else
            sendErrorToClient clientWs reqId sessionId "WINDOW_CREATION_FAILED"
              "Window creation failed: no windowId returned"
      | None =>
          sendErrorToClient clientWs reqId sessionId "WINDOW_CREATION_FAILED"
            "Window creation failed: no windowId returned"
      end
  | Rejected message =>
      sendErrorToClient clientWs reqId sessionId "WINDOW_CREATION_FAILED" message
  end.

(** "Ensure session has a window (lazy initialization)" and what follows. *)
Definition ensureWindow (clientWs : Conn) (reqId sessionId command : string)
    (params : list (string * json)) : Act unit :=
  cache ← gets windowCache;
  if decide (sessionId ∈ cache) then
    forwardCommand clientWs reqId sessionId command params
  else
    settled ← sendCommandToExtension "create_window" [("sessionId", JStr sessionId)]
                sessionId (AwaitCreateWindow clientWs reqId sessionId command params);
    match settled with
    | Some outcome => afterCreateWindow clientWs reqId sessionId command params outcome
    | None => mret tt
    end.

(** The code awaiting a promise runs with the promise's outcome. *)
Definition resume (k : Continuation) (outcome : Settlement) : Act unit :=
  match k with
  | AwaitCreateWindow clientWs reqId sessionId command params =>
      afterCreateWindow clientWs reqId sessionId command params outcome
  | AwaitCommandResult clientWs reqId sessionId =>
      afterCommandResult clientWs reqId sessionId outcome
  end.

(** [resolve]/[reject] of a promise: the first call settles it and hands
    back the awaiting code, later calls do nothing. *)
Definition takePromise (promise : Handle) : Act (option Continuation) :=
  ps ← gets promises;
  match JsMap.get promise ps with
  | Some k => modify (set_promises (JsMap.delete promise ps));; mret (Some k)
  | None => mret None
  end.

Definition settle (promise : Handle) (outcome : Settlement) : Act unit :=
  k ← takePromise promise;
  match k with
  | Some k => resume k outcome
  | None => mret tt
  end.

(** ** daemon/chrome.ts *)

Definition findChrome (env : Env) : option string :=
  List.find (existsSync env) CHROME_PATHS.

Definition startChrome : Act bool :=
  proc ← gets chromeProcess;
  match proc with
  | Some _ => mret true
  | None =>
      env ← ask;
      match findChrome env with
      | None => mret false
      | Some chromePath =>
          match spawn env chromePath with
          | Some pid => setChromeProcess (Some pid);; mret true
          | None => mret false
          end
      end
  end.

(** One turn of the [while] of [ensureExtensionConnected] for the
    [handleCommand] it suspends, followed by the rest of [handleCommand] once
    the wait has an answer. *)
Definition pollExtension (startTime : Z) (clientWs : Conn)
    (reqId sessionId command : string) (params : list (string * json)) : Act unit :=
  env ← ask;
  if now env - startTime <? EXTENSION_CONNECT_TIMEOUT_MS then
    ext ← gets extensionConnection;
    match ext with
    | Some _ => ensureWindow clientWs reqId sessionId command params
    | None =>
        h ← fresh;
        zs ← gets sleepers;
        modify (set_sleepers
                  (JsMap.set h
                     {| sl_startTime := startTime; sl_wakeAt := now env + 500;
                        sl_clientWs := clientWs; sl_reqId := reqId;
                        sl_sessionId := sessionId; sl_command := command;
                        sl_params := params |} zs))
    end
  else
    sendErrorToClient clientWs reqId sessionId "EXTENSION_NOT_CONNECTED"
      "Extension not connected and Chrome failed to start".

Definition handleCommand (reqId sessionId command : string)
    (params : list (string * json)) (clientWs : Conn) : Act unit :=
  ext ← gets extensionConnection;
  match ext with
  | None =>
      (* ensureExtensionConnected() *)
      chromeStarted ← startChrome;
      match chromeStarted with
      | true =>
          env ← ask;
          pollExtension (now env) clientWs reqId sessionId command params
      | false =>
          sendErrorToClient clientWs reqId sessionId "EXTENSION_NOT_CONNECTED"
            "Extension not connected and Chrome failed to start"
      end
  | Some _ => ensureWindow clientWs reqId sessionId command params
  end.

(** ** daemon/handlers.ts: client messages *)

Definition handleRegister (sessionId label : string) (ws : Conn) : Act unit :=
  registerClient sessionId label ws;;
  emit (SendClient ws (Registered sessionId true));;
  (* Broadcast updated session list to extension *)
  broadcastSessionsToExtension.

Definition handleUnregister (sessionId : string) : Act unit :=
  (* Close window if exists *)
  sessions ← gets clientSessions;
  ext ← gets extensionConnection;
  match JsMap.get sessionId sessions, ext with
  | Some session, Some _ =>
      if truthy (Some (cs_windowId session)) then
        reqId ← generateRequestId;
        sendToExtension
          (Route reqId sessionId "close_window" [("sessionId", JStr sessionId)])
      else mret tt
  | _, _ => mret tt
  end;;
  unregisterClient sessionId;;
  broadcastSessionsToExtension.

Definition handleClientMessage (message : Message) (ws : Conn) : Act unit :=
  match message with
  | MRegister sessionId label => handleRegister sessionId label ws
  | MUnregister sessionId => handleUnregister sessionId
  | MCommand reqId sessionId command params =>
      handleCommand reqId sessionId command params ws
  | MKeepalive sessionId => updateClientLastSeen sessionId
  | _ => mret tt
  end.

(** ** daemon/handlers.ts: extension messages *)

Definition handleExtensionHello (payload : option HelloPayload) (ws : Conn) : Act unit :=
  env ← ask;
  let profileId :=
    match payload with
    | Some p =>
        match hp_profileId p with
        | Some s => if String.eqb s EmptyString then "default" else s
        | None => "default"
        end
    | None => "default"
    end in
  let capabilities :=
    match payload with
    | Some p => default [] (hp_capabilities p)
    | None => []
    end in
  (* Clear all old windowIds - they become invalid after Chrome restart *)
  clearAllWindowIds;;
  setExtensionConnection
    (Some {| ec_ws := ws; ec_profileId := profileId;
             ec_capabilities := capabilities; ec_connectedAt := now env |});;
  (* Send welcome message *)
  st ← gets id;
  sendToExtension
    (Welcome ("helm-daemon-" +:+ pretty (WS_PORT env)) PROTOCOL_VERSION
             (getSessionList st));;
  broadcastSessionsToExtension.

(** [(message as any).reqId] when it is truthy. *)
Definition reqId_of (message : Message) : option string :=
  match message with
  | MRouteResult reqId _ _ => if String.eqb reqId EmptyString then None else Some reqId
  | MError (Some reqId) _ _ => if String.eqb reqId EmptyString then None else Some reqId
  | _ => None
  end.

(** [(message as any).payload?.message || "Unknown error"] *)
Definition error_text (message : Message) : string :=
  match message with
  | MError _ _ (Some p) =>
      match ep_message p with
      | Some s => if String.eqb s EmptyString then "Unknown error" else s
      | None => "Unknown error"
      end
  | _ => "Unknown error"
  end.

Definition payload_of (message : Message) : option json :=
  match message with
  | MRouteResult _ _ payload => payload
  | _ => None
  end.

Definition handleRouteResult (message : Message) : Act unit :=
  match reqId_of message with
  | None => mret tt
  | Some reqId =>
      table ← gets pendingRequests;
      match JsMap.get reqId table with
      | Some pending =>
          clearTimeout (pr_timeout pending);;
          modify (set_pendingRequests (JsMap.delete reqId table));;
          if String.eqb (msg_type message) "error" then
            settle (pr_promise pending) (Rejected (error_text message))
          else
            settle (pr_promise pending) (Resolved (payload_of message))
      | None => mret tt
      end
  end.

Definition handleExtensionError (message : Message) : Act unit :=
  handleRouteResult message.

(** [payload?.tabId ?? tabId] *)
Definition handleTabClosed (tabId payload_tabId : option Z) : Act unit :=
  let tabId := match payload_tabId with Some t => Some t | None => tabId end in
  match tabId with
  | Some t =>
      routes ← gets tabRouting;
      if JsMap.has t routes then modify (set_tabRouting (JsMap.delete t routes))
      else mret tt
  | None => mret tt
  end.

Definition handleWindowClosed (fields : list (string * json)) : Act unit :=
  let sessionId := prop "sessionId" (assoc "payload" fields) in
  if truthy sessionId then
    match sessionId with
    | Some (JStr sessionId) => setClientWindowId sessionId JNull
    | _ => mret tt       (* no session is keyed by a value that is not a string *)
    end
  else mret tt.

Definition handleLegacyMessage (fields : list (string * json)) : Act unit :=
  match assoc "id" fields with
  | Some (JStr reqId) =>
      table ← gets pendingRequests;
      match JsMap.get reqId table with
      | Some pending =>
          clearTimeout (pr_timeout pending);;
          modify (set_pendingRequests (JsMap.delete reqId table));;
          match assoc "error" fields with
          | Some e =>
              if truthy (Some e) then
                match js_String e with
                | Some text => settle (pr_promise pending) (Rejected text)
                | None => mret tt    (* new Error(e) throws; server.ts catches *)
                end
              else settle (pr_promise pending) (Resolved (assoc "result" fields))
          | None => settle (pr_promise pending) (Resolved (assoc "result" fields))
          end
      | None => mret tt
      end
  | _ => mret tt         (* request ids are strings *)
  end.

Definition handleExtensionMessage (message : Message) (ws : Conn) : Act unit :=
  match message with
  | MHello payload => handleExtensionHello payload ws
  | MRouteResult _ _ _ => handleRouteResult message
  | MError _ _ _ => handleExtensionError message
  | MTabClosed tabId payload_tabId => handleTabClosed tabId payload_tabId
  | MOther type fields =>
      if String.eqb type "window_closed" then handleWindowClosed fields
      else if String.eqb type "keepalive" || String.eqb type "pong" then mret tt
      else if truthy (assoc "id" fields) && truthy (assoc "command" fields)
           then handleLegacyMessage fields
           else mret tt
  | _ => mret tt
  end.

(** ** daemon/server.ts *)

(** The loop of [websocket.close] over [pendingRequests]: each timer is
    cleared and each promise rejected.  The result lists the suspended
    [handleCommand]s the rejections wake, in the order of the rejections. *)
Fixpoint rejectAll (table : list (string * PendingRequest)) : Act (list Continuation) :=
  match table with
  | [] => mret []
  | (_, pending) :: table' =>
      clearTimeout (pr_timeout pending);;
      k ← takePromise (pr_promise pending);
      ks ← rejectAll table';
      mret (match k with Some k => k :: ks | None => ks end)
  end.

(** [websocket.close] *)
Definition close (ws : Conn) : Act unit :=
  ext ← gets extensionConnection;
  let isExtension :=
    match ext with Some e => bool_decide (ec_ws e = ws) | None => false end in
  if isExtension then
    (* Reject all pending extension requests *)
    table ← gets pendingRequests;
    awaiting ← rejectAll table;
    modify (set_pendingRequests []);;
    setExtensionConnection None;;
    (* the code awaiting the rejected promises runs once the callback returned *)
    for_each awaiting (fun k => resume k (Rejected "Extension disconnected"))
  else
    (* Check if this was a client session *)
    sessions ← gets clientSessions;
    match List.find (fun '(_, session) => bool_decide (cs_ws session = ws)) sessions with
    | Some (sessionId, _) => unregisterClient sessionId
    | None => mret tt
    end.

Definition is_client_type (t : string) : bool :=
  String.eqb t "register" || String.eqb t "command"
  || String.eqb t "unregister" || String.eqb t "keepalive".

Definition is_extension_type (t : string) : bool :=
  String.eqb t "route_result" || String.eqb t "error" || String.eqb t "tab_closed".

(** [websocket.message]; [rawMessage] is [None] when [JSON.parse] throws. *)
Definition message (ws : Conn) (rawMessage : option Message) : Act unit :=
  match rawMessage with
  | None => mret tt
  | Some message =>
      if String.eqb (msg_type message) "hello" then
        ext ← gets extensionConnection;
        match ext with
        | Some e =>
            if bool_decide (ec_ws e ≠ ws) then
              emit (CloseConn ws 4000 "Extension already connected")
            else handleExtensionMessage message ws
        | None => handleExtensionMessage message ws
        end
      else if is_client_type (msg_type message) then
        handleClientMessage message ws
      else if is_extension_type (msg_type message) then
        handleExtensionMessage message ws
      else
        (* Try to determine by content *)
        if truthy (open_member "sessionId" message)
           && (truthy (open_member "command" message)
               || truthy (open_member "reqId" message))
        then handleClientMessage message ws
        else handleExtensionMessage message ws
  end.

(** The callback of [staleCheckInterval]. *)
Definition staleCheck : Act unit :=
  env ← ask;
  sessions ← gets clientSessions;
  for_each sessions (fun '(sessionId, session) =>
    if CLIENT_KEEPALIVE_TIMEOUT_MS <? now env - cs_lastSeen session
    then unregisterClient sessionId
    else mret tt).

Definition staleCheckPeriod : Z := CLIENT_KEEPALIVE_TIMEOUT_MS / 2.

(** The callback of [extensionPingInterval]. *)
Definition extensionPing : Act unit :=
  ext ← gets extensionConnection;
  match ext with
  | Some e => emit (SendExtension (ec_ws e) Ping)
  | None => mret tt
  end.

(** The callback given to [setTimeout] by [sendCommandToExtension].  The
    runtime calls it only while the timer is armed and its delay is over. *)
Definition requestTimeout (timer : Handle) : Act unit :=
  env ← ask;
  ts ← gets timers;
  match JsMap.get timer ts with
  | Some t =>
      if tm_deadline t <=? now env then
        modify (set_timers (JsMap.delete timer ts));;
        table ← gets pendingRequests;
        modify (set_pendingRequests (JsMap.delete (tm_reqId t) table));;
        settle (tm_promise t) (Rejected "Request timed out")
      else mret tt
  | None => mret tt
  end.

(** The end of one 500 ms sleep of [ensureExtensionConnected]. *)
Definition pollWake (sleeper : Handle) : Act unit :=
  env ← ask;
  zs ← gets sleepers;
  match JsMap.get sleeper zs with
  | Some z =>
      if sl_wakeAt z <=? now env then
        modify (set_sleepers (JsMap.delete sleeper zs));;
        pollExtension (sl_startTime z) (sl_clientWs z) (sl_reqId z)
          (sl_sessionId z) (sl_command z) (sl_params z)
      else mret tt
  | None => mret tt
  end.

(** ** The event loop *)

Inductive Event :=
| WsMessage (ws : Conn) (rawMessage : option Message)
| WsClose (ws : Conn)
| RequestTimeout (timer : Handle)
| PollWake (sleeper : Handle)
| StaleCheck
| ExtensionPing.

Definition handle (ev : Event) : Act unit :=
  match ev with
  | WsMessage ws rawMessage => message ws rawMessage
  | WsClose ws => close ws
  | RequestTimeout timer => requestTimeout timer
  | PollWake sleeper => pollWake sleeper
  | StaleCheck => staleCheck
  | ExtensionPing => extensionPing
  end.

(** One callback of the loop. *)
Definition step (st : State) (ev : Env * Event) : State * list Output :=
  exec (handle (snd ev)) (fst ev) st.

(** A run: the tables after the events and everything written, in order. *)
Fixpoint run (st : State) (evs : list (Env * Event)) : State * list Output :=
  match evs with
  | [] => (st, [])
  | ev :: evs' =>
      let '(st1, o1) := step st ev in
      let '(st2, o2) := run st1 evs' in
      (st2, o1 ++ o2)
  end.

(** ** Vocabulary of the statements *)

(** The outcome [handleRouteResult] passes to the promise of a reply. *)
Definition reply_outcome (m : Message) : Settlement :=
  if String.eqb (msg_type m) "error" then Rejected (error_text m)
  else Resolved (payload_of m).

(** Every pending request id was produced by [generateRequestId]. *)
Definition issued_table (counter : Z) (table : list (string * PendingRequest)) : Prop :=
  forall r p, In (r, p) table -> exists c t, r = requestId c t /\ c <= counter.

Definition issued (st : State) : Prop :=
  issued_table (requestIdCounter st) (pendingRequests st).

(** Rows, timers and promises belong together: an armed timer names a live
    row and an unsettled promise, a row names its armed timer, handles are
    below the next fresh one, and no two timers share a promise. *)
Definition linked_tables (ts : list (Handle * Timer)) (ps : list (Handle * Continuation))
    (tb : list (string * PendingRequest)) (n : Handle) : Prop :=
  (forall h t, JsMap.get h ts = Some t ->
     (h < n)%nat /\ (tm_promise t < n)%nat
     /\ (exists k, JsMap.get (tm_promise t) ps = Some k)
     /\ exists p, JsMap.get (tm_reqId t) tb = Some p
                  /\ pr_promise p = tm_promise t /\ pr_timeout p = h)
  /\ (forall r p, JsMap.get r tb = Some p ->
        exists t, JsMap.get (pr_timeout p) ts = Some t
                  /\ tm_reqId t = r /\ tm_promise t = pr_promise p)
  /\ (forall h k, JsMap.get h ps = Some k -> (h < n)%nat)
  /\ (forall h1 h2 t1 t2, JsMap.get h1 ts = Some t1 -> JsMap.get h2 ts = Some t2 ->
        tm_promise t1 = tm_promise t2 -> h1 = h2).

Definition linked (st : State) : Prop :=
  linked_tables (timers st) (promises st) (pendingRequests st) (nextHandle st).

(** The tables as the callbacks keep them. *)
Definition well_formed (st : State) : Prop :=
  issued st /\ List.NoDup (JsMap.keys (clientSessions st)) /\ linked st.

(** The tables the loop can be in. *)
Inductive reachable : State -> Prop :=
| reachable_initial : reachable initial
| reachable_step (st : State) (ev : Env * Event) :
    reachable st -> reachable (fst (step st ev)).


Fixpoint underscore_free (s : string) : bool :=
  match s with
  | EmptyString => true
  | String ch s' => negb (Ascii.eqb ch "_"%char) && underscore_free s'
  end.

(** The client a suspended [handleCommand] answers to, and the fields of the
    command it serves. *)
Definition k_client (k : Continuation) : Conn :=
  match k with
  | AwaitCreateWindow ws _ _ _ _ => ws
  | AwaitCommandResult ws _ _ => ws
  end.

Definition k_reqId (k : Continuation) : string :=
  match k with
  | AwaitCreateWindow _ r _ _ _ => r
  | AwaitCommandResult _ r _ => r
  end.

Definition k_sessionId (k : Continuation) : string :=
  match k with
  | AwaitCreateWindow _ _ s _ _ => s
  | AwaitCommandResult _ _ s => s
  end.

(** The code a rejection surfaces under, by the [catch] that receives it. *)
Definition k_failure_code (k : Continuation) : string :=
  match k with
  | AwaitCreateWindow _ _ _ _ _ => "WINDOW_CREATION_FAILED"
  | AwaitCommandResult _ _ _ => "COMMAND_FAILED"
  end.







Definition is_client_error (code : string) (o : Output) : bool :=
  match o with
  | SendClient _ (ErrorMessage _ _ c _) => String.eqb c code
  | _ => false
  end.

(** An environment with no Chrome on disk, and one where Chromium starts. *)
Definition env_at (t : Z) : Env :=
  {| now := t; existsSync := fun _ => false; spawn := fun _ => None;
     WS_PORT := 9876; TypeError_message := "No default value" |}.

Definition env_chrome (t : Z) : Env :=
  {| now := t; existsSync := String.eqb "/usr/bin/chromium";
     spawn := fun _ => Some 4242; WS_PORT := 9876;
     TypeError_message := "No default value" |}.

(** The tables once the entry of a reply has been retired: its timer
    cleared, its row deleted, its promise settled. *)
Definition retire (reqId : string) (pending : PendingRequest) (st : State) : State :=
  set_promises (JsMap.delete (pr_promise pending) (promises st))
    (set_pendingRequests (JsMap.delete reqId (pendingRequests st))
       (set_timers (JsMap.delete (pr_timeout pending) (timers st)) st)).

(** The connection record [handleExtensionHello] binds. *)
Definition hello_connection (env : Env) (ws : Conn) (payload : option HelloPayload)
  : ExtensionConnection :=
  {| ec_ws := ws;
     ec_profileId :=
       match payload with
       | Some p =>
           match hp_profileId p with
           | Some s => if String.eqb s EmptyString then "default" else s
           | None => "default"
           end
       | None => "default"
       end;
     ec_capabilities :=
       match payload with
       | Some p => default [] (hp_capabilities p)
       | None => []
       end;
     ec_connectedAt := now env |}.

(** The frame a rejected promise surfaces as, by the [catch] of its
    [handleCommand]. *)
Definition failure_frame (message : string) (k : Continuation) : Output :=
  SendClient (k_client k)
    (ErrorMessage (k_reqId k) (k_sessionId k) (k_failure_code k) message).

(** The test of the sweeper. *)
Definition stale (env : Env) (session : ClientSession) : bool :=
  CLIENT_KEEPALIVE_TIMEOUT_MS <? now env - cs_lastSeen session.

Definition to_client (o : Output) : bool :=
  match o with
  | SendClient _ _ => true
  | _ => false
  end.

(** ** Scenarios of the specification, as runs *)

Definition navigate : list (string * json) := [("url", JStr "https://example.com")].

(** S1 up to the moment the command is on its way to the extension. *)
Definition s1_forwarded_events : list (Env * Event) :=
  [ (env_at 1000, WsMessage 1%nat (Some (MRegister "s1" "L")));
    (env_at 2000, WsMessage 9%nat (Some (MHello None)));
    (env_at 3000, WsMessage 1%nat (Some (MCommand "r1" "s1" "navigate" navigate)));
    (env_at 3100, WsMessage 9%nat
       (Some (MRouteResult "req_1_2bc" None (Some (JObj [("windowId", JNum 42)]))))) ].

Definition s1_forwarded : State := fst (run initial s1_forwarded_events).

(** S1 to its end. *)
Definition s1_events : list (Env * Event) :=
  s1_forwarded_events ++
  [ (env_at 3200, WsMessage 9%nat
       (Some (MRouteResult "req_2_2e4" None
                (Some (JObj [("success", JBool true);
                             ("url", JStr "https://example.com")]))))) ].

Definition s1_done : State := fst (run initial s1_events).

(** The frame the extension writes when a session window is removed. *)
Definition window_closed (sessionId : string) (windowId : Z) : Message :=
  MOther "window_closed"
    [("payload", JObj [("sessionId", JStr sessionId); ("windowId", JNum windowId)])].

(** Two clients and the extension, no command yet. *)
Definition two_clients : State :=
  fst (run initial
         [ (env_at 1000, WsMessage 1%nat (Some (MRegister "A" "first")));
           (env_at 1100, WsMessage 2%nat (Some (MRegister "B" "second")));
           (env_at 2000, WsMessage 9%nat (Some (MHello None))) ]).

(** Polls of one waiting command, 500 ms apart; the sleep before the poll
    at [500 * (i + 1)] has handle [i]. *)
Definition polls (first count : nat) : list (Env * Event) :=
  map (fun i => (env_chrome (500 * Z.of_nat (S i)), PollWake i)) (seq first count).

(** A command arrives while nothing is attached and Chromium can start; it
    has polled 29 times, the last time at 14.5 s. *)
Definition waiting_events : list (Env * Event) :=
  (env_chrome 0, WsMessage 1%nat (Some (MCommand "r1" "s1" "navigate" navigate)))
  :: polls 0 29.

Definition waiting : State := fst (run initial waiting_events).

(** The frame that answers a command when no extension could be reached. *)
Definition not_connected_frame (ws : Conn) (reqId sessionId : string) : Output :=
  SendClient ws
    (ErrorMessage reqId sessionId "EXTENSION_NOT_CONNECTED"
       "Extension not connected and Chrome failed to start").

(** A sleeping poll that goes back to sleep at [t]. *)
Definition snooze (t : Z) (z : Sleeper) : Sleeper :=
  {| sl_startTime := sl_startTime z; sl_wakeAt := t + 500;
     sl_clientWs := sl_clientWs z; sl_reqId := sl_reqId z;
     sl_sessionId := sl_sessionId z; sl_command := sl_command z;
     sl_params := sl_params z |}.

(** A client that registered at 1 s and never sent a keepalive has a command
    on its way when the sweeper runs. *)
Definition busy_stale_events : list (Env * Event) :=
  [ (env_at 1000, WsMessage 1%nat (Some (MRegister "s1" "L")));
    (env_at 2000, WsMessage 9%nat (Some (MHello None)));
    (env_at 60000, WsMessage 1%nat (Some (MCommand "r1" "s1" "navigate" navigate)));
    (env_at 60100, WsMessage 9%nat
       (Some (MRouteResult "req_1_1aao" None (Some (JObj [("windowId", JNum 42)]))))) ].

Definition busy_stale : State := fst (run initial busy_stale_events).

(** A client registered as A sends a command in the name of B. *)
Definition borrowed_name_events : list (Env * Event) :=
  [ (env_at 1000, WsMessage 1%nat (Some (MRegister "A" "first")));
    (env_at 1100, WsMessage 2%nat (Some (MRegister "B" "second")));
    (env_at 2000, WsMessage 9%nat (Some (MHello None)));
    (env_at 3000, WsMessage 1%nat (Some (MCommand "r1" "B" "get_tabs" []))) ].

(** ** daemon/server.ts: the two intervals, start and stop *)

(** [staleCheckInterval] and [extensionPingInterval]: the handle of the
    armed interval, or null. *)
Record Intervals := {
  staleCheckInterval : option Handle;
  extensionPingInterval : option Handle;
}.

Definition startExtensionPing (iv : Intervals) : Act Intervals :=
  match extensionPingInterval iv with
  | Some _ => mret iv
  | None =>
      h ← fresh;
      mret {| staleCheckInterval := staleCheckInterval iv;
              extensionPingInterval := Some h |}
  end.

Definition stopExtensionPing (iv : Intervals) : Intervals :=
  match extensionPingInterval iv with
  | Some _ => {| staleCheckInterval := staleCheckInterval iv;
                 extensionPingInterval := None |}
  | None => iv
  end.

(** [startServer] once [Bun.serve] has returned: the sweeper and the ping
    are armed. *)
Definition startServer (iv : Intervals) : Act Intervals :=
  h ← fresh;
  startExtensionPing {| staleCheckInterval := Some h;
                        extensionPingInterval := extensionPingInterval iv |}.

(** [ws.close(1000, ...)] inside [try]: the close is asked for, a throw is
    ignored. *)
Definition stopServer (iv : Intervals) : Act Intervals :=
  let iv :=
    match staleCheckInterval iv with
    | Some _ => {| staleCheckInterval := None;
                   extensionPingInterval := extensionPingInterval iv |}
    | None => iv
    end in
  let iv := stopExtensionPing iv in
  (* Close all client connections *)
  sessions ← gets clientSessions;
  for_each sessions (fun '(_, session) =>
    emit (CloseConn (cs_ws session) 1000 "Daemon shutting down"));;
  modify (set_clientSessions []);;
  (* Close extension connection *)
  ext ← gets extensionConnection;
  match ext with
  | Some e =>
      emit (CloseConn (ec_ws e) 1000 "Daemon shutting down");;
      setExtensionConnection None
  | None => mret tt
  end;;
  mret iv.

(** ** Vocabulary of the further properties *)

(** The window cache against the session table: a cached id is registered,
    a session is stored under its own id, and a session whose windowId is
    not null has a truthy windowId and is cached. *)
Definition sessions_ok (cache : gset string) (sessions : list (string * ClientSession)) : Prop :=
  (forall sid, sid ∈ cache -> exists s, JsMap.get sid sessions = Some s)
  /\ (forall sid s, JsMap.get sid sessions = Some s ->
        cs_sessionId s = sid
        /\ (cs_windowId s = JNull
            \/ (truthy (Some (cs_windowId s)) = true /\ sid ∈ cache))).

(** What the callbacks keep besides [well_formed]: no tab route is ever
    stored, the cache agrees with the sessions, and requests are pending only
    while an extension is bound. *)
Definition tidy (st : State) : Prop :=
  tabRouting st = []
  /\ sessions_ok (windowCache st) (clientSessions st)
  /\ (extensionConnection st = None -> pendingRequests st = []).

(** The frames that refresh a session: a register or a keepalive in its name. *)
Definition refreshes (sid : string) (ev : Event) : Prop :=
  match ev with
  | WsMessage _ (Some (MRegister s _)) => s = sid
  | WsMessage _ (Some (MKeepalive s)) => s = sid
  | _ => False
  end.

(** The tables once a request has lost its row and its timer while its
    promise was left unsettled. *)
Definition stranded (reqId : string) (pending : PendingRequest) (st : State) : State :=
  set_pendingRequests (JsMap.delete reqId (pendingRequests st))
    (set_timers (JsMap.delete (pr_timeout pending) (timers st)) st).

(** The tables once a request is answered or expired: what stays of
    [sendCommandToExtension] is the counter and the two handles it took. *)
Definition answered (st : State) : State :=
  set_nextHandle (S (S (nextHandle st)))
    (set_requestIdCounter (requestIdCounter st + 1) st).

(** The tables with a request in flight for the suspended code [k]: row,
    promise and timer as [sendCommandToExtension] stores them. *)
Definition in_flight (env : Env) (sessionId : string) (k : Continuation) (st : State) : State :=
  let reqId := requestId (requestIdCounter st + 1) (now env) in
  set_pendingRequests
    (JsMap.set reqId
       {| pr_promise := nextHandle st; pr_timeout := S (nextHandle st);
          pr_sessionId := sessionId |} (pendingRequests st))
    (set_promises (JsMap.set (nextHandle st) k (promises st))
       (set_timers
          (JsMap.set (S (nextHandle st))
             {| tm_deadline := now env + REQUEST_TIMEOUT_MS; tm_reqId := reqId;
                tm_promise := nextHandle st |} (timers st))
          (answered st))).

(** A tag that [websocket.message] cannot classify: neither hello nor one of
    the client or extension tags it lists. *)
Definition unlisted (type : string) : bool :=
  negb (String.eqb type "hello") && negb (is_client_type type)
  && negb (is_extension_type type).

(** The route ids among the frames written. *)
Definition route_id (o : Output) : option string :=
  match o with
  | SendExtension _ (Route reqId _ _ _) => Some reqId
  | _ => None
  end.

Definition route_ids (out : list Output) : list string := omap route_id out.

(** A command frame from [ws] under [reqId] and [sessionId]; a register
    frame from [ws] for [sessionId]. *)
Definition asks (ws : Conn) (reqId sessionId : string) (ev : Event) : Prop :=
  match ev with
  | WsMessage ws' (Some (MCommand r s _ _)) => ws' = ws /\ r = reqId /\ s = sessionId
  | _ => False
  end.

Definition registers (ws : Conn) (sessionId : string) (ev : Event) : Prop :=
  match ev with
  | WsMessage ws' (Some (MRegister s _)) => ws' = ws /\ s = sessionId
  | _ => False
  end.

(** A frame to a client answers a frame of [C] (commands) or [R]
    (registrations). *)
Definition reply_ok (C : Conn -> string -> string -> Prop) (R : Conn -> string -> Prop)
    (o : Output) : Prop :=
  match o with
  | SendClient ws (Response r s _) => C ws r s
  | SendClient ws (ErrorMessage r s _ _) => C ws r s
  | SendClient ws (Registered s success) => success = true /\ R ws s
  | _ => True
  end.

Definition asked_promises (C : Conn -> string -> string -> Prop)
    (ps : list (Handle * Continuation)) : Prop :=
  forall h k, JsMap.get h ps = Some k -> C (k_client k) (k_reqId k) (k_sessionId k).

Definition asked_sleepers (C : Conn -> string -> string -> Prop)
    (zs : list (Handle * Sleeper)) : Prop :=
  forall h z, JsMap.get h zs = Some z -> C (sl_clientWs z) (sl_reqId z) (sl_sessionId z).

(** Every suspended [handleCommand] serves a command of [C]. *)
Definition awaiting_asked (C : Conn -> string -> string -> Prop) (st : State) : Prop :=
  asked_promises C (promises st) /\ asked_sleepers C (sleepers st).

(** The error frames of the daemon: its three codes. *)
Definition daemon_error (o : Output) : Prop :=
  match o with
  | SendClient _ (ErrorMessage _ _ code message) =>
      (code = "EXTENSION_NOT_CONNECTED"
       /\ message = "Extension not connected and Chrome failed to start")
      \/ code = "WINDOW_CREATION_FAILED"
      \/ code = "COMMAND_FAILED"
  | _ => True
  end.

(** A frame tagged hello from [ws]. *)
Definition says_hello (ws : Conn) (ev : Event) : Prop :=
  match ev with
  | WsMessage ws' (Some m) => ws' = ws /\ msg_type m = "hello"
  | _ => False
  end.

(** A frame for the extension goes to a socket of [H]; a socket the daemon
    closes is one of [H], closed with code 4000. *)
Definition extension_ok (H : Conn -> Prop) (o : Output) : Prop :=
  match o with
  | SendExtension ws _ => H ws
  | CloseConn ws code reason =>
      code = 4000 /\ reason = "Extension already connected" /\ H ws
  | SendClient _ _ => True
  end.

Definition bound_in (H : Conn -> Prop) (st : State) : Prop :=
  forall e, extensionConnection st = Some e -> H (ec_ws e).

(** ** Counting the commands of one client request

    A command is told from the others by the socket it came on, its reqId and
    its sessionId; answers carry the same three. *)

Definition hit (c : Conn * string * string) (ws : Conn) (reqId sessionId : string) : nat :=
  if bool_decide ((ws, reqId, sessionId) = c) then 1%nat else 0%nat.

Arguments hit : simpl never.

Definition command_hits (c : Conn * string * string) (ev : Env * Event) : nat :=
  match snd ev with
  | WsMessage ws (Some (MCommand reqId sessionId _ _)) => hit c ws reqId sessionId
  | _ => 0%nat
  end.

Definition answer_hits (c : Conn * string * string) (o : Output) : nat :=
  match o with
  | SendClient ws (Response reqId sessionId _) => hit c ws reqId sessionId
  | SendClient ws (ErrorMessage reqId sessionId _ _) => hit c ws reqId sessionId
  | _ => 0%nat
  end.

Definition await_hits (c : Conn * string * string) (k : Continuation) : nat :=
  hit c (k_client k) (k_reqId k) (k_sessionId k).

Definition sleep_hits (c : Conn * string * string) (z : Sleeper) : nat :=
  hit c (sl_clientWs z) (sl_reqId z) (sl_sessionId z).

(** The command frames received for [c], the response and error frames
    written for it, and the calls of [handleCommand] for it that are
    suspended: awaiting a promise, or asleep waiting for the extension. *)
Definition commands (c : Conn * string * string) (evs : list (Env * Event)) : nat :=
  sum_list_with (command_hits c) evs.

Definition answers (c : Conn * string * string) (out : list Output) : nat :=
  sum_list_with (answer_hits c) out.

Definition suspended (c : Conn * string * string) (st : State) : nat :=
  (sum_list_with (fun e => await_hits c (snd e)) (promises st)
   + sum_list_with (fun e => sleep_hits c (snd e)) (sleepers st))%nat.

(** The handles of a table are below [n]. *)
Definition below {V} (n : Handle) (m : list (Handle * V)) : Prop :=
  forall h v, JsMap.get h m = Some v -> (h < n)%nat.

(** A handle names one promise, one sleeping poll, and is below the next
    fresh one. *)
Definition counted (st : State) : Prop :=
  List.NoDup (JsMap.keys (promises st))
  /\ List.NoDup (JsMap.keys (sleepers st))
  /\ below (nextHandle st) (promises st)
  /\ below (nextHandle st) (sleepers st).





(** ** Further scenarios *)

(** S1 with its command on the way, and then the extension's socket closes. *)
Definition disconnected : State :=
  fst (run initial (s1_forwarded_events ++ [(env_at 4000, WsClose 9%nat)])).

(** Google Chrome is on disk but does not start; Chromium, later in the
    list, would. *)
Definition env_broken (t : Z) : Env :=
  {| now := t;
     existsSync := fun p =>
       String.eqb p "/usr/bin/google-chrome" || String.eqb p "/usr/bin/chromium";
     spawn := fun p => if String.eqb p "/usr/bin/chromium" then Some 4242 else None;
     WS_PORT := 9876; TypeError_message := "No default value" |}.

(** A command that has polled ten times when the extension says hello. *)
Definition waiting_bound : State :=
  fst (run initial
         ((env_chrome 0, WsMessage 1%nat (Some (MCommand "r1" "s1" "navigate" navigate)))
          :: polls 0 10 ++ [(env_chrome 5200, WsMessage 9%nat (Some (MHello None)))])).

(** A reply in the legacy format, with and without a top-level sessionId. *)
Definition legacy_reply (reqId : string) : list (string * json) :=
  [("id", JStr reqId); ("command", JStr "navigate");
   ("result", JObj [("success", JBool true)])].

(** * Properties *)

(** ** Symbolic execution of a callback

    [act_run] unfolds the handlers down to the tables and then splits on
    whatever blocks evaluation (a lookup, a test on the tables), innermost
    first, so that every goal is about one path through the callback. *)

Ltac act_unfold :=
  unfold state_after, written, step, exec, handle, message, handleExtensionMessage,
    handleClientMessage, handleRegister, handleUnregister, handleCommand,
    handleExtensionHello, handleExtensionError, handleRouteResult, handleTabClosed,
    handleWindowClosed, handleLegacyMessage, requestTimeout, pollWake, pollExtension,
    extensionPing, startChrome, ensureWindow,
    registerClient, unregisterClient, updateClientLastSeen, clearAllWindowIds,
    setExtensionConnection, setChromeProcess, broadcastSessionsToExtension,
    clearTimeout, settle, takePromise,
    resume, afterCreateWindow, afterCommandResult, forwardCommand,
    sendCommandToExtension, sendToExtension, sendErrorToClient, sendResponseToClient,
    setClientWindowId, generateRequestId, fresh,
    mbind, mret, Act_bind, Act_ret, gets, modify, emit, ask in *.

Ltac blocking t :=
  lazymatch t with
  | context [match ?x with _ => _ end] => blocking x
  | _ => t
  end.

Ltac act_case :=
  match goal with
  | |- context [match ?x with _ => _ end] =>
      let y := blocking x in
      first [ is_var y; destruct y
            | match goal with H : y = _ |- _ => rewrite H end
            | destruct y eqn:? ];
      cbn -[findChrome purgeTabRouting]
  end.

Ltac act_run :=
  act_unfold; cbn -[findChrome purgeTabRouting]; repeat act_case.

(** ** Insertion-ordered maps *)

Section JsMap_facts.
Context {K V : Type} `{EqDecision K}.
Implicit Types (k : K) (v : V) (m : list (K * V)).

Lemma get_set_eq k v m : JsMap.get k (JsMap.set k v m) = Some v.
Proof.
  induction m as [|[k' v'] m IH]; simpl.
  - by rewrite decide_True.
  - destruct (decide (k = k')) as [->|Hne]; simpl.
    + by rewrite decide_True.
    + by rewrite decide_False.
Qed.

Lemma get_set_ne k k' v m : k <> k' -> JsMap.get k' (JsMap.set k v m) = JsMap.get k' m.
Proof.
  intros Hne. induction m as [|[k0 v0] m IH]; simpl.
  - by rewrite decide_False.
  - destruct (decide (k = k0)) as [->|Hk]; simpl.
    + by rewrite !decide_False.
    + destruct (decide (k' = k0)); done.
Qed.

Lemma get_delete_eq k m : JsMap.get k (JsMap.delete k m) = None.
Proof.
  induction m as [|[k' v'] m IH]; simpl; [done|].
  destruct (decide (k = k')); simpl; [done|]. by rewrite decide_False.
Qed.

Lemma get_delete_ne k k' m : k <> k' -> JsMap.get k' (JsMap.delete k m) = JsMap.get k' m.
Proof.
  intros Hne. induction m as [|[k0 v0] m IH]; simpl; [done|].
  destruct (decide (k = k0)) as [->|Hk]; simpl.
  - by rewrite decide_False.
  - destruct (decide (k' = k0)); done.
Qed.

Lemma delete_absent k m : JsMap.get k m = None -> JsMap.delete k m = m.
Proof.
  induction m as [|[k' v'] m IH]; simpl; [done|].
  destruct (decide (k = k')); [done|]. intros Hm. by rewrite IH.
Qed.

Lemma get_Some_In k v m : JsMap.get k m = Some v -> In (k, v) m.
Proof.
  induction m as [|[k' v'] m IH]; simpl; [done|].
  destruct (decide (k = k')) as [->|]; [intros [= ->]; by left | auto].
Qed.

Lemma In_delete k k' v m : In (k', v) (JsMap.delete k m) -> In (k', v) m /\ k' <> k.
Proof.
  induction m as [|[k0 v0] m IH]; simpl; [done|].
  destruct (decide (k = k0)) as [->|Hk]; simpl.
  - intros Hin. destruct (IH Hin). auto.
  - intros [[= -> ->]|Hin]; [split; [by left|congruence]|].
    destruct (IH Hin). auto.
Qed.

Lemma get_absent_keys k m : ~ In k (JsMap.keys m) -> JsMap.get k m = None.
Proof.
  unfold JsMap.keys. induction m as [|[k' v'] m IH]; simpl; [done|].
  intros Hnot. rewrite decide_False by (intros ->; apply Hnot; by left).
  apply IH. intros Hin. apply Hnot. by right.
Qed.

Lemma get_app_absent k m1 m2 :
  ~ In k (JsMap.keys m1) -> JsMap.get k (m1 ++ m2) = JsMap.get k m2.
Proof.
  unfold JsMap.keys. induction m1 as [|[k' v'] m1 IH]; simpl; [done|].
  intros Hnot. rewrite decide_False by (intros ->; apply Hnot; by left).
  apply IH. intros Hin. apply Hnot. by right.
Qed.

Lemma delete_app k m1 m2 :
  JsMap.delete k (m1 ++ m2) = JsMap.delete k m1 ++ JsMap.delete k m2.
Proof.
  induction m1 as [|[k' v'] m1 IH]; simpl; [done|].
  destruct (decide (k = k')); simpl; by rewrite IH.
Qed.

Lemma NoDup_keys_middle k v m1 m2 :
  List.NoDup (JsMap.keys (m1 ++ (k, v) :: m2)) ->
  ~ In k (JsMap.keys m1) /\ ~ In k (JsMap.keys m2)
  /\ List.NoDup (JsMap.keys (m1 ++ m2)).
Proof.
  unfold JsMap.keys. rewrite !map_app. simpl. intros Hnd.
  pose proof (NoDup_remove_1 _ _ _ Hnd) as H1.
  pose proof (NoDup_remove_2 _ _ _ Hnd) as H2.
  rewrite in_app_iff in H2. tauto.
Qed.

Lemma NoDup_keys_functional k v1 v2 m :
  List.NoDup (JsMap.keys m) -> In (k, v1) m -> In (k, v2) m -> v1 = v2.
Proof.
  unfold JsMap.keys. induction m as [|[k' v'] m IH]; simpl; [done|].
  intros Hnd. apply NoDup_cons_iff in Hnd as [Hk Hnd].
  assert (forall v, In (k', v) m -> False) as Hfresh.
  { intros v Hin. apply Hk. apply in_map_iff. by exists (k', v). }
  intros [[= -> ->]|H1] [[= ->]|H2].
  - done.
  - exfalso. eauto.
  - subst. exfalso. eauto.
  - by apply IH.
Qed.
End JsMap_facts.

(** ** Request ids *)

Lemma pretty_N_go_underscore_free x s :
  underscore_free s = true -> underscore_free (pretty_N_go x s) = true.
Proof.
  revert s. induction (N.lt_wf_0 x) as [x _ IH]; intros s Hs.
  assert (x = 0 \/ 0 < x)%N as [->|Hpos] by lia.
  - by rewrite pretty_N_go_0.
  - rewrite pretty_N_go_step by done. apply IH.
    + by apply N.div_lt.
    + simpl. rewrite Hs. unfold pretty_N_char. by repeat case_match.
Qed.

Lemma pretty_Z_underscore_free (c : Z) : underscore_free (pretty c) = true.
Proof.
  assert (forall n : N, underscore_free (pretty n) = true) as HN.
  { intros n. unfold pretty, pretty_N. case_decide; [done|].
    by apply pretty_N_go_underscore_free. }
  destruct c as [|p|p]; [done|apply (HN (Npos p))|].
  unfold pretty, pretty_Z. simpl. apply (HN (Npos p)).
Qed.

Lemma underscore_splits (a b x y : string) :
  underscore_free a = true -> underscore_free b = true ->
  a +:+ String "_" x = b +:+ String "_" y -> a = b.
Proof.
  revert b. induction a as [|ch a IH]; intros [|ch' b] Ha Hb; simpl in *.
  - done.
  - intros [= <- _]. simpl in Hb. done.
  - intros [= -> _]. simpl in Ha. done.
  - intros [= -> Heq]. f_equal.
    apply andb_prop in Ha as [_ Ha]. apply andb_prop in Hb as [_ Hb]. eauto.
Qed.

Lemma requestId_inj_counter (c c' t t' : Z) :
  requestId c t = requestId c' t' -> c = c'.
Proof.
  unfold requestId. intros Heq.
  assert ("req_" +:+ (pretty c +:+ String "_" (toString36 t))
          = "req_" +:+ (pretty c' +:+ String "_" (toString36 t'))) as Heq'.
  { exact Heq. }
  simpl in Heq'. injection Heq' as Heq'.
  apply underscore_splits in Heq'; auto using pretty_Z_underscore_free.
  by apply (inj pretty).
Qed.

Lemma issued_fresh (st : State) (r : string) (p : PendingRequest) (t : Z) :
  issued st -> In (r, p) (pendingRequests st) ->
  requestId (requestIdCounter st + 1) t <> r.
Proof.
  intros Hiss Hin Heq. destruct (Hiss r p Hin) as (c & t' & -> & Hle).
  apply requestId_inj_counter in Heq. lia.
Qed.

Lemma resume_pendingRequests (k : Continuation) (o : Settlement) (env : Env) (st : State) :
  pendingRequests (state_after (resume k o) env st) = pendingRequests st
  \/ exists p, pendingRequests (state_after (resume k o) env st)
               = JsMap.set (requestId (requestIdCounter st + 1) (now env)) p
                   (pendingRequests st).
Proof.
  destruct k, o; act_run; eauto.
Qed.

Lemma unknown_reply_dropped (env : Env) (st : State) (ws : Conn) (m : Message) (reqId : string) :
  reqId_of m = Some reqId ->
  JsMap.get reqId (pendingRequests st) = None ->
  step st (env, WsMessage ws (Some m)) = (st, []).
Proof.
  intros Hreq Hnone.
  destruct m; try discriminate; act_unfold; cbn in *; rewrite Hreq; cbn;
    rewrite Hnone; reflexivity.
Qed.

(** A reply whose row is pending and whose promise is unsettled. *)
Lemma reply_settles_row (env : Env) (st : State) (ws : Conn)
    (m : Message) (reqId : string) (pending : PendingRequest) (k : Continuation) :
  reqId_of m = Some reqId ->
  JsMap.get reqId (pendingRequests st) = Some pending ->
  JsMap.get (pr_promise pending) (promises st) = Some k ->
  let st1 := retire reqId pending st in
  let st' := fst (step st (env, WsMessage ws (Some m))) in
  (forall ws', step st (env, WsMessage ws' (Some m)) = step st (env, WsMessage ws (Some m)))
  /\ JsMap.get reqId (pendingRequests st1) = None
  /\ JsMap.get (pr_promise pending) (promises st1) = None
  /\ JsMap.get (pr_timeout pending) (timers st1) = None
  /\ step st (env, WsMessage ws (Some m)) = exec (resume k (reply_outcome m)) env st1
  /\ (issued st ->
      forall env' ws', step st' (env', WsMessage ws' (Some m)) = (st', [])).
Proof.
  intros Hreq Hpending Hpromise st1 st'.
  assert (step st (env, WsMessage ws (Some m)) = exec (resume k (reply_outcome m)) env st1)
    as Hstep.
  { subst st1. unfold retire, reply_outcome.
    destruct m; try discriminate; unfold step, exec, handle, message, handleExtensionMessage,
      handleExtensionError, handleRouteResult, clearTimeout, settle, takePromise,
      mbind, mret, Act_bind, Act_ret, gets, modify; cbn in *; rewrite Hreq; cbn;
      rewrite Hpending; cbn; rewrite Hpromise; cbn;
      match goal with |- context [resume ?k ?o ?e ?s] => destruct (resume k o e s) as [[[] ?] ?] end;
      reflexivity. }
  split; [|split; [|split; [|split; [|split]]]].
  - intros ws'. unfold step, exec, handle, message.
    destruct m; try discriminate; reflexivity.
  - apply get_delete_eq.
  - apply get_delete_eq.
  - apply get_delete_eq.
  - exact Hstep.
  - intros Hissued env' ws'. apply unknown_reply_dropped with (reqId := reqId); [done|].
    subst st'. rewrite Hstep. unfold exec.
    pose proof (resume_pendingRequests k (reply_outcome m) env st1) as Hres.
    unfold state_after, exec in Hres.
    destruct (resume k (reply_outcome m) env st1) as [[[] st2] out]. simpl in *.
    destruct Hres as [->| [p ->]].
    + apply get_delete_eq.
    + rewrite get_set_ne; [apply get_delete_eq|].
      apply issued_fresh with (p := pending); [done|by apply get_Some_In].
Qed.

(** ** Requests and their deadline *)

Lemma sendCommandToExtension_arms (env : Env) (st : State) (e : ExtensionConnection)
    (command : string) (params : list (string * json)) (sessionId : string)
    (k : Continuation) :
  extensionConnection st = Some e ->
  let reqId := requestId (requestIdCounter st + 1) (now env) in
  let promise := nextHandle st in
  let timeout := S (nextHandle st) in
  let st' := state_after (sendCommandToExtension command params sessionId k) env st in
  written (sendCommandToExtension command params sessionId k) env st
  = [SendExtension (ec_ws e)
       (Route reqId sessionId command (assign "sessionId" (JStr sessionId) params))]
  /\ JsMap.get reqId (pendingRequests st')
     = Some {| pr_promise := promise; pr_timeout := timeout; pr_sessionId := sessionId |}
  /\ JsMap.get timeout (timers st')
     = Some {| tm_deadline := now env + 30000; tm_reqId := reqId; tm_promise := promise |}
  /\ JsMap.get promise (promises st') = Some k.
Proof.
  intros Hext. act_unfold. cbn. rewrite Hext. cbn. rewrite Hext. cbn.
  repeat split; apply get_set_eq.
Qed.

(** ** Commands and the window cache *)

Lemma command_without_window (env : Env) (st : State) (e : ExtensionConnection)
    (clientWs : Conn) (reqId sessionId command : string) (params : list (string * json)) :
  extensionConnection st = Some e ->
  sessionId ∉ windowCache st ->
  exec (handleCommand reqId sessionId command params clientWs) env st
  = exec (sendCommandToExtension "create_window" [("sessionId", JStr sessionId)] sessionId
            (AwaitCreateWindow clientWs reqId sessionId command params)) env st.
Proof.
  intros Hext Hcache.
  unfold exec, handleCommand, ensureWindow, mbind, mret, Act_bind, Act_ret, gets. cbn.
  rewrite Hext. cbn. rewrite decide_False by done.
  destruct (sendCommandToExtension "create_window" [("sessionId", JStr sessionId)] sessionId
              (AwaitCreateWindow clientWs reqId sessionId command params) env st)
    as [[r st'] out] eqn:Hsend.
  revert Hsend.
  unfold sendCommandToExtension, sendToExtension, generateRequestId, fresh,
    mbind, mret, Act_bind, Act_ret, gets, modify, emit, ask.
  cbn. rewrite Hext. cbn. rewrite Hext. intros [= <- <- <-]. reflexivity.
Qed.

Lemma command_with_window (env : Env) (st : State) (e : ExtensionConnection)
    (clientWs : Conn) (reqId sessionId command : string) (params : list (string * json)) :
  extensionConnection st = Some e ->
  sessionId ∈ windowCache st ->
  exec (handleCommand reqId sessionId command params clientWs) env st
  = exec (sendCommandToExtension command params sessionId
            (AwaitCommandResult clientWs reqId sessionId)) env st.
Proof.
  intros Hext Hcache.
  unfold exec, handleCommand, ensureWindow, forwardCommand, mbind, mret, Act_bind, Act_ret, gets.
  cbn. rewrite Hext. cbn. rewrite decide_True by done.
  destruct (sendCommandToExtension command params sessionId
              (AwaitCommandResult clientWs reqId sessionId) env st) as [[r st'] out] eqn:Hsend.
  revert Hsend.
  unfold sendCommandToExtension, sendToExtension, generateRequestId, fresh,
    mbind, mret, Act_bind, Act_ret, gets, modify, emit, ask.
  cbn. rewrite Hext. cbn. rewrite Hext. intros [= <- <- <-]. reflexivity.
Qed.

Lemma step_command (env : Env) (st : State) (ws : Conn) (reqId sessionId command : string)
    (params : list (string * json)) :
  step st (env, WsMessage ws (Some (MCommand reqId sessionId command params)))
  = exec (handleCommand reqId sessionId command params ws) env st.
Proof. reflexivity. Qed.

(** A due timer whose promise is unsettled. *)
Lemma timeout_settles_row (env : Env) (st : State) (timer : Handle) (t : Timer)
    (k : Continuation) :
  JsMap.get timer (timers st) = Some t ->
  tm_deadline t <= now env ->
  JsMap.get (tm_promise t) (promises st) = Some k ->
  let st' := fst (step st (env, RequestTimeout timer)) in
  let out := snd (step st (env, RequestTimeout timer)) in
  st' = set_promises (JsMap.delete (tm_promise t) (promises st))
          (set_pendingRequests (JsMap.delete (tm_reqId t) (pendingRequests st))
             (set_timers (JsMap.delete timer (timers st)) st))
  /\ JsMap.get (tm_reqId t) (pendingRequests st') = None
  /\ out = [SendClient (k_client k)
              (ErrorMessage (k_reqId k) (k_sessionId k) (k_failure_code k)
                 "Request timed out")]
  /\ (forall env' ws' m, reqId_of m = Some (tm_reqId t) ->
        step st' (env', WsMessage ws' (Some m)) = (st', []))
  /\ (forall env0 st0 e command params sessionId k0,
        extensionConnection st0 = Some e ->
        let st1 := state_after (sendCommandToExtension command params sessionId k0) env0 st0 in
        let reqId := requestId (requestIdCounter st0 + 1) (now env0) in
        JsMap.get reqId (pendingRequests st1)
        = Some {| pr_promise := nextHandle st0; pr_timeout := S (nextHandle st0);
                  pr_sessionId := sessionId |}
        /\ JsMap.get (S (nextHandle st0)) (timers st1)
           = Some {| tm_deadline := now env0 + REQUEST_TIMEOUT_MS; tm_reqId := reqId;
                     tm_promise := nextHandle st0 |}
        /\ JsMap.get (nextHandle st0) (promises st1) = Some k0
        /\ REQUEST_TIMEOUT_MS = 30000)
  /\ (forall env0 st0 e clientWs reqId sessionId command params,
        extensionConnection st0 = Some e ->
        exec (handleCommand reqId sessionId command params clientWs) env0 st0
        = if decide (sessionId ∈ windowCache st0) then
            exec (sendCommandToExtension command params sessionId
                    (AwaitCommandResult clientWs reqId sessionId)) env0 st0
          else
            exec (sendCommandToExtension "create_window" [("sessionId", JStr sessionId)]
                    sessionId
                    (AwaitCreateWindow clientWs reqId sessionId command params)) env0 st0).
Proof.
  intros Htimer Hdue Hpromise st' out.
  assert (step st (env, RequestTimeout timer)
          = (set_promises (JsMap.delete (tm_promise t) (promises st))
               (set_pendingRequests (JsMap.delete (tm_reqId t) (pendingRequests st))
                  (set_timers (JsMap.delete timer (timers st)) st)),
             [SendClient (k_client k)
                (ErrorMessage (k_reqId k) (k_sessionId k) (k_failure_code k)
                   "Request timed out")])) as Hstep.
  { unfold step, exec, handle, requestTimeout, settle, takePromise,
      mbind, mret, Act_bind, Act_ret, gets, modify, ask. cbn.
    rewrite Htimer. cbn.
    replace (tm_deadline t <=? now env) with true by (symmetry; by apply Z.leb_le).
    cbn. rewrite Hpromise. cbn. destruct k; reflexivity. }
  subst st' out. rewrite Hstep. cbn [fst snd].
  split; [reflexivity|]. split; [apply get_delete_eq|]. split; [reflexivity|].
  split; [|split].
  - intros env' ws' m Hreq. apply unknown_reply_dropped with (reqId := tm_reqId t); [done|].
    apply get_delete_eq.
  - intros env0 st0 e command params sessionId k0 Hext.
    destruct (sendCommandToExtension_arms env0 st0 e command params sessionId k0 Hext)
      as (_ & Hp & Ht & Hk).
    auto.
  - intros env0 st0 e clientWs reqId sessionId command params Hext.
    destruct (decide (sessionId ∈ windowCache st0)).
    + by apply command_with_window with (e := e).
    + by apply command_without_window with (e := e).
Qed.

(** ** The reply to a create_window *)


(** ** The extension attaches *)

Lemma duplicate_hello (env : Env) (st : State) (ws : Conn) (e : ExtensionConnection)
    (payload : option HelloPayload) :
  extensionConnection st = Some e -> ec_ws e <> ws ->
  step st (env, WsMessage ws (Some (MHello payload)))
  = (st, [CloseConn ws 4000 "Extension already connected"]).
Proof.
  intros Hext Hne.
  unfold step, exec, handle, message, mbind, Act_bind, gets. cbn.
  rewrite Hext. rewrite bool_decide_eq_true_2 by done. reflexivity.
Qed.

Lemma accepted_hello (env : Env) (st : State) (ws : Conn) (payload : option HelloPayload) :
  (forall e, extensionConnection st = Some e -> ec_ws e = ws) ->
  step st (env, WsMessage ws (Some (MHello payload)))
  = exec (handleExtensionHello payload ws) env st.
Proof.
  intros Hsame.
  unfold step, exec, handle, message, handleExtensionMessage, mbind, Act_bind, gets. cbn.
  destruct (extensionConnection st) as [e|] eqn:Hext.
  - rewrite bool_decide_eq_false_2 by (intros Hne; apply Hne; by apply Hsame).
    by destruct (handleExtensionHello payload ws env st) as [[[] ?] ?].
  - by destruct (handleExtensionHello payload ws env st) as [[[] ?] ?].
Qed.

Lemma handleExtensionHello_state (env : Env) (st : State) (ws : Conn)
    (payload : option HelloPayload) :
  state_after (handleExtensionHello payload ws) env st
  = set_extensionConnection (Some (hello_connection env ws payload))
      (set_tabRouting []
         (set_windowCache ∅
            (set_clientSessions
               (map (fun '(k, session) => (k, with_windowId JNull session))
                  (clientSessions st)) st))).
Proof.
  unfold state_after, exec, handleExtensionHello, clearAllWindowIds, setExtensionConnection,
    broadcastSessionsToExtension, sendToExtension,
    mbind, mret, Act_bind, Act_ret, gets, modify, emit, ask.
  reflexivity.
Qed.


Lemma keys_cleared (l : list (string * ClientSession)) :
  JsMap.keys (map (fun '(k, session) => (k, with_windowId JNull session)) l) = JsMap.keys l.
Proof.
  unfold JsMap.keys. induction l as [|[k s0] l IH]; simpl; [done|]. by rewrite IH.
Qed.



(** ** The extension goes away *)

Lemma resume_rejected (k : Continuation) (message : string) (env : Env) (st : State) :
  resume k (Rejected message) env st = (tt, st, [failure_frame message k]).
Proof. by destruct k. Qed.

Lemma for_each_rejected (ks : list Continuation) (message : string) (env : Env) (st : State) :
  for_each ks (fun k => resume k (Rejected message)) env st
  = (tt, st, map (failure_frame message) ks).
Proof.
  induction ks as [|k ks IH]; [done|].
  simpl. unfold mbind, Act_bind. rewrite resume_rejected, IH. reflexivity.
Qed.

Lemma rejectAll_spec (table : list (string * PendingRequest)) (env : Env) (st : State) :
  exists ks ps ts,
    rejectAll table env st = (ks, set_promises ps (set_timers ts st), [])
    /\ (forall h k, JsMap.get h ps = Some k -> JsMap.get h (promises st) = Some k)
    /\ (forall h t, JsMap.get h ts = Some t -> JsMap.get h (timers st) = Some t)
    /\ (forall r p, In (r, p) table ->
          JsMap.get (pr_promise p) ps = None /\ JsMap.get (pr_timeout p) ts = None)
    /\ (forall r p k, In (r, p) table ->
          JsMap.get (pr_promise p) (promises st) = Some k -> In k ks)
    /\ (forall k, In k ks -> exists h, JsMap.get h (promises st) = Some k).
Proof.
  revert st. induction table as [|[r0 p0] table IH]; intros st.
  - exists [], (promises st), (timers st). destruct st. simpl.
    repeat split; auto; contradiction.
  - set (st1 := set_promises (JsMap.delete (pr_promise p0) (promises st))
                  (set_timers (JsMap.delete (pr_timeout p0) (timers st)) st)).
    destruct (IH st1) as (ks & ps & ts & Hrun & Hps & Hts & Hgone & Hin & Hfrom).
    assert (forall h k, JsMap.get h ps = Some k -> JsMap.get h (promises st) = Some k) as Hps'.
    { intros h k Hk. apply Hps in Hk. simpl in Hk.
      destruct (decide (pr_promise p0 = h)) as [<-|Hne].
      - by rewrite get_delete_eq in Hk.
      - by rewrite get_delete_ne in Hk. }
    assert (forall h t, JsMap.get h ts = Some t -> JsMap.get h (timers st) = Some t) as Hts'.
    { intros h t Ht. apply Hts in Ht. simpl in Ht.
      destruct (decide (pr_timeout p0 = h)) as [<-|Hne].
      - by rewrite get_delete_eq in Ht.
      - by rewrite get_delete_ne in Ht. }
    assert (JsMap.get (pr_promise p0) ps = None) as Hp0.
    { destruct (JsMap.get (pr_promise p0) ps) eqn:E; [|done].
      apply Hps in E. simpl in E. by rewrite get_delete_eq in E. }
    assert (JsMap.get (pr_timeout p0) ts = None) as Ht0.
    { destruct (JsMap.get (pr_timeout p0) ts) eqn:E; [|done].
      apply Hts in E. simpl in E. by rewrite get_delete_eq in E. }
    destruct (JsMap.get (pr_promise p0) (promises st)) as [k0|] eqn:Hk0.
    + exists (k0 :: ks), ps, ts.
      split; [|split; [done|split; [done|split; [|split]]]].
      * simpl. unfold clearTimeout, takePromise, mbind, mret, Act_bind, Act_ret, gets, modify.
        cbn. rewrite Hk0. cbn. fold st1. rewrite Hrun. reflexivity.
      * intros r p [[= <- <-]|Hin']; [done|]. by apply (Hgone r p).
      * intros r p k [[= <- <-]|Hin'] Hk.
        { rewrite Hk0 in Hk. injection Hk as <-. by left. }
        destruct (decide (pr_promise p0 = pr_promise p)) as [Heq|Hne].
        { rewrite <- Heq, Hk0 in Hk. injection Hk as <-. by left. }
        right. apply (Hin r p k Hin'). simpl. by rewrite get_delete_ne.
      * intros k [<-|Hin']; [eauto|].
        destruct (Hfrom k Hin') as [h Hh]. simpl in Hh. exists h.
        destruct (decide (pr_promise p0 = h)) as [<-|Hne].
        { by rewrite get_delete_eq in Hh. }
        by rewrite get_delete_ne in Hh.
    + exists ks, ps, ts.
      split; [|split; [done|split; [done|split; [|split]]]].
      * simpl. unfold clearTimeout, takePromise, mbind, mret, Act_bind, Act_ret, gets, modify.
        cbn. rewrite Hk0. cbn.
        replace (set_timers (JsMap.delete (pr_timeout p0) (timers st)) st) with st1.
        { rewrite Hrun. reflexivity. }
        subst st1. rewrite (delete_absent _ _ Hk0). by destruct st.
      * intros r p [[= <- <-]|Hin']; [done|]. by apply (Hgone r p).
      * intros r p k [[= <- <-]|Hin'] Hk; [congruence|].
        apply (Hin r p k Hin'). simpl. rewrite get_delete_ne; [done|congruence].
      * intros k Hin'. destruct (Hfrom k Hin') as [h Hh]. simpl in Hh. exists h.
        destruct (decide (pr_promise p0 = h)) as [<-|Hne].
        { by rewrite get_delete_eq in Hh. }
        by rewrite get_delete_ne in Hh.
Qed.

(** C3 (amended).  When the bound extension socket closes, in that one
    callback the pending table is emptied, the binding is dropped, the timer of
    every pending request is cleared and its promise rejected with
    "Extension disconnected", which each waiting client receives as a failure
    frame for its own command; nothing else is written.  The window cache, the
    sessions with their windowIds and the tab routes are left as they were. *)
Theorem extension_close_rejects_all (env : Env) (st : State) (ws : Conn)
    (e : ExtensionConnection) :
  extensionConnection st = Some e ->
  ec_ws e = ws ->
  let st' := fst (step st (env, WsClose ws)) in
  let out := snd (step st (env, WsClose ws)) in
  pendingRequests st' = []
  /\ extensionConnection st' = None
  /\ (forall reqId pending, In (reqId, pending) (pendingRequests st) ->
        JsMap.get (pr_promise pending) (promises st') = None
        /\ JsMap.get (pr_timeout pending) (timers st') = None)
  /\ (forall reqId pending k, In (reqId, pending) (pendingRequests st) ->
        JsMap.get (pr_promise pending) (promises st) = Some k ->
        In (failure_frame "Extension disconnected" k) out)
  /\ (forall o, In o out ->
        exists k h, JsMap.get h (promises st) = Some k
                    /\ o = failure_frame "Extension disconnected" k)
  /\ windowCache st' = windowCache st
  /\ clientSessions st' = clientSessions st
  /\ tabRouting st' = tabRouting st.
Proof.
  intros Hext Hws st' out.
  destruct (rejectAll_spec (pendingRequests st) env st)
    as (ks & ps & ts & Hrun & Hps & Hts & Hgone & Hin & Hfrom).
  assert (step st (env, WsClose ws)
          = (set_extensionConnection None
               (set_pendingRequests [] (set_promises ps (set_timers ts st))),
             map (failure_frame "Extension disconnected") ks)) as Hstep.
  { unfold step, exec, handle, close, setExtensionConnection,
      mbind, mret, Act_bind, Act_ret, gets, modify. cbn.
    rewrite Hext. rewrite bool_decide_eq_true_2 by done. rewrite Hrun.
    rewrite for_each_rejected. reflexivity. }
  subst st' out. rewrite Hstep. cbn [fst snd].
  split; [done|]. split; [done|]. split; [exact Hgone|]. split.
  { intros reqId pending k Hp Hk. apply in_map. by apply (Hin reqId pending). }
  split.
  { intros o Ho. apply in_map_iff in Ho as (k & <- & Hk).
    destruct (Hfrom k Hk) as [h Hh]. eauto. }
  done.
Qed.

(** ** Sessions leave *)

Lemma purge_fold_In (sessionId : string) (l acc : list (Z * string)) (t : Z) (s : string) :
  In (t, s)
     (foldl (fun acc '(tabId, sid) =>
               if decide (sid = sessionId) then JsMap.delete tabId acc else acc) acc l) ->
  In (t, s) acc /\ ~ In (t, sessionId) l.
Proof.
  revert acc. induction l as [|[t0 s0] l IH]; intros acc; simpl; [auto|].
  intros Hin. apply IH in Hin as [Hacc Hl].
  destruct (decide (s0 = sessionId)) as [->|Hne].
  - apply In_delete in Hacc as [Hacc Ht]. split; [done|].
    intros [[= ->]|Hin]; [done|auto].
  - split; [done|]. intros [[= -> ->]|Hin]; [done|auto].
Qed.

Lemma purge_no_route (sessionId : string) (routes : list (Z * string)) (t : Z) :
  ~ In (t, sessionId) (purgeTabRouting sessionId routes).
Proof. intros Hin. apply purge_fold_In in Hin as [? ?]. done. Qed.

Lemma purge_subset (sessionId : string) (routes : list (Z * string)) (t : Z) (s : string) :
  In (t, s) (purgeTabRouting sessionId routes) -> In (t, s) routes.
Proof. intros Hin. by apply purge_fold_In in Hin as [? ?]. Qed.

Lemma unregisterClient_present (env : Env) (st : State) (sessionId : string)
    (session : ClientSession) :
  JsMap.get sessionId (clientSessions st) = Some session ->
  unregisterClient sessionId env st
  = (tt,
     set_tabRouting (purgeTabRouting sessionId (tabRouting st))
       (set_windowCache (windowCache st ∖ {[ sessionId ]})
          (set_clientSessions (JsMap.delete sessionId (clientSessions st)) st)),
     []).
Proof.
  intros Hget. unfold unregisterClient, mbind, mret, Act_bind, Act_ret, gets, modify.
  cbn. rewrite Hget. reflexivity.
Qed.

Lemma unregisterClient_absent (env : Env) (st : State) (sessionId : string) :
  JsMap.get sessionId (clientSessions st) = None ->
  unregisterClient sessionId env st = (tt, st, []).
Proof.
  intros Hget. unfold unregisterClient, mbind, mret, Act_bind, Act_ret, gets, modify.
  cbn. rewrite Hget. reflexivity.
Qed.

(** C7 (amended).  Unregistering a registered session writes, when an
    extension is bound, a close_window route if the session has a window and
    then the sessions broadcast of the tables after the removal; the session
    is deleted from the registry and from the window cache and no tab route
    points to it any more.  The pending requests, their promises and timers
    are left as they were. *)
Theorem unregister_removes_session (env : Env) (st : State) (ws : Conn)
    (sessionId : string) (session : ClientSession) :
  JsMap.get sessionId (clientSessions st) = Some session ->
  let st' := fst (step st (env, WsMessage ws (Some (MUnregister sessionId)))) in
  let out := snd (step st (env, WsMessage ws (Some (MUnregister sessionId)))) in
  JsMap.get sessionId (clientSessions st') = None
  /\ (sessionId ∉ windowCache st')
  /\ (forall tabId, ~ In (tabId, sessionId) (tabRouting st'))
  /\ pendingRequests st' = pendingRequests st
  /\ promises st' = promises st
  /\ timers st' = timers st
  /\ out = match extensionConnection st with
           | Some e =>
               (if truthy (Some (cs_windowId session)) then
                  [SendExtension (ec_ws e)
                     (Route (requestId (requestIdCounter st + 1) (now env)) sessionId
                        "close_window" [("sessionId", JStr sessionId)])]
                else [])
               ++ [SendExtension (ec_ws e) (Sessions (getSessionList st') (tabRouting st'))]
           | None => []
           end.
Proof.
  intros Hget st' out. subst st' out.
  pose proof (fun env st => unregisterClient_present env st sessionId session) as Hunreg.
  unfold step, exec, handle, message, handleClientMessage, handleUnregister,
    generateRequestId, broadcastSessionsToExtension, sendToExtension,
    mbind, mret, Act_bind, Act_ret, gets, modify, emit, ask.
  cbn -[truthy unregisterClient]. rewrite Hget.
  destruct (extensionConnection st) as [e|] eqn:Hext;
    [destruct (truthy (Some (cs_windowId session))) eqn:Hw|];
    cbn -[truthy unregisterClient]; rewrite ?Hext; cbn -[truthy unregisterClient];
    rewrite Hunreg by (cbn; exact Hget);
    cbn -[truthy]; rewrite ?Hext; cbn -[truthy]; rewrite ?Hext; cbn -[truthy];
    (split; [apply get_delete_eq|]);
    (split; [apply not_elem_of_difference; right; by apply elem_of_singleton|]);
    (split; [intros tabId; apply purge_no_route|]); done.
Qed.

(** ** The sweeper *)


Lemma staleCheck_loop (env : Env) (l kept : list (string * ClientSession)) (st : State) :
  clientSessions st = kept ++ l ->
  List.NoDup (JsMap.keys (kept ++ l)) ->
  exists cache routes,
    for_each l (fun '(sessionId, session) =>
                  if CLIENT_KEEPALIVE_TIMEOUT_MS <? now env - cs_lastSeen session
                  then unregisterClient sessionId
                  else mret tt) env st
    = (tt,
       set_tabRouting routes
         (set_windowCache cache
            (set_clientSessions
               (kept ++ List.filter (fun '(_, s) => negb (stale env s)) l) st)),
       [])
    /\ (forall sid, sid ∈ cache <->
          sid ∈ windowCache st /\ ~ exists s, In (sid, s) l /\ stale env s = true)
    /\ (forall t sid, In (t, sid) routes ->
          In (t, sid) (tabRouting st) /\ ~ exists s, In (sid, s) l /\ stale env s = true).
Proof.
  revert kept st. induction l as [|[sid s] l IH]; intros kept st Hsessions Hnodup.
  - exists (windowCache st), (tabRouting st). split; [|split].
    + simpl. rewrite <- Hsessions. by destruct st.
    + intros sid. split; [intros ?; split; [done|by intros (? & [] & _)]|by intros [? _]].
    + intros t sid Hin. split; [done|by intros (? & [] & _)].
  - destruct (NoDup_keys_middle _ _ _ _ Hnodup) as (Hkept & Hl & Hnodup').
    simpl. unfold mbind, Act_bind. fold (stale env s).
    destruct (stale env s) eqn:Hstale.
    + assert (JsMap.get sid (clientSessions st) = Some s) as Hget.
      { rewrite Hsessions, get_app_absent by done. simpl. by rewrite decide_True. }
      rewrite (unregisterClient_present env st sid s Hget).
      set (st1 := set_tabRouting _ _).
      assert (clientSessions st1 = kept ++ l) as Hsessions1.
      { subst st1. simpl. rewrite Hsessions, delete_app. simpl. rewrite decide_True by done.
        rewrite !delete_absent by (by apply get_absent_keys). done. }
      destruct (IH kept st1 Hsessions1 Hnodup') as (cache & routes & Hrun & Hcache & Hroutes).
      exists cache, routes. split; [|split].
      * rewrite Hrun. simpl. reflexivity.
      * intros sid'. rewrite Hcache. subst st1. simpl. rewrite elem_of_difference.
        rewrite elem_of_singleton. split.
        -- intros [[Hin Hne] Hno]. split; [done|].
           intros (s' & [[= -> ->]|Hin'] & Hs'); [done|]. apply Hno. eauto.
        -- intros [Hin Hno]. split; [split; [done|]|].
           ++ intros ->. apply Hno. exists s. split; [by left|done].
           ++ intros (s' & Hin' & Hs'). apply Hno. exists s'. split; [by right|done].
      * intros t sid' Hin. apply Hroutes in Hin as [Hin Hno]. subst st1. simpl in Hin.
        split; [by apply purge_subset in Hin|].
        intros (s' & [[= -> ->]|Hin'] & Hs').
        -- by apply purge_no_route in Hin.
        -- apply Hno. eauto.
    + assert (clientSessions st = (kept ++ [(sid, s)]) ++ l) as Hsessions1
        by (by rewrite <- app_assoc).
      assert (List.NoDup (JsMap.keys ((kept ++ [(sid, s)]) ++ l))) as Hnodup1
        by (by rewrite <- app_assoc).
      destruct (IH (kept ++ [(sid, s)]) st Hsessions1 Hnodup1)
        as (cache & routes & Hrun & Hcache & Hroutes).
      exists cache, routes. split; [|split].
      * cbn. rewrite Hrun. rewrite <- app_assoc. reflexivity.
      * intros sid'. rewrite Hcache. split.
        -- intros [Hin Hno]. split; [done|].
           intros (s' & [[= -> ->]|Hin'] & Hs'); [congruence|]. apply Hno. eauto.
        -- intros [Hin Hno]. split; [done|].
           intros (s' & Hin' & Hs'). apply Hno. exists s'. split; [by right|done].
      * intros t sid' Hin. apply Hroutes in Hin as [Hin Hno]. split; [done|].
        intros (s' & [[= -> ->]|Hin'] & Hs'); [congruence|]. apply Hno. eauto.
Qed.

(** C8 (amended).  One run of the sweeper, which is scheduled every 30 s,
    keeps exactly the sessions last seen at most 60 s ago, in their order;
    every session it drops is gone from the registry and from the window
    cache, and no tab route points to it.  The pending requests, their
    promises and timers are left as they were, and nothing is written to any
    client. *)
Theorem sweeper_unregisters_stale (env : Env) (st : State) :
  List.NoDup (JsMap.keys (clientSessions st)) ->
  let st' := fst (step st (env, StaleCheck)) in
  let out := snd (step st (env, StaleCheck)) in
  clientSessions st'
  = List.filter (fun '(_, s) => negb (stale env s)) (clientSessions st)
  /\ (forall sid s, JsMap.get sid (clientSessions st) = Some s -> stale env s = true ->
        JsMap.get sid (clientSessions st') = None
        /\ (sid ∉ windowCache st')
        /\ forall tabId, ~ In (tabId, sid) (tabRouting st'))
  /\ pendingRequests st' = pendingRequests st
  /\ promises st' = promises st
  /\ timers st' = timers st
  /\ (forall o, In o out -> to_client o = false)
  /\ (forall session, stale env session = true <-> now env - cs_lastSeen session > 60000)
  /\ staleCheckPeriod = 30000.
Proof.
  intros Hnodup st' out.
  destruct (staleCheck_loop env (clientSessions st) [] st eq_refl Hnodup)
    as (cache & routes & Hrun & Hcache & Hroutes).
  assert (step st (env, StaleCheck)
          = (set_tabRouting routes
               (set_windowCache cache
                  (set_clientSessions
                     (List.filter (fun '(_, s) => negb (stale env s)) (clientSessions st))
                     st)), [])) as Hstep.
  { unfold step, exec, handle, staleCheck, mbind, Act_bind, ask, gets. cbn.
    rewrite Hrun. reflexivity. }
  subst st' out. rewrite Hstep. cbn [fst snd].
  split; [done|]. split.
  { intros sid s Hget Hstale. apply get_Some_In in Hget as Hin.
    split; [|split].
    - simpl. apply get_absent_keys. unfold JsMap.keys. rewrite in_map_iff.
      intros ([k s0] & Hk & Hin0). simpl in Hk. subst k.
      apply filter_In in Hin0 as [Hin0 Hfresh].
      assert (s0 = s) as -> by (by apply (NoDup_keys_functional sid s0 s _ Hnodup)).
      by rewrite Hstale in Hfresh.
    - simpl. rewrite Hcache. intros [_ Hno]. apply Hno. eauto.
    - simpl. intros tabId Hroute. apply Hroutes in Hroute as [_ Hno]. apply Hno. eauto. }
  split; [done|]. split; [done|]. split; [done|]. split; [by intros o []|].
  split; [|done].
  intros session. unfold stale, CLIENT_KEEPALIVE_TIMEOUT_MS. rewrite Z.ltb_lt. lia.
Qed.

(** ** Commands while no extension is attached *)

(** C2 (amended).  A command that arrives while no extension is bound is not
    forwarded.  If Chrome cannot be started it fails at once; otherwise the
    command sleeps and polls every 500 ms.  A poll within 15 s of the start
    that finds no extension goes back to sleep and writes nothing; the first
    poll at 15 s or later fails the command.  Either failure is one error
    frame to the client with the command's reqId and code
    EXTENSION_NOT_CONNECTED. *)
Theorem command_waits_for_extension (env : Env) (st : State) (ws : Conn)
    (reqId sessionId command : string) (params : list (string * json)) :
  extensionConnection st = None ->
  let ev := (env, WsMessage ws (Some (MCommand reqId sessionId command params))) in
  let started := fst (fst (startChrome env st)) in
  let z := {| sl_startTime := now env; sl_wakeAt := now env + 500; sl_clientWs := ws;
              sl_reqId := reqId; sl_sessionId := sessionId; sl_command := command;
              sl_params := params |} in
  (started = false -> step st ev = (st, [not_connected_frame ws reqId sessionId]))
  /\ (started = true ->
        snd (step st ev) = []
        /\ sleepers (fst (step st ev)) = JsMap.set (nextHandle st) z (sleepers st)
        /\ extensionConnection (fst (step st ev)) = None
        /\ pendingRequests (fst (step st ev)) = pendingRequests st)
  /\ (forall env2 st2 h z2,
        JsMap.get h (sleepers st2) = Some z2 ->
        sl_wakeAt z2 <= now env2 ->
        (EXTENSION_CONNECT_TIMEOUT_MS <= now env2 - sl_startTime z2 ->
           step st2 (env2, PollWake h)
           = (set_sleepers (JsMap.delete h (sleepers st2)) st2,
              [not_connected_frame (sl_clientWs z2) (sl_reqId z2) (sl_sessionId z2)]))
        /\ (now env2 - sl_startTime z2 < EXTENSION_CONNECT_TIMEOUT_MS ->
            extensionConnection st2 = None ->
            step st2 (env2, PollWake h)
            = (set_sleepers
                 (JsMap.set (nextHandle st2) (snooze (now env2) z2)
                    (JsMap.delete h (sleepers st2)))
                 (set_nextHandle (S (nextHandle st2)) st2),
               [])))
  /\ EXTENSION_CONNECT_TIMEOUT_MS = 15000.
Proof.
  intros Hext ev started z. subst ev started z.
  split; [|split; [|split; [|done]]].
  - unfold step, exec, handle, message, handleClientMessage, handleCommand, startChrome,
      setChromeProcess, sendErrorToClient, mbind, mret, Act_bind, Act_ret, gets, modify,
      emit, ask.
    cbn -[findChrome]. rewrite Hext. cbn -[findChrome].
    destruct (chromeProcess st); cbn -[findChrome]; [done|].
    destruct (findChrome env) as [path|]; cbn; [|done].
    destruct (spawn env path); cbn; done.
  - assert (forall st0 : State, extensionConnection st0 = None ->
              pollExtension (now env) ws reqId sessionId command params env st0
              = (tt,
                 set_sleepers
                   (JsMap.set (nextHandle st0)
                      {| sl_startTime := now env; sl_wakeAt := now env + 500;
                         sl_clientWs := ws; sl_reqId := reqId; sl_sessionId := sessionId;
                         sl_command := command; sl_params := params |} (sleepers st0))
                   (set_nextHandle (S (nextHandle st0)) st0), [])) as Hpoll.
    { intros st0 Hext0.
      unfold pollExtension, fresh, mbind, mret, Act_bind, Act_ret, gets, modify, ask.
      replace (now env - now env) with 0 by lia. cbn. rewrite Hext0. reflexivity. }
    unfold step, exec, handle, message, handleClientMessage, handleCommand, startChrome,
      setChromeProcess, sendErrorToClient, mbind, mret, Act_bind, Act_ret, gets, modify,
      emit, ask.
    cbn -[pollExtension findChrome]. rewrite Hext. cbn -[pollExtension findChrome].
    destruct (chromeProcess st); cbn -[pollExtension findChrome].
    + intros _. rewrite Hpoll by done. done.
    + destruct (findChrome env) as [path|]; cbn -[pollExtension]; [|done].
      destruct (spawn env path); cbn -[pollExtension]; [|done].
      intros _. rewrite Hpoll by done. done.
  - intros env2 st2 h z2 Hget Hdue. split.
    + intros Hlate.
      unfold step, exec, handle, pollWake, pollExtension, sendErrorToClient,
        mbind, mret, Act_bind, Act_ret, gets, modify, emit, ask.
      cbn. rewrite Hget. cbn.
      replace (sl_wakeAt z2 <=? now env2) with true by (symmetry; by apply Z.leb_le).
      cbn.
      replace (now env2 - sl_startTime z2 <? EXTENSION_CONNECT_TIMEOUT_MS) with false
        by (symmetry; apply Z.ltb_ge; lia).
      reflexivity.
    + intros Hearly Hext2.
      unfold step, exec, handle, pollWake, pollExtension, fresh,
        mbind, mret, Act_bind, Act_ret, gets, modify, emit, ask.
      cbn. rewrite Hget. cbn.
      replace (sl_wakeAt z2 <=? now env2) with true by (symmetry; by apply Z.leb_le).
      cbn.
      replace (now env2 - sl_startTime z2 <? EXTENSION_CONNECT_TIMEOUT_MS) with true
        by (symmetry; apply Z.ltb_lt; lia).
      cbn. rewrite Hext2. reflexivity.
Qed.

(** ** Frames: what a callback leaves alone *)

Lemma unregisterClient_frame (sessionId : string) (env : Env) (st : State) :
  exists sessions cache routes,
    unregisterClient sessionId env st
    = (tt, set_tabRouting routes (set_windowCache cache (set_clientSessions sessions st)), []).
Proof.
  destruct (JsMap.get sessionId (clientSessions st)) as [session|] eqn:Hget.
  - rewrite (unregisterClient_present env st sessionId session Hget). eauto.
  - rewrite (unregisterClient_absent env st sessionId Hget).
    exists (clientSessions st), (windowCache st), (tabRouting st). by destruct st.
Qed.

Lemma staleCheck_frame (env : Env) (st : State) :
  exists sessions cache routes,
    staleCheck env st
    = (tt, set_tabRouting routes (set_windowCache cache (set_clientSessions sessions st)), []).
Proof.
  unfold staleCheck, mbind, Act_bind, ask, gets. cbn.
  generalize (clientSessions st) as l. intros l. revert st.
  induction l as [|[sid s] l IH]; intros st.
  - exists (clientSessions st), (windowCache st), (tabRouting st). by destruct st.
  - cbn. unfold mbind, Act_bind.
    destruct (CLIENT_KEEPALIVE_TIMEOUT_MS <? now env - cs_lastSeen s).
    + destruct (unregisterClient_frame sid env st) as (s1 & c1 & r1 & ->).
      destruct (IH (set_tabRouting r1 (set_windowCache c1 (set_clientSessions s1 st))))
        as (s2 & c2 & r2 & Hrun).
      exists s2, c2, r2.
      destruct (for_each l _ env _) as [[[] st2] o2]. by injection Hrun as -> ->.
    + cbn. destruct (IH st) as (s2 & c2 & r2 & Hrun).
      exists s2, c2, r2.
      destruct (for_each l _ env _) as [[[] st2] o2]. by injection Hrun as -> ->.
Qed.

Lemma close_cases (ws : Conn) (env : Env) (st : State) :
  (exists ks ps ts,
     close ws env st
     = (tt, set_extensionConnection None
              (set_pendingRequests [] (set_promises ps (set_timers ts st))),
        map (failure_frame "Extension disconnected") ks)
     /\ (forall h k, JsMap.get h ps = Some k -> JsMap.get h (promises st) = Some k))
  \/ (exists sessions cache routes,
        close ws env st
        = (tt, set_tabRouting routes (set_windowCache cache (set_clientSessions sessions st)),
           [])).
Proof.
  unfold close, setExtensionConnection, mbind, mret, Act_bind, Act_ret, gets, modify. cbn.
  destruct (match extensionConnection st with
            | Some e => bool_decide (ec_ws e = ws)
            | None => false
            end).
  - left. destruct (rejectAll_spec (pendingRequests st) env st)
      as (ks & ps & ts & Hrun & Hps & _).
    exists ks, ps, ts. rewrite Hrun, for_each_rejected. done.
  - right. destruct (List.find _ (clientSessions st)) as [[sid s]|].
    + destruct (unregisterClient_frame sid env st) as (s1 & c1 & r1 & ->). eauto.
    + exists (clientSessions st), (windowCache st), (tabRouting st). by destruct st.
Qed.

(** The only callbacks that touch the binding are an accepted hello and the
    close of the bound socket. *)
Lemma step_extensionConnection (env : Env) (ev : Event) (st : State) :
  let st' := fst (step st (env, ev)) in
  extensionConnection st' = extensionConnection st
  \/ extensionConnection st' = None
  \/ exists ws payload,
       ev = WsMessage ws (Some (MHello payload))
       /\ (forall e, extensionConnection st = Some e -> ec_ws e = ws)
       /\ extensionConnection st' = Some (hello_connection env ws payload).
Proof.
  destruct ev as [ws [m|]| ws | timer | sleeper | |].
  - destruct m;
      try (left; act_run; try reflexivity; congruence).
    destruct (extensionConnection st) as [e|] eqn:Hext.
    + destruct (decide (ec_ws e = ws)) as [Heq|Hne].
      * assert (forall e0, extensionConnection st = Some e0 -> ec_ws e0 = ws) as Hsame
          by (intros e0 He0; congruence).
        right. right. exists ws, payload. split; [done|].
        split; [intros e0 He0; congruence|].
        cbv zeta. rewrite accepted_hello by done.
        fold (state_after (handleExtensionHello payload ws) env st).
        by rewrite handleExtensionHello_state.
      * left. cbv zeta. by rewrite (duplicate_hello env st ws e payload Hext Hne).
    + assert (forall e0, extensionConnection st = Some e0 -> ec_ws e0 = ws) as Hsame
        by (intros e0 He0; congruence).
      right. right. exists ws, payload. split; [done|].
        split; [intros e0 He0; congruence|].
      cbv zeta. rewrite accepted_hello by done.
      fold (state_after (handleExtensionHello payload ws) env st).
      by rewrite handleExtensionHello_state.
  - by left.
  - cbv zeta. unfold step, exec, handle. cbn [fst snd].
    destruct (close_cases ws env st) as [(ks & ps & ts & -> & _)|(s1 & c1 & r1 & ->)].
    + right. by left.
    + by left.
  - left. act_run; try reflexivity; congruence.
  - left. act_run; try reflexivity; congruence.
  - left. cbv zeta. unfold step, exec, handle. cbn [fst snd].
    by destruct (staleCheck_frame env st) as (s1 & c1 & r1 & ->).
  - left. act_run; try reflexivity; congruence.
Qed.

(** ** One extension at a time *)

(** C6.  While an extension is bound, a hello on another socket changes
    nothing in the tables (so the bound socket stays bound and no pending
    request is touched) and the only thing written is the close of the new
    socket with code 4000.  Whatever callback runs next, the binding is then
    either empty or still on the same socket: a second socket never takes the
    place of a bound one. *)
Theorem duplicate_hello_is_rejected (env : Env) (st : State) (ws : Conn)
    (e : ExtensionConnection) (payload : option HelloPayload) :
  extensionConnection st = Some e ->
  ec_ws e <> ws ->
  step st (env, WsMessage ws (Some (MHello payload)))
  = (st, [CloseConn ws 4000 "Extension already connected"])
  /\ forall env' ev,
       extensionConnection (fst (step st (env', ev))) = None
       \/ exists e', extensionConnection (fst (step st (env', ev))) = Some e'
                     /\ ec_ws e' = ec_ws e.
Proof.
  intros Hext Hne. split.
  - unfold step, exec, handle, message, mbind, Act_bind, gets. cbn.
    rewrite Hext. rewrite bool_decide_eq_true_2 by done. reflexivity.
  - intros env' ev.
    destruct (step_extensionConnection env' ev st) as [Hsame|[Hnone|Hhello]].
    + right. exists e. by rewrite Hsame.
    + by left.
    + destruct Hhello as (ws' & payload' & _ & Hws & Hbound).
      right. eexists. split; [exact Hbound|]. simpl. symmetry. by apply Hws.
Qed.

(** ** A session window goes away *)

(** C4 (the code at the failing input).  After S1, the extension reports that
    the window of s1 was removed.  The session's windowId becomes null, but s1
    stays in the window cache, and the next command of s1 is forwarded at once,
    with no create_window before it. *)
Theorem window_closed_keeps_cache_entry :
  let st := fst (step s1_done (env_at 5000, WsMessage 9%nat (Some (window_closed "s1" 42)))) in
  cs_windowId <$> JsMap.get "s1" (clientSessions s1_done) = Some (JNum 42)
  /\ cs_windowId <$> JsMap.get "s1" (clientSessions st) = Some JNull
  /\ bool_decide ("s1" ∈ windowCache st) = true
  /\ snd (step st (env_at 6000, WsMessage 1%nat (Some (MCommand "r2" "s1" "get_tabs" []))))
     = [SendExtension 9%nat (Route "req_3_4mo" "s1" "get_tabs" [("sessionId", JStr "s1")])]
  /\ forall env st0 ws fields,
       windowCache (fst (step st0 (env, WsMessage ws (Some (MOther "window_closed" fields)))))
       = windowCache st0.
Proof.
  split; [|split; [|split; [|split]]]; try (vm_compute; reflexivity).
  intros env st0 ws fields. act_run; reflexivity.
Qed.

(** ** Reachable tables are well formed *)

Lemma issued_table_nil (c : Z) : issued_table c [].
Proof. intros r p []. Qed.

Lemma issued_table_mono (c c' : Z) (table : list (string * PendingRequest)) :
  c <= c' -> issued_table c table -> issued_table c' table.
Proof.
  intros Hle Hiss r p Hin. destruct (Hiss r p Hin) as (c0 & t & -> & Hc0).
  exists c0, t. split; [done|lia].
Qed.

Lemma In_set_inv {K V : Type} `{EqDecision K} (k k' : K) (v v' : V) (m : list (K * V)) :
  In (k', v') (JsMap.set k v m) -> (k' = k /\ v' = v) \/ In (k', v') m.
Proof.
  induction m as [|[k0 v0] m IH]; simpl.
  - intros [[= -> ->]|[]]. by left.
  - destruct (decide (k = k0)) as [->|Hne]; simpl.
    + intros [[= -> ->]|Hin]; [by left|right; by right].
    + intros [Heq|Hin]; [right; by left|].
      destruct (IH Hin) as [?|?]; [by left|right; by right].
Qed.

Lemma issued_table_set (c c1 t : Z) (p : PendingRequest)
    (table : list (string * PendingRequest)) :
  c1 <= c -> issued_table c table -> issued_table c (JsMap.set (requestId c1 t) p table).
Proof.
  intros Hle Hiss r p' Hin. apply In_set_inv in Hin as [[-> ->]|Hin]; [eauto|].
  by apply (Hiss r p').
Qed.

Lemma issued_table_delete (c : Z) (k : string) (table : list (string * PendingRequest)) :
  issued_table c table -> issued_table c (JsMap.delete k table).
Proof. intros Hiss r p Hin. apply In_delete in Hin as [Hin _]. by apply (Hiss r p). Qed.

Lemma keys_delete_In {K V : Type} `{EqDecision K} (k k' : K) (m : list (K * V)) :
  In k' (JsMap.keys (JsMap.delete k m)) -> In k' (JsMap.keys m).
Proof.
  unfold JsMap.keys. induction m as [|[k0 v0] m IH]; simpl; [done|].
  destruct (decide (k = k0)); simpl; [auto|]. intros [?|?]; auto.
Qed.

Lemma NoDup_keys_delete {K V : Type} `{EqDecision K} (k : K) (m : list (K * V)) :
  List.NoDup (JsMap.keys m) -> List.NoDup (JsMap.keys (JsMap.delete k m)).
Proof.
  pose proof (keys_delete_In (V:=V) k) as Hsub. unfold JsMap.keys in *. induction m as [|[k0 v0] m IH]; simpl; [done|].
  intros Hnd. apply NoDup_cons_iff in Hnd as [Hk0 Hnd].
  destruct (decide (k = k0)); [auto|].
  simpl. apply NoDup_cons_iff. split; [|auto].
  intros Hin. apply Hk0. by apply Hsub in Hin.
Qed.

Lemma keys_set_In {K V : Type} `{EqDecision K} (k k' : K) (v : V) (m : list (K * V)) :
  In k' (JsMap.keys (JsMap.set k v m)) -> k' = k \/ In k' (JsMap.keys m).
Proof.
  unfold JsMap.keys. induction m as [|[k0 v0] m IH]; simpl.
  - intros [<-|[]]. by left.
  - destruct (decide (k = k0)) as [->|Hne]; simpl.
    + intros [<-|?]; [by left|right; by right].
    + intros [<-|Hin]; [right; by left|].
      destruct (IH Hin); [by left|right; by right].
Qed.

Lemma NoDup_keys_set {K V : Type} `{EqDecision K} (k : K) (v : V) (m : list (K * V)) :
  List.NoDup (JsMap.keys m) -> List.NoDup (JsMap.keys (JsMap.set k v m)).
Proof.
  pose proof (keys_set_In (V:=V) k) as Hsub. unfold JsMap.keys in *. induction m as [|[k0 v0] m IH]; simpl.
  - intros _. apply NoDup_cons_iff. split; [by intros []|constructor].
  - intros Hnd. apply NoDup_cons_iff in Hnd as [Hk0 Hnd].
    destruct (decide (k = k0)) as [->|Hne]; simpl.
    + apply NoDup_cons_iff. auto.
    + apply NoDup_cons_iff. split; [|auto].
      intros Hin. apply Hsub in Hin as [?|?]; [congruence|done].
Qed.

Lemma NoDup_keys_filter {K V : Type} (f : K * V -> bool) (m : list (K * V)) :
  List.NoDup (JsMap.keys m) -> List.NoDup (JsMap.keys (List.filter f m)).
Proof.
  unfold JsMap.keys. induction m as [|[k0 v0] m IH]; simpl; [done|].
  intros Hnd. apply NoDup_cons_iff in Hnd as [Hk0 Hnd].
  destruct (f (k0, v0)); simpl; [|auto].
  apply NoDup_cons_iff. split; [|auto].
  intros Hin. apply Hk0. apply in_map_iff in Hin as ([k1 v1] & Hk & Hin).
  apply filter_In in Hin as [Hin _]. apply in_map_iff. by exists (k1, v1).
Qed.

Lemma get_set_cases {K V : Type} `{EqDecision K} (k k' : K) (v v' : V) (m : list (K * V)) :
  JsMap.get k' (JsMap.set k v m) = Some v' ->
  (k' = k /\ v' = v) \/ (k' <> k /\ JsMap.get k' m = Some v').
Proof.
  destruct (decide (k = k')) as [->|Hne].
  - rewrite get_set_eq. intros [= <-]. by left.
  - rewrite get_set_ne by done. intros Hget. right. split; [congruence|done].
Qed.

Lemma get_delete_cases {K V : Type} `{EqDecision K} (k k' : K) (v' : V) (m : list (K * V)) :
  JsMap.get k' (JsMap.delete k m) = Some v' -> k' <> k /\ JsMap.get k' m = Some v'.
Proof.
  destruct (decide (k = k')) as [->|Hne].
  - by rewrite get_delete_eq.
  - rewrite get_delete_ne by done. intros Hget. split; [congruence|done].
Qed.

Lemma linked_add ts ps tb n (deadline : Z) (rid sid : string) (k : Continuation) :
  linked_tables ts ps tb n ->
  JsMap.get rid tb = None ->
  linked_tables
    (JsMap.set (S n) {| tm_deadline := deadline; tm_reqId := rid; tm_promise := n |} ts)
    (JsMap.set n k ps)
    (JsMap.set rid {| pr_promise := n; pr_timeout := S n; pr_sessionId := sid |} tb)
    (S (S n)).
Proof.
  intros (L1 & L2 & L3 & L4) Hfresh. split; [|split; [|split]].
  - intros h t Hget. apply get_set_cases in Hget as [[-> ->]|[Hne Hget]]; simpl.
    + split; [lia|]. split; [lia|]. split; [exists k; apply get_set_eq|].
      eexists. split; [apply get_set_eq|done].
    + destruct (L1 h t Hget) as (Hh & Hp & [k0 Hk0] & p & Hrow & Hpp & Hpt).
      split; [lia|]. split; [lia|]. split.
      * exists k0. rewrite get_set_ne by lia. done.
      * exists p. split; [|done]. rewrite get_set_ne; [done|]. intros Heq. congruence.
  - intros r p Hget. apply get_set_cases in Hget as [[-> ->]|[Hne Hget]]; simpl.
    + eexists. split; [apply get_set_eq|done].
    + destruct (L2 r p Hget) as (t & Ht & Hr & Hp).
      exists t. split; [|done]. rewrite get_set_ne; [done|].
      destruct (L1 _ _ Ht) as (Hlt & _). lia.
  - intros h k0 Hget. apply get_set_cases in Hget as [[-> ->]|[Hne Hget]]; [lia|].
    specialize (L3 h k0 Hget). lia.
  - intros h1 h2 t1 t2 H1 H2 Heq.
    apply get_set_cases in H1 as [[-> ->]|[Hne1 H1]];
      apply get_set_cases in H2 as [[-> ->]|[Hne2 H2]]; simpl in *.
    + done.
    + destruct (L1 _ _ H2) as (_ & Hp & _). lia.
    + destruct (L1 _ _ H1) as (_ & Hp & _). lia.
    + by apply (L4 h1 h2 t1 t2).
Qed.

Lemma linked_remove ts ps tb n (r : string) (p : PendingRequest) :
  linked_tables ts ps tb n ->
  JsMap.get r tb = Some p ->
  linked_tables (JsMap.delete (pr_timeout p) ts) (JsMap.delete (pr_promise p) ps)
    (JsMap.delete r tb) n.
Proof.
  intros (L1 & L2 & L3 & L4) Hrow.
  destruct (L2 r p Hrow) as (t0 & Ht0 & Hr0 & Hp0).
  split; [|split; [|split]].
  - intros h t Hget. apply get_delete_cases in Hget as [Hne Hget].
    destruct (L1 h t Hget) as (Hh & Hp & [k0 Hk0] & p' & Hrow' & Hpp & Hpt).
    split; [done|]. split; [done|]. split.
    + exists k0. rewrite get_delete_ne; [done|].
      intros Heq. apply Hne. apply (L4 h (pr_timeout p) t t0 Hget Ht0). congruence.
    + exists p'. split; [|done]. rewrite get_delete_ne; [done|].
      intros Heq. rewrite <- Heq, Hrow in Hrow'. injection Hrow' as <-. congruence.
  - intros r' p' Hget. apply get_delete_cases in Hget as [Hne Hget].
    destruct (L2 r' p' Hget) as (t & Ht & Hr & Hp).
    exists t. split; [|done]. rewrite get_delete_ne; [done|].
    intros Heq. rewrite <- Heq, Ht0 in Ht. injection Ht as <-. congruence.
  - intros h k Hget. apply get_delete_cases in Hget as [_ Hget]. eauto.
  - intros h1 h2 t1 t2 H1 H2.
    apply get_delete_cases in H1 as [_ H1]. apply get_delete_cases in H2 as [_ H2]. eauto.
Qed.

(** A row and its timer gone, the promise left unsettled. *)
Lemma linked_strand ts ps tb n (r : string) (p : PendingRequest) :
  linked_tables ts ps tb n ->
  JsMap.get r tb = Some p ->
  linked_tables (JsMap.delete (pr_timeout p) ts) ps (JsMap.delete r tb) n.
Proof.
  intros (L1 & L2 & L3 & L4) Hrow.
  destruct (L2 r p Hrow) as (t0 & Ht0 & Hr0 & Hp0).
  split; [|split; [|split]].
  - intros h t Hget. apply get_delete_cases in Hget as [Hne Hget].
    destruct (L1 h t Hget) as (Hh & Hp & Hk & p' & Hrow' & Hpp & Hpt).
    split; [done|]. split; [done|]. split; [done|].
    exists p'. split; [|done]. rewrite get_delete_ne; [done|].
    intros Heq. rewrite <- Heq, Hrow in Hrow'. injection Hrow' as <-. congruence.
  - intros r' p' Hget. apply get_delete_cases in Hget as [Hne Hget].
    destruct (L2 r' p' Hget) as (t & Ht & Hr & Hp).
    exists t. split; [|done]. rewrite get_delete_ne; [done|].
    intros Heq. rewrite <- Heq, Ht0 in Ht. injection Ht as <-. congruence.
  - done.
  - intros h1 h2 t1 t2 H1 H2.
    apply get_delete_cases in H1 as [_ H1]. apply get_delete_cases in H2 as [_ H2]. eauto.
Qed.

Lemma linked_remove_timer ts ps tb n (h : Handle) (t : Timer) :
  linked_tables ts ps tb n ->
  JsMap.get h ts = Some t ->
  linked_tables (JsMap.delete h ts) (JsMap.delete (tm_promise t) ps)
    (JsMap.delete (tm_reqId t) tb) n.
Proof.
  intros HL Ht. destruct HL as (L1 & HL').
  destruct (L1 h t Ht) as (_ & _ & _ & p & Hrow & Hpp & Hpt).
  rewrite <- Hpp, <- Hpt. apply linked_remove; [by split|done].
Qed.

Lemma linked_bump ts ps tb (n n' : Handle) :
  (n <= n')%nat -> linked_tables ts ps tb n -> linked_tables ts ps tb n'.
Proof.
  intros Hle (L1 & L2 & L3 & L4). split; [|split; [|split]]; [|done| |done].
  - intros h t Hget. destruct (L1 h t Hget) as (? & ? & ? & ?).
    split; [lia|]. split; [lia|]. done.
  - intros h k Hget. specialize (L3 h k Hget). lia.
Qed.

Lemma linked_row_promise ts ps tb n (r : string) (p : PendingRequest) :
  linked_tables ts ps tb n ->
  JsMap.get r tb = Some p ->
  exists k, JsMap.get (pr_promise p) ps = Some k.
Proof.
  intros (L1 & L2 & _) Hrow. destruct (L2 r p Hrow) as (t & Ht & _ & Hp).
  destruct (L1 _ _ Ht) as (_ & _ & Hk & _). by rewrite <- Hp.
Qed.

Lemma linked_timer_promise ts ps tb n (h : Handle) (t : Timer) :
  linked_tables ts ps tb n ->
  JsMap.get h ts = Some t ->
  exists k, JsMap.get (tm_promise t) ps = Some k.
Proof. intros (L1 & _) Ht. by destruct (L1 _ _ Ht) as (_ & _ & Hk & _). Qed.

Lemma issued_get_fresh (c t : Z) (tb : list (string * PendingRequest)) :
  issued_table c tb -> JsMap.get (requestId (c + 1) t) tb = None.
Proof.
  intros Hiss. destruct (JsMap.get _ tb) as [p|] eqn:Hget; [|done].
  apply get_Some_In in Hget. destruct (Hiss _ _ Hget) as (c' & t' & Heq & Hle).
  apply requestId_inj_counter in Heq. lia.
Qed.

Ltac linked_contra :=
  match goal with
  | HL : linked_tables _ ?ps ?tb _, Hrow : JsMap.get ?r ?tb = Some ?p,
    Hnone : JsMap.get (pr_promise ?p) ?ps = None |- _ =>
      exfalso; destruct (linked_row_promise _ _ _ _ r p HL Hrow) as [? ?]; congruence
  | HL : linked_tables ?ts ?ps _ _, Ht : JsMap.get ?h ?ts = Some ?t,
    Hnone : JsMap.get (tm_promise ?t) ?ps = None |- _ =>
      exfalso; destruct (linked_timer_promise _ _ _ _ h t HL Ht) as [? ?]; congruence
  end.

Ltac wf_solve :=
  unfold well_formed, issued, linked in *; cbn in *;
  repeat match goal with
    | H : _ /\ _ |- _ => destruct H
    end;
  try linked_contra;
  repeat match goal with
    | |- _ /\ _ => split
    end;
  repeat first
    [ assumption
    | apply issued_table_nil
    | apply NoDup_keys_set
    | apply NoDup_keys_delete
    | rewrite keys_cleared
    | apply issued_table_set; [lia|]
    | apply issued_table_delete
    | (eapply issued_table_mono; [|eassumption]; lia)
    | apply linked_add;
        [|first [ apply issued_get_fresh; assumption
                | apply issued_get_fresh; apply issued_table_delete; assumption ]]
    | (eapply linked_remove; [|eassumption])
    | (eapply linked_remove_timer; [|eassumption])
    | (eapply linked_bump; [|eassumption]; lia)
    | (eapply linked_strand; [|eassumption]) ].

Lemma message_well_formed (ws : Conn) (rawMessage : option Message) (env : Env) (st : State) :
  well_formed st -> well_formed (state_after (message ws rawMessage) env st).
Proof.
  intros Hwf. destruct rawMessage as [m|]; [|done].
  destruct m; act_run; wf_solve.
Qed.

Lemma unregisterClient_well_formed (sessionId : string) (env : Env) (st : State) :
  well_formed st -> well_formed (state_after (unregisterClient sessionId) env st).
Proof. intros Hwf. act_run; wf_solve. Qed.

Lemma close_well_formed (ws : Conn) (env : Env) (st : State) :
  well_formed st -> well_formed (state_after (close ws) env st).
Proof.
  intros Hwf. unfold state_after, exec, close, setExtensionConnection,
    mbind, mret, Act_bind, Act_ret, gets, modify. cbn.
  destruct (match extensionConnection st with
            | Some e => bool_decide (ec_ws e = ws)
            | None => false
            end).
  - destruct (rejectAll_spec (pendingRequests st) env st)
      as (ks & ps & ts & -> & Hps & Hts & Hgone & _).
    rewrite for_each_rejected. destruct Hwf as (Hiss & Hnd & L1 & L2 & L3 & L4).
    assert (forall h, JsMap.get h ts = None) as Hnone.
    { intros h. destruct (JsMap.get h ts) as [t|] eqn:Ht; [|done].
      destruct (L1 h t (Hts h t Ht)) as (_ & _ & _ & p & Hrow & _ & Hpt).
      apply get_Some_In in Hrow. destruct (Hgone _ _ Hrow) as [_ Hgone'].
      rewrite Hpt in Hgone'. congruence. }
    split; [apply issued_table_nil|]. split; [done|].
    split; [|split; [|split]]; cbn.
    + intros h t Ht. by rewrite Hnone in Ht.
    + done.
    + intros h k Hk. apply (L3 h k). by apply Hps.
    + intros h1 h2 t1 t2 Ht1. by rewrite Hnone in Ht1.
  - destruct (List.find _ (clientSessions st)) as [[sid s]|]; [|done].
    pose proof (unregisterClient_well_formed sid env st Hwf) as Hwf1.
    unfold state_after, exec in Hwf1.
    by destruct (unregisterClient sid env st) as [[[] st1] o1].
Qed.

Lemma staleCheck_well_formed (env : Env) (st : State) :
  well_formed st -> well_formed (state_after staleCheck env st).
Proof.
  unfold state_after, exec, staleCheck, mbind, Act_bind, ask, gets. cbn.
  generalize (clientSessions st) as l. intros l. revert st.
  induction l as [|[sid s] l IH]; intros st Hwf; [done|].
  cbn. unfold mbind, Act_bind.
  destruct (CLIENT_KEEPALIVE_TIMEOUT_MS <? now env - cs_lastSeen s).
  - pose proof (unregisterClient_well_formed sid env st Hwf) as Hwf1.
    unfold state_after, exec in Hwf1.
    destruct (unregisterClient sid env st) as [[[] st1] o1]. cbn in Hwf1.
    specialize (IH st1 Hwf1).
    destruct (for_each l _ env st1) as [[[] st2] o2]. exact IH.
  - cbn. specialize (IH st Hwf).
    destruct (for_each l _ env st) as [[[] st2] o2]. exact IH.
Qed.

Lemma step_well_formed (st : State) (ev : Env * Event) :
  well_formed st -> well_formed (fst (step st ev)).
Proof.
  intros Hwf. destruct ev as [env [ws rawMessage| ws | timer | sleeper | |]].
  - by apply message_well_formed.
  - by apply close_well_formed.
  - act_run; wf_solve.
  - act_run; wf_solve.
  - by apply staleCheck_well_formed.
  - act_run; wf_solve.
Qed.

Lemma reachable_well_formed (st : State) : reachable st -> well_formed st.
Proof.
  induction 1 as [|st ev _ IH].
  - split; [apply issued_table_nil|]. split; [constructor|].
    by split; [|split; [|split]].
  - by apply step_well_formed.
Qed.

(** ** Rows of reachable tables are live *)

Lemma reachable_rows_live (st : State) (r : string) (p : PendingRequest) :
  reachable st ->
  JsMap.get r (pendingRequests st) = Some p ->
  exists k t,
    JsMap.get (pr_promise p) (promises st) = Some k
    /\ JsMap.get (pr_timeout p) (timers st) = Some t
    /\ tm_reqId t = r /\ tm_promise t = pr_promise p.
Proof.
  intros Hst Hrow. destruct (reachable_well_formed st Hst) as (_ & _ & HL).
  destruct (linked_row_promise _ _ _ _ r p HL Hrow) as [k Hk].
  destruct HL as (_ & L2 & _). destruct (L2 r p Hrow) as (t & Ht & Hr & Hp).
  exists k, t. auto.
Qed.

Lemma reachable_timers_live (st : State) (h : Handle) (t : Timer) :
  reachable st ->
  JsMap.get h (timers st) = Some t ->
  exists k p,
    JsMap.get (tm_promise t) (promises st) = Some k
    /\ JsMap.get (tm_reqId t) (pendingRequests st) = Some p
    /\ pr_promise p = tm_promise t /\ pr_timeout p = h.
Proof.
  intros Hst Ht. destruct (reachable_well_formed st Hst) as (_ & _ & HL).
  destruct (linked_timer_promise _ _ _ _ h t HL Ht) as [k Hk].
  destruct HL as (L1 & _). destruct (L1 h t Ht) as (_ & _ & _ & p & Hrow & Hpp & Hpt).
  exists k, p. auto.
Qed.

(** C10.  A route_result or error frame whose reqId is in the pending table
    has the same effect on whichever socket it arrives: the bound extension, a
    registered client, anyone.  The row is found by reqId alone; its timer is
    cleared and the row deleted before the promise is settled, and the
    awaiting [handleCommand] ([k] below) runs on the tables without the row.
    A route_result resolves the promise with the frame's payload, untouched;
    an error frame rejects it with the payload's message, or with "Unknown
    error" when that is missing or empty.  A rejection surfaces as one error
    frame to the client of the command with that text; a resolved forwarded
    command as one response frame with that payload.  Delivering the same
    frame again, on any socket, changes nothing and writes nothing.  The
    tables are any the daemon can reach. *)
Theorem reply_correlated_by_reqId_alone (env : Env) (st : State) (ws : Conn)
    (m : Message) (reqId : string) (pending : PendingRequest) :
  reachable st ->
  reqId_of m = Some reqId ->
  JsMap.get reqId (pendingRequests st) = Some pending ->
  exists k,
    JsMap.get (pr_promise pending) (promises st) = Some k
    /\ (forall ws',
          step st (env, WsMessage ws' (Some m)) = step st (env, WsMessage ws (Some m)))
    /\ JsMap.get reqId (pendingRequests (retire reqId pending st)) = None
    /\ JsMap.get (pr_promise pending) (promises (retire reqId pending st)) = None
    /\ JsMap.get (pr_timeout pending) (timers (retire reqId pending st)) = None
    /\ step st (env, WsMessage ws (Some m))
       = exec (resume k (reply_outcome m)) env (retire reqId pending st)
    /\ (forall r sid payload, m = MRouteResult r sid payload ->
          step st (env, WsMessage ws (Some m))
          = exec (resume k (Resolved payload)) env (retire reqId pending st))
    /\ (forall r sid code text,
          m = MError r sid (Some {| ep_code := code; ep_message := Some text |}) ->
          text <> EmptyString ->
          step st (env, WsMessage ws (Some m))
          = (retire reqId pending st,
             [SendClient (k_client k)
                (ErrorMessage (k_reqId k) (k_sessionId k) (k_failure_code k) text)]))
    /\ (forall r sid payload, m = MError r sid payload ->
          payload = None
          \/ (exists code, payload = Some {| ep_code := code; ep_message := None |})
          \/ (exists code,
                payload = Some {| ep_code := code; ep_message := Some EmptyString |}) ->
          step st (env, WsMessage ws (Some m))
          = (retire reqId pending st,
             [SendClient (k_client k)
                (ErrorMessage (k_reqId k) (k_sessionId k) (k_failure_code k)
                   "Unknown error")]))
    /\ (forall r sid payload clientWs reqId' sessionId,
          m = MRouteResult r sid payload ->
          k = AwaitCommandResult clientWs reqId' sessionId ->
          step st (env, WsMessage ws (Some m))
          = (retire reqId pending st,
             [SendClient clientWs (Response reqId' sessionId payload)]))
    /\ forall env' ws',
         step (fst (step st (env, WsMessage ws (Some m)))) (env', WsMessage ws' (Some m))
         = (fst (step st (env, WsMessage ws (Some m))), []).
Proof.
  intros Hst Hreq Hrow.
  destruct (reachable_rows_live st reqId pending Hst Hrow) as (k & _ & Hk & _).
  destruct (reachable_well_formed st Hst) as (Hissued & _).
  pose proof (reply_settles_row env st ws m reqId pending k Hreq Hrow Hk) as H.
  cbv zeta in H. destruct H as (Hany & Hr & Hp & Ht & Hstep & Hagain).
  exists k. do 6 (split; [done|]).
  split; [by intros r sid payload ->|].
  split; [|split; [|split; [|by auto]]].
  - intros r sid code text -> Hne. rewrite Hstep. unfold reply_outcome, error_text. cbn.
    replace (String.eqb text EmptyString) with false
      by (symmetry; by apply String.eqb_neq).
    unfold exec. by rewrite resume_rejected.
  - intros r sid payload -> Hpayload. rewrite Hstep. unfold exec, reply_outcome. cbn.
    destruct Hpayload as [->|[[code ->]|[code ->]]]; cbn; by rewrite resume_rejected.
  - intros r sid payload clientWs reqId' sessionId -> ->. by rewrite Hstep.
Qed.

(** C1 (amended).  In any tables the daemon can reach, when the timer of a
    pending request is due (a reply would have cleared it), its promise is
    still unsettled; the row is deleted and the promise rejected with
    "Request timed out"; the client that sent the command gets one error
    frame with the command's own reqId, whose code is COMMAND_FAILED, or
    WINDOW_CREATION_FAILED when the request was the create_window of the
    command; a reply for that request id arriving afterwards changes nothing
    and writes nothing.  The timer of every request is armed at 30 s. *)
Theorem request_timeout_rejects (env : Env) (st : State) (timer : Handle) (t : Timer) :
  reachable st ->
  JsMap.get timer (timers st) = Some t ->
  tm_deadline t <= now env ->
  exists k,
    JsMap.get (tm_promise t) (promises st) = Some k
    /\ fst (step st (env, RequestTimeout timer))
       = set_promises (JsMap.delete (tm_promise t) (promises st))
           (set_pendingRequests (JsMap.delete (tm_reqId t) (pendingRequests st))
              (set_timers (JsMap.delete timer (timers st)) st))
    /\ JsMap.get (tm_reqId t)
         (pendingRequests (fst (step st (env, RequestTimeout timer)))) = None
    /\ snd (step st (env, RequestTimeout timer))
       = [SendClient (k_client k)
            (ErrorMessage (k_reqId k) (k_sessionId k) (k_failure_code k)
               "Request timed out")]
    /\ (forall env' ws' m, reqId_of m = Some (tm_reqId t) ->
          step (fst (step st (env, RequestTimeout timer))) (env', WsMessage ws' (Some m))
          = (fst (step st (env, RequestTimeout timer)), []))
    /\ (forall env0 st0 e command params sessionId k0,
          extensionConnection st0 = Some e ->
          let st1 :=
            state_after (sendCommandToExtension command params sessionId k0) env0 st0 in
          let reqId := requestId (requestIdCounter st0 + 1) (now env0) in
          JsMap.get reqId (pendingRequests st1)
          = Some {| pr_promise := nextHandle st0; pr_timeout := S (nextHandle st0);
                    pr_sessionId := sessionId |}
          /\ JsMap.get (S (nextHandle st0)) (timers st1)
             = Some {| tm_deadline := now env0 + REQUEST_TIMEOUT_MS; tm_reqId := reqId;
                       tm_promise := nextHandle st0 |}
          /\ JsMap.get (nextHandle st0) (promises st1) = Some k0
          /\ REQUEST_TIMEOUT_MS = 30000)
    /\ (forall env0 st0 e clientWs reqId sessionId command params,
          extensionConnection st0 = Some e ->
          exec (handleCommand reqId sessionId command params clientWs) env0 st0
          = if decide (sessionId ∈ windowCache st0) then
              exec (sendCommandToExtension command params sessionId
                      (AwaitCommandResult clientWs reqId sessionId)) env0 st0
            else
              exec (sendCommandToExtension "create_window"
                      [("sessionId", JStr sessionId)] sessionId
                      (AwaitCreateWindow clientWs reqId sessionId command params))
                env0 st0).
Proof.
  intros Hst Htimer Hdue.
  destruct (reachable_timers_live st timer t Hst Htimer) as (k & _ & Hk & _).
  pose proof (timeout_settles_row env st timer t k Htimer Hdue Hk) as H.
  cbv zeta in H. destruct H as (Hst' & Hrow & Hout & Hlate & Harm & Hcmd).
  exists k. auto 10.
Qed.

(** ** Routes speak for the session their frame names *)
















Lemma run_reachable (evs : list (Env * Event)) (st : State) :
  reachable st -> reachable (fst (run st evs)).
Proof.
  revert st. induction evs as [|ev evs IH]; intros st Hst; [done|].
  simpl. pose proof (reachable_step st ev Hst) as Hst1.
  destruct (step st ev) as [st1 o1]. specialize (IH st1 Hst1).
  by destruct (run st1 evs) as [st2 o2].
Qed.

(** ** The statements at the scenarios *)

Lemma request_timeout_rejects_witness :
  reachable s1_forwarded
  /\ JsMap.get 3%nat (timers s1_forwarded)
     = Some {| tm_deadline := 33100; tm_reqId := "req_2_2e4"; tm_promise := 2%nat |}
  /\ 33100 <= now (env_at 33100)
  /\ exists k,
       JsMap.get 2%nat (promises s1_forwarded) = Some k
       /\ snd (step s1_forwarded (env_at 33100, RequestTimeout 3%nat))
          = [SendClient (k_client k)
               (ErrorMessage (k_reqId k) (k_sessionId k) (k_failure_code k)
                  "Request timed out")].
Proof.
  assert (reachable s1_forwarded) as Hst by apply run_reachable, reachable_initial.
  assert (JsMap.get 3%nat (timers s1_forwarded)
          = Some {| tm_deadline := 33100; tm_reqId := "req_2_2e4"; tm_promise := 2%nat |})
    as Htimer by (vm_compute; reflexivity).
  assert (33100 <= now (env_at 33100)) as Hdue by (simpl; lia).
  split; [exact Hst|]. split; [exact Htimer|]. split; [exact Hdue|].
  destruct (request_timeout_rejects (env_at 33100) s1_forwarded 3%nat _ Hst Htimer Hdue)
    as (k & Hk & _ & _ & Hout & _).
  exists k. split; [exact Hk|exact Hout].
Defined.

(** C1 as stated fails: in S2 the client is told COMMAND_FAILED, and no frame
    with code REQUEST_TIMEOUT is written. *)
Lemma timeout_surfaces_as_COMMAND_FAILED :
  snd (step s1_forwarded (env_at 33100, RequestTimeout 3%nat))
  = [SendClient 1%nat (ErrorMessage "r1" "s1" "COMMAND_FAILED" "Request timed out")]
  /\ ~ exists o, In o (snd (step s1_forwarded (env_at 33100, RequestTimeout 3%nat)))
                 /\ is_client_error "REQUEST_TIMEOUT" o = true.
Proof.
  assert (snd (step s1_forwarded (env_at 33100, RequestTimeout 3%nat))
          = [SendClient 1%nat (ErrorMessage "r1" "s1" "COMMAND_FAILED" "Request timed out")])
    as Hout by (vm_compute; reflexivity).
  split; [exact Hout|]. rewrite Hout.
  intros (o & [<-|[]] & Ho). revert Ho. vm_compute. discriminate.
Qed.

Lemma command_waits_for_extension_witness :
  extensionConnection waiting = None
  /\ step waiting (env_chrome 15000, PollWake 29%nat)
     = (set_sleepers [] waiting, [not_connected_frame 1%nat "r1" "s1"]).
Proof.
  assert (extensionConnection waiting = None) as Hext by (vm_compute; reflexivity).
  split; [exact Hext|].
  pose proof (command_waits_for_extension (env_chrome 15000) waiting 1%nat
                "r2" "s1" "get_tabs" [] Hext) as H.
  cbv zeta in H. destruct H as (_ & _ & Hwake & _).
  assert (JsMap.get 29%nat (sleepers waiting)
          = Some {| sl_startTime := 0; sl_wakeAt := 15000; sl_clientWs := 1%nat;
                    sl_reqId := "r1"; sl_sessionId := "s1"; sl_command := "navigate";
                    sl_params := navigate |}) as Hget by (vm_compute; reflexivity).
  destruct (Hwake (env_chrome 15000) waiting 29%nat _ Hget) as [Hlate _].
  { simpl. lia. }
  rewrite Hlate by (vm_compute; discriminate). vm_compute. reflexivity.
Defined.

(** C2 as stated fails: after polling for 15 s without an extension the
    client is told EXTENSION_NOT_CONNECTED, and no frame with code
    AGENT_NOT_CONNECTED is written. *)
Lemma no_extension_code_is_EXTENSION_NOT_CONNECTED :
  snd (run initial (waiting_events ++ polls 29 1))
  = [SendClient 1%nat
       (ErrorMessage "r1" "s1" "EXTENSION_NOT_CONNECTED"
          "Extension not connected and Chrome failed to start")]
  /\ ~ exists o,
         In o (snd (run initial (waiting_events ++ polls 29 1)))
         /\ is_client_error "AGENT_NOT_CONNECTED" o = true.
Proof.
  assert (snd (run initial (waiting_events ++ polls 29 1))
          = [SendClient 1%nat
               (ErrorMessage "r1" "s1" "EXTENSION_NOT_CONNECTED"
                  "Extension not connected and Chrome failed to start")])
    as Hout by (vm_compute; reflexivity).
  split; [exact Hout|]. rewrite Hout.
  intros (o & [<-|[]] & Ho). revert Ho. vm_compute. discriminate.
Qed.

Lemma extension_close_rejects_all_witness :
  extensionConnection s1_forwarded = Some (hello_connection (env_at 2000) 9%nat None)
  /\ pendingRequests (fst (step s1_forwarded (env_at 4000, WsClose 9%nat))) = []
  /\ In (failure_frame "Extension disconnected" (AwaitCommandResult 1%nat "r1" "s1"))
        (snd (step s1_forwarded (env_at 4000, WsClose 9%nat))).
Proof.
  assert (extensionConnection s1_forwarded = Some (hello_connection (env_at 2000) 9%nat None))
    as Hext by (vm_compute; reflexivity).
  split; [exact Hext|].
  pose proof (extension_close_rejects_all (env_at 4000) s1_forwarded 9%nat _ Hext eq_refl)
    as H.
  cbv zeta in H. destruct H as (Hempty & _ & _ & Hrejected & _).
  split; [exact Hempty|].
  apply (Hrejected "req_2_2e4"
           {| pr_promise := 2%nat; pr_timeout := 3%nat; pr_sessionId := "s1" |}).
  - vm_compute. left. reflexivity.
  - vm_compute. reflexivity.
Defined.

(** C3 as stated fails: when the extension socket closes, s1 stays in the
    window cache and keeps its windowId, and the rejection reaches the client
    as COMMAND_FAILED, not as AGENT_DISCONNECTED. *)
Lemma extension_close_keeps_window_cache :
  let st := fst (step s1_forwarded (env_at 4000, WsClose 9%nat)) in
  bool_decide ("s1" ∈ windowCache st) = true
  /\ cs_windowId <$> JsMap.get "s1" (clientSessions st) = Some (JNum 42)
  /\ snd (step s1_forwarded (env_at 4000, WsClose 9%nat))
     = [SendClient 1%nat (ErrorMessage "r1" "s1" "COMMAND_FAILED" "Extension disconnected")].
Proof. vm_compute. auto. Qed.


Lemma duplicate_hello_is_rejected_witness :
  extensionConnection s1_forwarded = Some (hello_connection (env_at 2000) 9%nat None)
  /\ 9%nat <> 7%nat
  /\ step s1_forwarded (env_at 4000, WsMessage 7%nat (Some (MHello None)))
     = (s1_forwarded, [CloseConn 7%nat 4000 "Extension already connected"]).
Proof.
  assert (extensionConnection s1_forwarded = Some (hello_connection (env_at 2000) 9%nat None))
    as Hext by (vm_compute; reflexivity).
  assert (9%nat <> 7%nat) as Hne by lia.
  split; [exact Hext|]. split; [exact Hne|].
  destruct (duplicate_hello_is_rejected (env_at 4000) s1_forwarded 7%nat _ None Hext Hne)
    as [Hstep _].
  exact Hstep.
Defined.

Lemma unregister_removes_session_witness :
  JsMap.get "s1" (clientSessions s1_forwarded)
  = Some {| cs_sessionId := "s1"; cs_label := "L"; cs_ws := 1%nat; cs_windowId := JNum 42;
            cs_registeredAt := 1000; cs_lastSeen := 1000 |}
  /\ pendingRequests (fst (step s1_forwarded
                             (env_at 4000, WsMessage 1%nat (Some (MUnregister "s1")))))
     = pendingRequests s1_forwarded.
Proof.
  assert (JsMap.get "s1" (clientSessions s1_forwarded)
          = Some {| cs_sessionId := "s1"; cs_label := "L"; cs_ws := 1%nat;
                    cs_windowId := JNum 42; cs_registeredAt := 1000; cs_lastSeen := 1000 |})
    as Hget by (vm_compute; reflexivity).
  split; [exact Hget|].
  pose proof (unregister_removes_session (env_at 4000) s1_forwarded 1%nat "s1" _ Hget) as H.
  cbv zeta in H. destruct H as (_ & _ & _ & Hpending & _). exact Hpending.
Defined.

(** C7 as stated fails: s1 is unregistered while its command is in flight;
    the request stays in the pending table with its promise unsettled, and
    nothing is written to the client. *)
Lemma unregister_leaves_pending_requests :
  let ev := (env_at 4000, WsMessage 1%nat (Some (MUnregister "s1"))) in
  pr_sessionId <$> JsMap.get "req_2_2e4" (pendingRequests s1_forwarded) = Some "s1"
  /\ pr_sessionId <$> JsMap.get "req_2_2e4" (pendingRequests (fst (step s1_forwarded ev)))
     = Some "s1"
  /\ JsMap.get 2%nat (promises (fst (step s1_forwarded ev)))
     = Some (AwaitCommandResult 1%nat "r1" "s1")
  /\ snd (step s1_forwarded ev)
     = [SendExtension 9%nat (Route "req_3_334" "s1" "close_window" [("sessionId", JStr "s1")]);
        SendExtension 9%nat (Sessions [] [])].
Proof. vm_compute. auto. Qed.

Lemma sweeper_unregisters_stale_witness :
  List.NoDup (JsMap.keys (clientSessions busy_stale))
  /\ clientSessions (fst (step busy_stale (env_at 61500, StaleCheck))) = []
  /\ pendingRequests (fst (step busy_stale (env_at 61500, StaleCheck)))
     = pendingRequests busy_stale.
Proof.
  assert (List.NoDup (JsMap.keys (clientSessions busy_stale))) as Hnodup
    by apply reachable_well_formed, run_reachable, reachable_initial.
  split; [exact Hnodup|].
  pose proof (sweeper_unregisters_stale (env_at 61500) busy_stale Hnodup) as H.
  cbv zeta in H. destruct H as (Hsessions & _ & Hpending & _).
  split; [|exact Hpending]. rewrite Hsessions. vm_compute. reflexivity.
Defined.

(** C8 as stated fails: the sweeper removes the stale s1 while its command is
    in flight; the request stays pending with its promise unsettled, no
    CLIENT_DISCONNECTED (nor any other frame) reaches the client, and no
    sessions frame is written to the extension. *)
Lemma sweeper_leaves_pending_and_is_silent :
  let ev := (env_at 61500, StaleCheck) in
  JsMap.get "s1" (clientSessions (fst (step busy_stale ev))) = None
  /\ pr_sessionId <$> JsMap.get "req_2_1adg" (pendingRequests (fst (step busy_stale ev)))
     = Some "s1"
  /\ JsMap.get 2%nat (promises (fst (step busy_stale ev)))
     = Some (AwaitCommandResult 1%nat "r1" "s1")
  /\ snd (step busy_stale ev) = [].
Proof. vm_compute. auto. Qed.

Lemma reply_correlated_by_reqId_alone_witness :
  reachable s1_forwarded
  /\ reqId_of (MRouteResult "req_2_2e4" None (Some (JObj [("success", JBool true)])))
     = Some "req_2_2e4"
  /\ JsMap.get "req_2_2e4" (pendingRequests s1_forwarded)
     = Some {| pr_promise := 2%nat; pr_timeout := 3%nat; pr_sessionId := "s1" |}
  /\ step s1_forwarded
       (env_at 3200, WsMessage 1%nat
          (Some (MRouteResult "req_2_2e4" None (Some (JObj [("success", JBool true)])))))
     = step s1_forwarded
         (env_at 3200, WsMessage 9%nat
            (Some (MRouteResult "req_2_2e4" None (Some (JObj [("success", JBool true)]))))).
Proof.
  assert (reachable s1_forwarded) as Hst by apply run_reachable, reachable_initial.
  assert (reqId_of (MRouteResult "req_2_2e4" None (Some (JObj [("success", JBool true)])))
          = Some "req_2_2e4") as Hreq by (vm_compute; reflexivity).
  assert (JsMap.get "req_2_2e4" (pendingRequests s1_forwarded)
          = Some {| pr_promise := 2%nat; pr_timeout := 3%nat; pr_sessionId := "s1" |})
    as Hpending by (vm_compute; reflexivity).
  split; [exact Hst|]. split; [exact Hreq|]. split; [exact Hpending|].
  destruct (reply_correlated_by_reqId_alone (env_at 3200) s1_forwarded 9%nat _ _ _
              Hst Hreq Hpending) as (k & _ & Hany & _).
  apply Hany.
Defined.

(** * Further properties of the daemon *)

(** ** The window cache and the session table *)

Lemma sessions_ok_set (c : gset string) (ss : list (string * ClientSession))
    (sid : string) (s : ClientSession) :
  sessions_ok c ss ->
  cs_sessionId s = sid ->
  cs_windowId s = JNull \/ (truthy (Some (cs_windowId s)) = true /\ sid ∈ c) ->
  sessions_ok c (JsMap.set sid s ss).
Proof.
  intros [H1 H2] Hid Hw. split.
  - intros sid' Hin. destruct (decide (sid' = sid)) as [->|Hne].
    + rewrite get_set_eq. eauto.
    + rewrite get_set_ne by done. by apply H1.
  - intros sid' s'. destruct (decide (sid' = sid)) as [->|Hne].
    + rewrite get_set_eq. by intros [= <-].
    + rewrite get_set_ne by done. apply H2.
Qed.

Lemma sessions_ok_lastSeen (c : gset string) (ss : list (string * ClientSession))
    (sid : string) (s : ClientSession) (t : Z) :
  sessions_ok c ss ->
  JsMap.get sid ss = Some s ->
  sessions_ok c (JsMap.set sid (with_lastSeen t s) ss).
Proof.
  intros Hok Hget. destruct (proj2 Hok sid s Hget) as [Hid Hw].
  by apply sessions_ok_set.
Qed.

Lemma sessions_ok_window_null (c : gset string) (ss : list (string * ClientSession))
    (sid : string) (s : ClientSession) :
  sessions_ok c ss ->
  JsMap.get sid ss = Some s ->
  sessions_ok c (JsMap.set sid (with_windowId JNull s) ss).
Proof.
  intros Hok Hget. destruct (proj2 Hok sid s Hget) as [Hid Hw].
  apply sessions_ok_set; [done|done|by left].
Qed.

Lemma sessions_ok_window (c : gset string) (ss : list (string * ClientSession))
    (sid : string) (s : ClientSession) (w : json) :
  sessions_ok c ss ->
  JsMap.get sid ss = Some s ->
  truthy (Some w) = true ->
  sessions_ok ({[ sid ]} ∪ c) (JsMap.set sid (with_windowId w s) ss).
Proof.
  intros [H1 H2] Hget Hw. destruct (H2 sid s Hget) as [Hid _]. split.
  - intros sid' Hin. destruct (decide (sid' = sid)) as [->|Hne].
    + rewrite get_set_eq. eauto.
    + rewrite get_set_ne by done. apply H1.
      apply elem_of_union in Hin as [Hin|Hin]; [|done].
      by apply elem_of_singleton in Hin.
  - intros sid' s'. destruct (decide (sid' = sid)) as [->|Hne].
    + rewrite get_set_eq. intros [= <-]. split; [done|]. right. split; [done|].
      apply elem_of_union. left. by apply elem_of_singleton.
    + rewrite get_set_ne by done. intros Hs'. destruct (H2 sid' s' Hs') as [Hid' Hw'].
      split; [done|]. destruct Hw' as [?|[? ?]]; [by left|]. right. split; [done|].
      apply elem_of_union. by right.
Qed.

Lemma sessions_ok_delete (c : gset string) (ss : list (string * ClientSession))
    (sid : string) :
  sessions_ok c ss ->
  sessions_ok (c ∖ {[ sid ]}) (JsMap.delete sid ss).
Proof.
  intros [H1 H2]. split.
  - intros sid' Hin. apply elem_of_difference in Hin as [Hin Hne].
    rewrite get_delete_ne; [by apply H1|].
    intros ->. apply Hne. by apply elem_of_singleton.
  - intros sid' s'. destruct (decide (sid' = sid)) as [->|Hne].
    + by rewrite get_delete_eq.
    + rewrite get_delete_ne by done. intros Hs'. destruct (H2 sid' s' Hs') as [Hid' Hw'].
      split; [done|]. destruct Hw' as [?|[? ?]]; [by left|]. right. split; [done|].
      apply elem_of_difference. split; [done|]. intros Hin. apply Hne.
      by apply elem_of_singleton in Hin.
Qed.

Lemma get_cleared_fmap (sid : string) (ss : list (string * ClientSession)) :
  JsMap.get sid (map (fun '(k, session) => (k, with_windowId JNull session)) ss)
  = with_windowId JNull <$> JsMap.get sid ss.
Proof.
  induction ss as [|[k s0] ss IH]; simpl; [done|].
  by destruct (decide (sid = k)).
Qed.

Lemma sessions_ok_cleared (c : gset string) (ss : list (string * ClientSession)) :
  sessions_ok c ss ->
  sessions_ok ∅ (map (fun '(k, session) => (k, with_windowId JNull session)) ss).
Proof.
  intros [H1 H2]. split.
  - intros sid Hin. by apply elem_of_empty in Hin.
  - intros sid s. rewrite get_cleared_fmap.
    destruct (JsMap.get sid ss) as [s0|] eqn:Hget; [|done].
    intros [= <-]. destruct (H2 sid s0 Hget) as [Hid _]. split; [done|by left].
Qed.

Ltac tidy_solve :=
  unfold tidy in *; cbn in *;
  repeat match goal with
    | H : _ /\ _ |- _ => destruct H
    end;
  repeat match goal with
    | H : tabRouting ?st = [] |- _ => rewrite H in *
    end;
  repeat match goal with
    | |- _ /\ _ => split
    end;
  try done;
  repeat first
    [ assumption
    | reflexivity
    | congruence
    | (apply sessions_ok_lastSeen; [|eassumption])
    | (apply sessions_ok_window_null; [|eassumption])
    | (apply sessions_ok_window; [|eassumption|done])
    | (apply sessions_ok_set; [|reflexivity|by left])
    | apply sessions_ok_delete
    | (eapply sessions_ok_cleared; eassumption)
    | match goal with
      | Hnone : extensionConnection ?st = None -> pendingRequests ?st = [] |- _ -> _ =>
          let H := fresh in intros H; cbn in *; try congruence;
          rewrite (Hnone H) in *; cbn in *; try congruence
      end ].

Lemma message_tidy (ws : Conn) (rawMessage : option Message) (env : Env) (st : State) :
  tidy st -> tidy (state_after (message ws rawMessage) env st).
Proof.
  intros Hwf. destruct rawMessage as [m|]; [|done].
  destruct m; act_run; tidy_solve.
Qed.

Lemma unregisterClient_tidy (sessionId : string) (env : Env) (st : State) :
  tidy st -> tidy (state_after (unregisterClient sessionId) env st).
Proof. intros Hwf. act_run; tidy_solve. Qed.

Lemma close_tidy (ws : Conn) (env : Env) (st : State) :
  tidy st -> tidy (state_after (close ws) env st).
Proof.
  intros Hwf. unfold state_after, exec, close, setExtensionConnection,
    mbind, mret, Act_bind, Act_ret, gets, modify. cbn.
  destruct (match extensionConnection st with
            | Some e => bool_decide (ec_ws e = ws)
            | None => false
            end).
  - destruct (rejectAll_spec (pendingRequests st) env st)
      as (ks & ps & ts & -> & _).
    rewrite for_each_rejected. cbn. destruct Hwf as (Hr & Hs & Hp).
    split; [exact Hr|]. split; [exact Hs|]. done.
  - destruct (List.find _ (clientSessions st)) as [[sid s]|]; [|done].
    pose proof (unregisterClient_tidy sid env st Hwf) as Hwf1.
    unfold state_after, exec in Hwf1.
    by destruct (unregisterClient sid env st) as [[[] st1] o1].
Qed.

Lemma staleCheck_tidy (env : Env) (st : State) :
  tidy st -> tidy (state_after staleCheck env st).
Proof.
  unfold state_after, exec, staleCheck, mbind, Act_bind, ask, gets. cbn.
  generalize (clientSessions st) as l. intros l. revert st.
  induction l as [|[sid s] l IH]; intros st Hwf; [done|].
  cbn. unfold mbind, Act_bind.
  destruct (CLIENT_KEEPALIVE_TIMEOUT_MS <? now env - cs_lastSeen s).
  - pose proof (unregisterClient_tidy sid env st Hwf) as Hwf1.
    unfold state_after, exec in Hwf1.
    destruct (unregisterClient sid env st) as [[[] st1] o1]. cbn in Hwf1.
    specialize (IH st1 Hwf1).
    destruct (for_each l _ env st1) as [[[] st2] o2]. exact IH.
  - cbn. specialize (IH st Hwf).
    destruct (for_each l _ env st) as [[[] st2] o2]. exact IH.
Qed.

Lemma step_tidy (st : State) (ev : Env * Event) :
  tidy st -> tidy (fst (step st ev)).
Proof.
  intros Hwf. destruct ev as [env [ws rawMessage| ws | timer | sleeper | |]].
  - by apply message_tidy.
  - by apply close_tidy.
  - act_run; tidy_solve.
  - act_run; tidy_solve.
  - by apply staleCheck_tidy.
  - act_run; tidy_solve.
Qed.

Lemma reachable_tidy (st : State) : reachable st -> tidy st.
Proof.
  induction 1 as [|st ev _ IH].
  - split; [done|]. split; [|done]. split.
    + intros sid Hin. by apply elem_of_empty in Hin.
    + intros sid s Hget. discriminate.
  - by apply step_tidy.
Qed.
(** Every frame of a run satisfies what every frame of a callback does. *)
Lemma run_outputs (I : State -> Prop) (P : Output -> Prop) :
  (forall st ev, I st -> I (fst (step st ev))) ->
  (forall st ev o, I st -> In o (snd (step st ev)) -> P o) ->
  forall evs st o, I st -> In o (snd (run st evs)) -> P o.
Proof.
  intros Hstep Hout. induction evs as [|ev evs IH]; intros st o HI; simpl; [done|].
  pose proof (Hstep st ev HI) as HI1. pose proof (Hout st ev) as Ho1.
  destruct (step st ev) as [st1 o1]. simpl in *.
  pose proof (IH st1) as IH1.
  destruct (run st1 evs) as [st2 o2]. simpl in *.
  intros Hin. apply in_app_or in Hin as [Hin|Hin]; [by apply Ho1|by apply IH1].
Qed.

Lemma run_invariant (I : State -> Prop) :
  (forall st ev, I st -> I (fst (step st ev))) ->
  forall evs st, I st -> I (fst (run st evs)).
Proof.
  intros Hstep. induction evs as [|ev evs IH]; intros st HI; simpl; [done|].
  pose proof (Hstep st ev HI) as HI1.
  destruct (step st ev) as [st1 o1]. simpl in *.
  pose proof (IH st1 HI1) as IH1.
  by destruct (run st1 evs) as [st2 o2].
Qed.

Lemma initial_tidy : tidy initial.
Proof. apply reachable_tidy, reachable_initial. Qed.

(** The frames of a callback that carry a session list carry the tab routes
    of the tables. *)
Lemma step_sessions_routes (st : State) (ev : Env * Event) (ws : Conn)
    (sessions : list SessionInfo) (routes : list (Z * string)) :
  tidy st ->
  In (SendExtension ws (Sessions sessions routes)) (snd (step st ev)) ->
  routes = [].
Proof.
  intros Hwf. destruct ev as [env [ws0 [m|]| ws0 | timer | sleeper | |]].
  - destruct m; act_run; destruct Hwf as (Hr & _); rewrite ?Hr; cbn;
      intuition (try discriminate; try congruence).
  - done.
  - unfold step, exec, handle. cbn [fst snd].
    destruct (close_cases ws0 env st) as [(ks & ps & ts & -> & _)|(s1 & c1 & r1 & ->)];
      cbn; [|done].
    induction ks as [|k ks IH]; cbn; [done|]. intros [Hk|Hin]; [discriminate|by apply IH].
  - act_run; destruct Hwf as (Hr & _); rewrite ?Hr; cbn;
      intuition (try discriminate; try congruence).
  - act_run; destruct Hwf as (Hr & _); rewrite ?Hr; cbn;
      intuition (try discriminate; try congruence).
  - unfold step, exec, handle. cbn [fst snd].
    by destruct (staleCheck_frame env st) as (s1 & c1 & r1 & ->).
  - act_run; intuition discriminate.
Qed.

(** X1.  No callback of the daemon stores a tab route: [tabRouting] is only
    ever deleted from and cleared.  In every run from the start the table is
    empty, every session list sent to the extension carries an empty
    [tabRouting] object, and a tab_closed frame changes nothing and writes
    nothing. *)
Theorem tab_routing_never_populated (evs : list (Env * Event)) :
  tabRouting (fst (run initial evs)) = []
  /\ (forall ws sessions routes,
        In (SendExtension ws (Sessions sessions routes)) (snd (run initial evs)) ->
        routes = [])
  /\ forall env ws tabId payload_tabId,
       step (fst (run initial evs))
         (env, WsMessage ws (Some (MTabClosed tabId payload_tabId)))
       = (fst (run initial evs), []).
Proof.
  assert (tabRouting (fst (run initial evs)) = []) as Hempty
    by apply (run_invariant tidy step_tidy evs initial initial_tidy).
  split; [done|]. split.
  - intros ws sessions routes Hin.
    assert (forall st ev o, tidy st -> In o (snd (step st ev)) ->
              match o with
              | SendExtension _ (Sessions _ r) => r = []
              | _ => True
              end) as Hout.
    { intros st ev [ws0 m|ws0 m|ws0 c r] HI Ho; try done.
      destruct m; try done. by eapply step_sessions_routes. }
    exact (run_outputs tidy _ step_tidy Hout evs initial _ initial_tidy Hin).
  - intros env ws tabId payload_tabId. revert Hempty.
    generalize (fst (run initial evs)). intros st Hempty.
    destruct tabId, payload_tabId; act_unfold; cbn; rewrite ?Hempty; reflexivity.
Qed.
Lemma In_get_NoDup {K V} `{EqDecision K} (k : K) (v : V) (m : list (K * V)) :
  List.NoDup (JsMap.keys m) -> In (k, v) m -> JsMap.get k m = Some v.
Proof.
  unfold JsMap.keys. induction m as [|[k' v'] m IH]; simpl; [done|].
  intros Hnd [Heq|Hin].
  - injection Heq as -> ->. by rewrite decide_True.
  - inversion Hnd as [|? ? Hnotin Hnd']; subst.
    destruct (decide (k = k')) as [->|Hne]; [|by apply IH].
    exfalso. apply Hnotin. apply in_map_iff. by exists (k', v).
Qed.

Lemma get_head_nonempty {K V} `{EqDecision K} (m : list (K * V)) :
  (forall k v, JsMap.get k m = Some v -> False) -> m = [].
Proof.
  destruct m as [|[k v] m]; [done|]. intros H. exfalso.
  apply (H k v). simpl. by rewrite decide_True.
Qed.

(** X2.  The window cache only names registered sessions: in any tables the
    daemon can reach, a session id in [windowCache] is a key of
    [clientSessions], and the session stored there carries that id. *)
Theorem window_cache_names_registered_sessions (st : State) (sid : string) :
  reachable st ->
  sid ∈ windowCache st ->
  exists s, JsMap.get sid (clientSessions st) = Some s /\ cs_sessionId s = sid.
Proof.
  intros Hst Hin. destruct (reachable_tidy st Hst) as (_ & [H1 H2] & _).
  destruct (H1 sid Hin) as [s Hs]. exists s. split; [done|].
  by destruct (H2 sid s Hs).
Qed.

(** X3.  In any tables the daemon can reach, an entry of [getSessionList()]
    has status "ready" exactly when its windowId is not null, and a session
    listed as ready is in the window cache. *)
Theorem ready_sessions_are_cached (st : State) (i : SessionInfo) :
  reachable st ->
  In i (getSessionList st) ->
  (si_status i = "ready" <-> si_windowId i <> JNull)
  /\ (si_status i = "pending" <-> si_windowId i = JNull)
  /\ (si_status i = "ready" -> si_sessionId i ∈ windowCache st).
Proof.
  intros Hst Hin. destruct (reachable_tidy st Hst) as (_ & [_ H2] & _).
  destruct (reachable_well_formed st Hst) as (_ & Hnd & _).
  unfold getSessionList, JsMap.values in Hin.
  apply in_map_iff in Hin as (s & <- & Hin).
  apply in_map_iff in Hin as ([sid s'] & Heq & Hin). simpl in Heq. subst s'.
  apply In_get_NoDup in Hin; [|done].
  destruct (H2 sid s Hin) as [Hid Hw]. unfold session_info.
  cbn [si_status si_windowId si_sessionId].
  destruct Hw as [Hnull|[Htruthy Hcache]].
  - rewrite Hnull. cbn. repeat split; try done.
  - rewrite Htruthy. rewrite Hid. repeat split; try done.
    + intros _ Hnull. rewrite Hnull in Htruthy. discriminate.
    + intros Hnull. rewrite Hnull in Htruthy. discriminate.
Qed.

(** X4.  Requests are pending only while an extension is bound: in any
    tables the daemon can reach with no extension connection, no request is
    pending and no request timer is armed. *)
Theorem nothing_pending_without_extension (st : State) :
  reachable st ->
  extensionConnection st = None ->
  pendingRequests st = [] /\ timers st = [].
Proof.
  intros Hst Hext. destruct (reachable_tidy st Hst) as (_ & _ & Hp).
  destruct (reachable_well_formed st Hst) as (_ & _ & L1 & _).
  specialize (Hp Hext). split; [done|].
  apply get_head_nonempty. intros h t Ht.
  destruct (L1 h t Ht) as (_ & _ & _ & p & Hrow & _). rewrite Hp in Hrow. discriminate.
Qed.
(** ** Sessions arrive, stay and leave *)

Lemma find_Some_get {V} (f : string * V -> bool) (m : list (string * V)) (k : string) (v : V) :
  List.find f m = Some (k, v) -> exists v', JsMap.get k m = Some v'.
Proof.
  induction m as [|[k' v'] m IH]; simpl; [done|].
  destruct (f (k', v')).
  - intros [= -> ->]. rewrite decide_True by done. eauto.
  - intros Hfind. destruct (decide (k = k')); eauto.
Qed.

Lemma get_filter_NoDup {V} (f : string * V -> bool) (m : list (string * V)) (k : string) (v : V) :
  List.NoDup (JsMap.keys m) ->
  JsMap.get k m = Some v ->
  f (k, v) = true ->
  JsMap.get k (List.filter f m) = Some v.
Proof.
  unfold JsMap.keys. induction m as [|[k' v'] m IH]; simpl; [done|].
  intros Hnd. inversion Hnd as [|? ? Hnotin Hnd']; subst.
  destruct (decide (k = k')) as [->|Hne].
  - intros [= ->] Hf. rewrite Hf. simpl. by rewrite decide_True.
  - intros Hget Hf. destruct (f (k', v')); simpl; [rewrite decide_False by done|]; by apply IH.
Qed.

Lemma staleCheck_sessions (env : Env) (st : State) :
  List.NoDup (JsMap.keys (clientSessions st)) ->
  clientSessions (fst (step st (env, StaleCheck)))
  = List.filter (fun '(_, s) => negb (stale env s)) (clientSessions st).
Proof.
  intros Hnodup.
  destruct (staleCheck_loop env (clientSessions st) [] st eq_refl Hnodup)
    as (cache & routes & Hrun & _).
  unfold step, exec, handle, staleCheck, mbind, Act_bind, ask, gets. cbn.
  rewrite Hrun. reflexivity.
Qed.

(** X5.  Registration never fails and never looks at what is registered:
    the session is stored under its id with a null windowId and both stamps
    at the clock, on the socket of the frame; every other session, the window
    cache and the pending requests are as before.  The socket gets
    [registered] with success true, and a bound extension then gets the new
    session list.  An id that was registered already is taken over by the
    new socket; if that id is in the window cache it stays there, so the next
    command in its name is forwarded at once, with no create_window. *)
Theorem register_replaces_session (env : Env) (st : State) (ws : Conn)
    (sessionId label : string) :
  let ev := (env, WsMessage ws (Some (MRegister sessionId label))) in
  JsMap.get sessionId (clientSessions (fst (step st ev)))
  = Some {| cs_sessionId := sessionId; cs_label := label; cs_ws := ws;
            cs_windowId := JNull; cs_registeredAt := now env; cs_lastSeen := now env |}
  /\ (forall sid, sid <> sessionId ->
        JsMap.get sid (clientSessions (fst (step st ev))) = JsMap.get sid (clientSessions st))
  /\ windowCache (fst (step st ev)) = windowCache st
  /\ pendingRequests (fst (step st ev)) = pendingRequests st
  /\ extensionConnection (fst (step st ev)) = extensionConnection st
  /\ snd (step st ev)
     = SendClient ws (Registered sessionId true)
       :: match extensionConnection st with
          | Some e =>
              [SendExtension (ec_ws e)
                 (Sessions (getSessionList (fst (step st ev))) (tabRouting st))]
          | None => []
          end
  /\ forall e env' ws' reqId command params,
       extensionConnection st = Some e ->
       sessionId ∈ windowCache st ->
       snd (step (fst (step st ev))
              (env', WsMessage ws' (Some (MCommand reqId sessionId command params))))
       = [SendExtension (ec_ws e)
            (Route (requestId (requestIdCounter st + 1) (now env')) sessionId command
               (assign "sessionId" (JStr sessionId) params))].
Proof.
  cbv zeta.
  assert (fst (step st (env, WsMessage ws (Some (MRegister sessionId label))))
          = set_clientSessions
              (JsMap.set sessionId
                 {| cs_sessionId := sessionId; cs_label := label; cs_ws := ws;
                    cs_windowId := JNull; cs_registeredAt := now env;
                    cs_lastSeen := now env |} (clientSessions st)) st) as Hst.
  { act_run; reflexivity. }
  rewrite Hst. cbn [clientSessions windowCache pendingRequests extensionConnection
                    set_clientSessions].
  split; [apply get_set_eq|]. split; [intros sid Hne; by apply get_set_ne|].
  split; [done|]. split; [done|]. split; [done|]. split.
  - act_run; reflexivity.
  - intros e env' ws' reqId command params Hext Hcache.
    set (st1 := set_clientSessions _ st).
    assert (extensionConnection st1 = Some e) as Hext1 by done.
    rewrite step_command, (command_with_window env' st1 e) by done.
    destruct (sendCommandToExtension_arms env' st1 e command params sessionId
                (AwaitCommandResult ws' reqId sessionId) Hext1) as (Hw & _).
    exact Hw.
Qed.

(** X6.  The close of a socket that is not the extension's unregisters the
    first session, in registration order, whose socket it is, and only that
    one; a later session on the same socket stays registered.  Nothing is
    written: the extension gets neither a close_window route nor a session
    list, and the pending requests, promises and timers are as before.  With
    no session on the socket nothing changes. *)
Theorem client_close_unregisters_first_session (env : Env) (st : State) (ws : Conn) :
  (forall e, extensionConnection st = Some e -> ec_ws e <> ws) ->
  snd (step st (env, WsClose ws)) = []
  /\ pendingRequests (fst (step st (env, WsClose ws))) = pendingRequests st
  /\ promises (fst (step st (env, WsClose ws))) = promises st
  /\ timers (fst (step st (env, WsClose ws))) = timers st
  /\ extensionConnection (fst (step st (env, WsClose ws))) = extensionConnection st
  /\ match List.find (fun '(_, session) => bool_decide (cs_ws session = ws))
             (clientSessions st) with
     | Some (sessionId, _) =>
         clientSessions (fst (step st (env, WsClose ws)))
         = JsMap.delete sessionId (clientSessions st)
         /\ windowCache (fst (step st (env, WsClose ws))) = windowCache st ∖ {[ sessionId ]}
         /\ forall sid, sid <> sessionId ->
              JsMap.get sid (clientSessions (fst (step st (env, WsClose ws))))
              = JsMap.get sid (clientSessions st)
     | None => fst (step st (env, WsClose ws)) = st
     end.
Proof.
  intros Hext.
  assert (match extensionConnection st with
          | Some e => bool_decide (ec_ws e = ws)
          | None => false
          end = false) as Hnot.
  { destruct (extensionConnection st) as [e|] eqn:He; [|done].
    apply bool_decide_eq_false_2. by apply Hext. }
  unfold step, exec, handle, close, mbind, mret, Act_bind, Act_ret, gets. cbn.
  rewrite Hnot.
  destruct (List.find _ (clientSessions st)) as [[sid s]|] eqn:Hfind; [|done].
  destruct (find_Some_get _ _ _ _ Hfind) as [s' Hget].
  rewrite (unregisterClient_present env st sid s' Hget). cbn.
  repeat split; try done. intros sid' Hne. by apply get_delete_ne.
Qed.

(** X7.  A session id registered again on a new socket belongs to the new
    socket: when the old socket closes afterwards, the session stays
    registered on the new one. *)
Theorem reregistered_session_survives_old_socket (env1 env2 : Env) (st : State)
    (old new : Conn) (sessionId label : string) :
  reachable st ->
  old <> new ->
  let st1 := fst (step st (env1, WsMessage new (Some (MRegister sessionId label)))) in
  let st2 := fst (step st1 (env2, WsClose old)) in
  JsMap.get sessionId (clientSessions st2)
  = Some {| cs_sessionId := sessionId; cs_label := label; cs_ws := new;
            cs_windowId := JNull; cs_registeredAt := now env1; cs_lastSeen := now env1 |}.
Proof.
  intros Hst Hne st1 st2.
  assert (reachable st1) as Hst1 by apply reachable_step, Hst.
  destruct (reachable_well_formed st1 Hst1) as (_ & Hnd & _).
  assert (JsMap.get sessionId (clientSessions st1)
          = Some {| cs_sessionId := sessionId; cs_label := label; cs_ws := new;
                    cs_windowId := JNull; cs_registeredAt := now env1;
                    cs_lastSeen := now env1 |}) as Hget.
  { subst st1. act_run; apply get_set_eq. }
  subst st2. unfold step at 1. unfold exec, handle. cbn [fst snd].
  destruct (close_cases old env2 st1) as [(ks & ps & ts & -> & _)|Hcase]; [done|].
  clear Hcase. unfold close, mbind, mret, Act_bind, Act_ret, gets. cbn.
  destruct (match extensionConnection st1 with
            | Some e => bool_decide (ec_ws e = old)
            | None => false
            end) eqn:Hext.
  - destruct (rejectAll_spec (pendingRequests st1) env2 st1) as (ks & ps & ts & -> & _).
    unfold setExtensionConnection, mbind, Act_bind, modify. cbn.
    rewrite for_each_rejected. done.
  - destruct (List.find _ (clientSessions st1)) as [[sid s]|] eqn:Hfind; [|done].
    apply find_some in Hfind as [Hin Hws]. apply bool_decide_eq_true_1 in Hws.
    apply In_get_NoDup in Hin; [|done].
    rewrite (unregisterClient_present env2 st1 sid s Hin). cbn.
    rewrite get_delete_ne; [done|]. intros <-. rewrite Hget in Hin.
    injection Hin as <-. simpl in Hws. congruence.
Qed.

(** X8.  A keepalive stamps the session with the clock and writes nothing;
    a sweep that runs no later than 60 s after it keeps the session, whatever
    else it removes. *)
Theorem keepalive_protects_from_sweep (env env' : Env) (st : State) (ws : Conn)
    (sessionId : string) (session : ClientSession) :
  reachable st ->
  JsMap.get sessionId (clientSessions st) = Some session ->
  now env' - now env <= CLIENT_KEEPALIVE_TIMEOUT_MS ->
  let st1 := fst (step st (env, WsMessage ws (Some (MKeepalive sessionId)))) in
  let st2 := fst (step st1 (env', StaleCheck)) in
  snd (step st (env, WsMessage ws (Some (MKeepalive sessionId)))) = []
  /\ JsMap.get sessionId (clientSessions st1) = Some (with_lastSeen (now env) session)
  /\ JsMap.get sessionId (clientSessions st2) = Some (with_lastSeen (now env) session).
Proof.
  intros Hst Hget Hsoon st1 st2.
  assert (reachable st1) as Hst1 by apply reachable_step, Hst.
  destruct (reachable_well_formed st1 Hst1) as (_ & Hnd & _).
  assert (JsMap.get sessionId (clientSessions st1) = Some (with_lastSeen (now env) session))
    as Hget1.
  { subst st1. act_run; try congruence; apply get_set_eq. }
  split; [act_run; try congruence; reflexivity|]. split; [done|].
  subst st2. rewrite staleCheck_sessions by done.
  apply get_filter_NoDup; [done|done|].
  unfold stale. simpl. apply negb_true_iff, Z.ltb_ge. lia.
Qed.
(** ** Signs of life *)

Ltac sessions_cases :=
  repeat match goal with
    | H : JsMap.get ?k (JsMap.set ?k' _ _) = Some _ |- _ =>
        destruct (decide (k = k')) as [?|?];
        [subst; rewrite get_set_eq in H; injection H as <-
        |rewrite get_set_ne in H by done]
    | H : JsMap.get ?k (JsMap.delete ?k' _) = Some _ |- _ =>
        destruct (decide (k = k')) as [?|?];
        [subst; rewrite get_delete_eq in H; discriminate
        |rewrite get_delete_ne in H by done]
    | H : JsMap.get ?k (map _ ?m) = Some _ |- _ =>
        rewrite get_cleared_fmap in H;
        let s := fresh "s" in let E := fresh "E" in
        destruct (JsMap.get k m) as [s|] eqn:E; [injection H as <-|discriminate]
    end.

Ltac kept_solve :=
  cbn in *; sessions_cases; cbn in *;
  first [ done | congruence | by eauto 10 ].

Lemma unregisterClient_kept (sessionId : string) (env : Env) (st : State)
    (sid : string) (s' : ClientSession) :
  JsMap.get sid (clientSessions (state_after (unregisterClient sessionId) env st)) = Some s' ->
  JsMap.get sid (clientSessions st) = Some s'.
Proof. act_run; intros H; kept_solve. Qed.

(** X9.  Only a register or a keepalive in the name of a session moves its
    [lastSeen]: after any other callback, a session that is still registered
    has the stamps, the socket and the label it had before.  A command, in
    particular, is no sign of life for the sweeper. *)
Theorem lastSeen_moves_only_on_register_and_keepalive (env : Env) (ev : Event)
    (st : State) (sid : string) (s' : ClientSession) :
  reachable st ->
  ~ refreshes sid ev ->
  JsMap.get sid (clientSessions (fst (step st (env, ev)))) = Some s' ->
  exists s,
    JsMap.get sid (clientSessions st) = Some s
    /\ cs_lastSeen s' = cs_lastSeen s
    /\ cs_registeredAt s' = cs_registeredAt s
    /\ cs_ws s' = cs_ws s
    /\ cs_label s' = cs_label s.
Proof.
  intros Hst Hev. destruct (reachable_well_formed st Hst) as (_ & Hnd & _).
  destruct ev as [ws [m|]| ws | timer | sleeper | |].
  - destruct m; act_run; intros H; try (by kept_solve).
    all: cbn in Hev; kept_solve.
  - intros H. eauto 10.
  - unfold step, exec, handle. cbn [fst snd].
    unfold close, mbind, mret, Act_bind, Act_ret, gets. cbn.
    destruct (match extensionConnection st with
              | Some e => bool_decide (ec_ws e = ws)
              | None => false
              end).
    + destruct (rejectAll_spec (pendingRequests st) env st) as (ks & ps & ts & -> & _).
      unfold setExtensionConnection, mbind, Act_bind, modify. cbn.
      rewrite for_each_rejected. cbn. eauto 10.
    + destruct (List.find _ (clientSessions st)) as [[sid0 s0]|]; [|cbn; eauto 10].
      pose proof (unregisterClient_kept sid0 env st sid s') as Hk.
      unfold state_after, exec in Hk.
      destruct (unregisterClient sid0 env st) as [[[] st1] o1]. cbn in *.
      intros H. apply Hk in H. eauto 10.
  - act_run; intros H; kept_solve.
  - act_run; intros H; kept_solve.
  - rewrite staleCheck_sessions by done. intros H.
    exists s'. split; [|done].
    apply In_get_NoDup; [done|].
    apply get_Some_In in H. by apply filter_In in H as [H _].
  - act_run; intros H; kept_solve.
Qed.
(** ** Chrome *)

Lemma find_first {A} (f : A -> bool) (before after : list A) (x : A) :
  (forall y, In y before -> f y = false) ->
  f x = true ->
  List.find f (before ++ x :: after) = Some x.
Proof.
  intros Hbefore Hx. induction before as [|y before IH]; simpl.
  - by rewrite Hx.
  - rewrite (Hbefore y) by (by left). apply IH. intros z Hz. apply Hbefore. by right.
Qed.

(** X10.  Chrome is started at most once in the life of the daemon.  The
    only callback that changes [chromeProcess] is a command that arrives
    while no extension is bound and no process is recorded, when a Chrome is
    found and spawned; every other callback, the close of the extension's
    socket included, leaves the record as it is. *)
Theorem chrome_is_started_at_most_once (env : Env) (ev : Event) (st : State) :
  chromeProcess (fst (step st (env, ev))) = chromeProcess st
  \/ exists ws reqId sessionId command params path pid,
       ev = WsMessage ws (Some (MCommand reqId sessionId command params))
       /\ extensionConnection st = None
       /\ chromeProcess st = None
       /\ findChrome env = Some path
       /\ spawn env path = Some pid
       /\ chromeProcess (fst (step st (env, ev))) = Some pid.
Proof.
  destruct ev as [ws [m|]| ws | timer | sleeper | |].
  - destruct m; try (left; act_run; cbn; congruence).
    act_run; first [left; cbn; congruence | right; eauto 20].
  - by left.
  - left. unfold step, exec, handle. cbn [fst snd].
    by destruct (close_cases ws env st) as [(ks & ps & ts & -> & _)|(s1 & c1 & r1 & ->)].
  - left. act_run; cbn; congruence.
  - left. act_run; cbn; congruence.
  - left. unfold step, exec, handle. cbn [fst snd].
    by destruct (staleCheck_frame env st) as (s1 & c1 & r1 & ->).
  - left. act_run; cbn; congruence.
Qed.

(** X11.  Only the first Chrome that exists is tried.  When no extension is
    bound, no process is recorded, and spawning the first existing path of
    [CHROME_PATHS] throws, the command fails at once with
    EXTENSION_NOT_CONNECTED and the tables are unchanged, whatever paths come
    later in the list. *)
Theorem chrome_spawn_failure_is_not_retried (env : Env) (st : State) (ws : Conn)
    (reqId sessionId command : string) (params : list (string * json))
    (before after : list string) (path : string) :
  extensionConnection st = None ->
  chromeProcess st = None ->
  CHROME_PATHS = before ++ path :: after ->
  (forall p, In p before -> existsSync env p = false) ->
  existsSync env path = true ->
  spawn env path = None ->
  findChrome env = Some path
  /\ step st (env, WsMessage ws (Some (MCommand reqId sessionId command params)))
     = (st, [SendClient ws
               (ErrorMessage reqId sessionId "EXTENSION_NOT_CONNECTED"
                  "Extension not connected and Chrome failed to start")]).
Proof.
  intros Hext Hproc Hpaths Hbefore Hpath Hspawn.
  assert (findChrome env = Some path) as Hfind.
  { unfold findChrome. rewrite Hpaths. by apply find_first. }
  split; [done|].
  act_run; congruence.
Qed.
(** ** A command and its reply *)

Lemma delete_set_absent {K V} `{EqDecision K} (k : K) (v : V) (m : list (K * V)) :
  JsMap.get k m = None -> JsMap.delete k (JsMap.set k v m) = m.
Proof.
  induction m as [|[k' v'] m IH]; simpl.
  - by rewrite decide_True.
  - destruct (decide (k = k')) as [->|Hne]; [done|].
    intros Hget. simpl. rewrite decide_False by done. by rewrite IH.
Qed.

Lemma linked_fresh_handles (st : State) :
  linked st ->
  JsMap.get (nextHandle st) (promises st) = None
  /\ JsMap.get (S (nextHandle st)) (timers st) = None.
Proof.
  intros (L1 & _ & L3 & _). split.
  - destruct (JsMap.get (nextHandle st) (promises st)) as [k|] eqn:Hk; [|done].
    apply L3 in Hk. lia.
  - destruct (JsMap.get (S (nextHandle st)) (timers st)) as [t|] eqn:Ht; [|done].
    apply L1 in Ht as [Hlt _]. lia.
Qed.

(** The tables with a request on its way to the extension. *)
Lemma sendCommandToExtension_state (env : Env) (st : State) (e : ExtensionConnection)
    (command : string) (params : list (string * json)) (sessionId : string)
    (k : Continuation) :
  extensionConnection st = Some e ->
  exec (sendCommandToExtension command params sessionId k) env st
  = (in_flight env sessionId k st,
     [SendExtension (ec_ws e)
        (Route (requestId (requestIdCounter st + 1) (now env)) sessionId command
           (assign "sessionId" (JStr sessionId) params))]).
Proof.
  intros Hext. act_unfold. cbn. rewrite Hext. cbn. rewrite Hext. reflexivity.
Qed.

Lemma reply_in_flight (env env' : Env) (st : State) (ws : Conn) (m : Message)
    (sessionId : string) (k : Continuation) :
  well_formed st ->
  reqId_of m = Some (requestId (requestIdCounter st + 1) (now env)) ->
  step (in_flight env sessionId k st) (env', WsMessage ws (Some m))
  = exec (resume k (reply_outcome m)) env' (answered st).
Proof.
  intros (Hiss & _ & Hlinked) Hreq.
  destruct (linked_fresh_handles st Hlinked) as [Hp Ht].
  pose proof (issued_get_fresh _ (now env) _ Hiss) as Hrow.
  set (rid := requestId (requestIdCounter st + 1) (now env)) in *.
  set (pending := {| pr_promise := nextHandle st; pr_timeout := S (nextHandle st);
                     pr_sessionId := sessionId |}).
  destruct (reply_settles_row env' (in_flight env sessionId k st) ws m rid pending k Hreq)
    as (_ & _ & _ & _ & -> & _).
  - apply get_set_eq.
  - apply get_set_eq.
  - f_equal. unfold retire, in_flight, answered. cbn.
    rewrite !delete_set_absent by done. reflexivity.
Qed.
Lemma command_in_flight (env : Env) (st : State) (e : ExtensionConnection) (ws : Conn)
    (reqId sessionId command : string) (params : list (string * json)) :
  extensionConnection st = Some e ->
  step st (env, WsMessage ws (Some (MCommand reqId sessionId command params)))
  = if decide (sessionId ∈ windowCache st) then
      (in_flight env sessionId (AwaitCommandResult ws reqId sessionId) st,
       [SendExtension (ec_ws e)
          (Route (requestId (requestIdCounter st + 1) (now env)) sessionId command
             (assign "sessionId" (JStr sessionId) params))])
    else
      (in_flight env sessionId (AwaitCreateWindow ws reqId sessionId command params) st,
       [SendExtension (ec_ws e)
          (Route (requestId (requestIdCounter st + 1) (now env)) sessionId "create_window"
             [("sessionId", JStr sessionId)])]).
Proof.
  intros Hext. rewrite step_command. destruct (decide (sessionId ∈ windowCache st)).
  - rewrite (command_with_window env st e) by done.
    by apply sendCommandToExtension_state.
  - rewrite (command_without_window env st e) by done.
    rewrite (sendCommandToExtension_state env st e) by done.
    reflexivity.
Qed.

(** X12.  A command of a session whose window is cached goes out as one
    route frame under a fresh request id; the reply to that id, on whatever
    socket it arrives, goes back to the socket of the command under the
    client's own reqId and sessionId: a route_result as a response with the
    payload untouched, an error frame as COMMAND_FAILED with the payload's
    message, or "Unknown error" when that is missing or empty (its code is
    dropped).  Afterwards the tables are as before the
    command, but for the counter and the two handles that were used. *)
Theorem command_round_trip (env env' : Env) (st : State) (e : ExtensionConnection)
    (ws ws' : Conn) (reqId sessionId command : string) (params : list (string * json))
    (m : Message) :
  reachable st ->
  extensionConnection st = Some e ->
  sessionId ∈ windowCache st ->
  reqId_of m = Some (requestId (requestIdCounter st + 1) (now env)) ->
  snd (step st (env, WsMessage ws (Some (MCommand reqId sessionId command params))))
  = [SendExtension (ec_ws e)
       (Route (requestId (requestIdCounter st + 1) (now env)) sessionId command
          (assign "sessionId" (JStr sessionId) params))]
  /\ step (fst (step st (env, WsMessage ws (Some (MCommand reqId sessionId command params)))))
       (env', WsMessage ws' (Some m))
     = (answered st,
        [SendClient ws
           (if String.eqb (msg_type m) "error"
            then ErrorMessage reqId sessionId "COMMAND_FAILED" (error_text m)
            else Response reqId sessionId (payload_of m))])
  /\ (forall r s p text, m = MError r s (Some p) -> ep_message p = Some text ->
        text <> EmptyString -> error_text m = text)
  /\ (forall r s p, m = MError r s p ->
        p = None
        \/ (exists q, p = Some q
                      /\ (ep_message q = None \/ ep_message q = Some EmptyString)) ->
        error_text m = "Unknown error").
Proof.
  intros Hst Hext Hcache Hreq.
  rewrite (command_in_flight env st e) by done. rewrite decide_True by done.
  split; [done|]. cbn [fst]. split; [|split].
  - rewrite (reply_in_flight env env') by (by apply reachable_well_formed || done).
    unfold reply_outcome. by destruct (String.eqb (msg_type m) "error").
  - intros r s p text -> Hp Hne. unfold error_text. rewrite Hp.
    by replace (String.eqb text EmptyString) with false
      by (symmetry; by apply String.eqb_neq).
  - intros r s p -> [->|(q & -> & [Hq|Hq])]; unfold error_text; by rewrite ?Hq.
Qed.

(** X13.  A command of a session that has no cached window first asks the
    extension for one.  When the reply is an error frame, or carries no
    truthy [windowId], the command is never forwarded: its socket gets one
    WINDOW_CREATION_FAILED error under the client's reqId (with the error
    frame's message, or "Unknown error" when that is missing or empty), and
    the tables are
    as before the command but for the counter and the two handles, so the
    session is still without a cached window. *)
Theorem window_creation_failure_fails_command (env env' : Env) (st : State)
    (e : ExtensionConnection) (ws ws' : Conn) (reqId sessionId command : string)
    (params : list (string * json)) (m : Message) :
  reachable st ->
  extensionConnection st = Some e ->
  sessionId ∉ windowCache st ->
  reqId_of m = Some (requestId (requestIdCounter st + 1) (now env)) ->
  String.eqb (msg_type m) "error" = true
  \/ truthy (prop "windowId" (payload_of m)) = false ->
  snd (step st (env, WsMessage ws (Some (MCommand reqId sessionId command params))))
  = [SendExtension (ec_ws e)
       (Route (requestId (requestIdCounter st + 1) (now env)) sessionId "create_window"
          [("sessionId", JStr sessionId)])]
  /\ step (fst (step st (env, WsMessage ws (Some (MCommand reqId sessionId command params)))))
       (env', WsMessage ws' (Some m))
     = (answered st,
        [SendClient ws
           (ErrorMessage reqId sessionId "WINDOW_CREATION_FAILED"
              (if String.eqb (msg_type m) "error" then error_text m
               else "Window creation failed: no windowId returned"))])
  /\ (sessionId ∉ windowCache (answered st))
  /\ (forall r s p text, m = MError r s (Some p) -> ep_message p = Some text ->
        text <> EmptyString -> error_text m = text)
  /\ (forall r s p, m = MError r s p ->
        p = None
        \/ (exists q, p = Some q
                      /\ (ep_message q = None \/ ep_message q = Some EmptyString)) ->
        error_text m = "Unknown error").
Proof.
  intros Hst Hext Hcache Hreq Hbad.
  rewrite (command_in_flight env st e) by done. rewrite decide_False by done.
  split; [done|]. split; [|split; [done|split]]. cbn [fst].
  - rewrite (reply_in_flight env env') by (by apply reachable_well_formed || done).
    unfold reply_outcome. destruct (String.eqb (msg_type m) "error"); [done|].
    destruct Hbad as [?|Hw]; [done|].
    unfold exec, resume, afterCreateWindow, sendErrorToClient, emit.
    destruct (prop "windowId" (payload_of m)) as [w|]; [|done].
    by rewrite Hw.
  - intros r s p text -> Hp Hne. unfold error_text. rewrite Hp.
    by replace (String.eqb text EmptyString) with false
      by (symmetry; by apply String.eqb_neq).
  - intros r s p -> [->|(q & -> & [Hq|Hq])]; unfold error_text; by rewrite ?Hq.
Qed.

(** X14.  The daemon serves commands in the name of a session that is not
    registered, and never remembers the window it opens for one: the command
    asks for a window, the reply with a windowId lets the command through
    (or, when the windowId has no string form, fails it with
    WINDOW_CREATION_FAILED and the text of the runtime's TypeError), and
    afterwards the session id is still neither registered nor in the window
    cache, so its next command asks for a window again. *)
Theorem unregistered_session_gets_a_window_per_command (env env' : Env) (st : State)
    (e : ExtensionConnection) (ws ws' : Conn) (reqId sessionId command : string)
    (params : list (string * json)) (m : Message) (w : json) :
  reachable st ->
  extensionConnection st = Some e ->
  JsMap.get sessionId (clientSessions st) = None ->
  reqId_of m = Some (requestId (requestIdCounter st + 1) (now env)) ->
  String.eqb (msg_type m) "error" = false ->
  prop "windowId" (payload_of m) = Some w ->
  truthy (Some w) = true ->
  let asked := fst (step st (env, WsMessage ws (Some (MCommand reqId sessionId command params)))) in
  snd (step st (env, WsMessage ws (Some (MCommand reqId sessionId command params))))
  = [SendExtension (ec_ws e)
       (Route (requestId (requestIdCounter st + 1) (now env)) sessionId "create_window"
          [("sessionId", JStr sessionId)])]
  /\ step asked (env', WsMessage ws' (Some m))
     = match js_String w with
       | Some _ =>
           (in_flight env' sessionId (AwaitCommandResult ws reqId sessionId) (answered st),
            [SendExtension (ec_ws e)
               (Route (requestId (requestIdCounter st + 2) (now env')) sessionId command
                  (assign "sessionId" (JStr sessionId) params))])
       | None =>
           (answered st,
            [SendClient ws
               (ErrorMessage reqId sessionId "WINDOW_CREATION_FAILED"
                  (TypeError_message env'))])
       end
  /\ (sessionId ∉ windowCache (fst (step asked (env', WsMessage ws' (Some m)))))
  /\ JsMap.get sessionId (clientSessions (fst (step asked (env', WsMessage ws' (Some m)))))
     = None
  /\ ((exists n, w = JNum n) \/ (exists s, w = JStr s) -> js_String w <> None)
  /\ (forall members, w = JObj members ->
        js_String w = match assoc "toString" members with
                      | Some _ => None
                      | None => Some "[object Object]"
                      end).
Proof.
  intros Hst Hext Hget Hreq Hok Hw Htruthy asked.
  assert (sessionId ∉ windowCache st) as Hcache.
  { intros Hin. destruct (reachable_tidy st Hst) as (_ & [H1 _] & _).
    destruct (H1 sessionId Hin) as [s Hs]. congruence. }
  subst asked.
  rewrite (command_in_flight env st e) by done. rewrite decide_False by done.
  split; [done|]. cbn [fst].
  assert (step (in_flight env sessionId (AwaitCreateWindow ws reqId sessionId command params) st)
            (env', WsMessage ws' (Some m))
          = match js_String w with
            | Some _ =>
                (in_flight env' sessionId (AwaitCommandResult ws reqId sessionId) (answered st),
                 [SendExtension (ec_ws e)
                    (Route (requestId (requestIdCounter st + 2) (now env')) sessionId command
                       (assign "sessionId" (JStr sessionId) params))])
            | None =>
                (answered st,
                 [SendClient ws
                    (ErrorMessage reqId sessionId "WINDOW_CREATION_FAILED"
                       (TypeError_message env'))])
            end) as Hstep.
  { rewrite (reply_in_flight env env') by (by apply reachable_well_formed || done).
    unfold reply_outcome. rewrite Hok.
    unfold exec, resume, afterCreateWindow. rewrite Hw, Htruthy.
    unfold setClientWindowId, forwardCommand, mbind, mret, Act_bind, Act_ret, gets, modify.
    cbn [clientSessions answered set_nextHandle set_requestIdCounter].
    rewrite Hget.
    destruct (js_String w); [|reflexivity].
    act_unfold. cbn. rewrite Hext. cbn. rewrite Hext. cbn.
    unfold in_flight, answered. cbn.
    replace (requestIdCounter st + 1 + 1) with (requestIdCounter st + 2) by lia.
    reflexivity. }
  rewrite Hstep. split; [done|].
  split; [by destruct (js_String w)|]. split; [by destruct (js_String w)|]. split.
  - by intros [[n ->]|[s ->]].
  - by intros members ->.
Qed.
(** A create_window reply whose windowId is the object [{"toString": 1}]:
    the session is marked with it and cached, then the log line throws, and
    the command fails without being forwarded. *)
Lemma unprintable_windowId_fails_command :
  step (fst (step two_clients
               (env_at 3000, WsMessage 1%nat (Some (MCommand "r1" "A" "get_tabs" [])))))
    (env_at 3100,
     WsMessage 9%nat
       (Some (MRouteResult "req_1_2bc" None
                (Some (JObj [("windowId", JObj [("toString", JNum 1)])])))))
  = (set_windowCache ({["A"]} ∪ windowCache two_clients)
       (set_clientSessions
          (JsMap.set "A"
             {| cs_sessionId := "A"; cs_label := "first"; cs_ws := 1%nat;
                cs_windowId := JObj [("toString", JNum 1)];
                cs_registeredAt := 1000; cs_lastSeen := 1000 |}
             (clientSessions two_clients))
          (answered two_clients)),
     [SendClient 1%nat
        (ErrorMessage "r1" "A" "WINDOW_CREATION_FAILED" "No default value")]).
Proof. vm_compute. reflexivity. Qed.

Lemma issued_row (st : State) (r : string) (p : PendingRequest) :
  well_formed st -> JsMap.get r (pendingRequests st) = Some p ->
  exists c t, r = requestId c t.
Proof.
  intros (Hiss & _) Hrow. apply get_Some_In in Hrow.
  destruct (Hiss r p Hrow) as (c & t & -> & _). eauto.
Qed.
(** ** Frames of the open interface *)

(** X15.  A frame whose tag the dispatcher does not list, and which carries
    a truthy top-level [sessionId] together with a truthy [command] or
    [reqId], is taken for a client frame; no client handler has a case for
    it, so it is dropped: nothing changes and nothing is written.  A legacy
    reply or a window_closed that carries these members never reaches its
    handler. *)
Theorem unlisted_frame_with_session_is_dropped (env : Env) (st : State) (ws : Conn)
    (type : string) (fields : list (string * json)) :
  unlisted type = true ->
  truthy (assoc "sessionId" fields) = true ->
  truthy (assoc "command" fields) || truthy (assoc "reqId" fields) = true ->
  step st (env, WsMessage ws (Some (MOther type fields))) = (st, []).
Proof.
  unfold unlisted. intros Htag Hsid Hcr.
  apply andb_true_iff in Htag as [Htag Hext]. apply andb_true_iff in Htag as [Hhello Hclient].
  apply negb_true_iff in Hhello, Hclient, Hext.
  unfold step, exec, handle, message. cbn -[is_client_type is_extension_type truthy].
  rewrite Hhello, Hclient, Hext, Hsid, Hcr. reflexivity.
Qed.

Lemma Number_toString_safe (n : Z) :
  - 2 ^ 53 < n < 2 ^ 53 -> Number_toString n = pretty n.
Proof.
  intros Hn. unfold Number_toString, nearest_double.
  replace (Z.abs n <? 2 ^ 53) with true by (symmetry; apply Z.ltb_lt; lia).
  replace (Z.abs n <? 2 ^ 53) with true by (symmetry; apply Z.ltb_lt; lia).
  destruct n as [|p|p]; reflexivity.
Qed.

(** X16.  A reply in the legacy format (a truthy [id] and [command], no
    top-level [sessionId], a tag that is not listed and is neither
    window_closed nor pong) takes the pending request whose id it carries,
    from whatever socket it comes: timer cleared and row deleted.  When
    [error] is missing or falsy the code awaiting the promise resumes with
    [result]; when it is truthy, with [String(error)] as a rejection: a string
    as it is, a whole number below 2^53 in decimal, an object as
    "[object Object]".  But an [error] that has no string form (an object with
    a toString member of its own) makes [new Error] throw after the row is
    gone: the promise is never settled and nothing is written. *)
Theorem legacy_reply_settles_request (env : Env) (st : State) (ws : Conn)
    (type : string) (fields : list (string * json)) (reqId : string)
    (pending : PendingRequest) :
  reachable st ->
  unlisted type = true ->
  String.eqb type "window_closed" = false ->
  String.eqb type "pong" = false ->
  truthy (assoc "sessionId" fields) = false ->
  truthy (assoc "command" fields) = true ->
  assoc "id" fields = Some (JStr reqId) ->
  JsMap.get reqId (pendingRequests st) = Some pending ->
  exists k,
    JsMap.get (pr_promise pending) (promises st) = Some k
    /\ let reply := step st (env, WsMessage ws (Some (MOther type fields))) in
       let settled outcome := exec (resume k outcome) env (retire reqId pending st) in
       (truthy (assoc "error" fields) = false ->
          reply = settled (Resolved (assoc "result" fields)))
       /\ (forall text, assoc "error" fields = Some (JStr text) -> text <> EmptyString ->
             reply = settled (Rejected text))
       /\ (forall n, assoc "error" fields = Some (JNum n) -> n <> 0 ->
             - 2 ^ 53 < n < 2 ^ 53 -> reply = settled (Rejected (pretty n)))
       /\ (forall members, assoc "error" fields = Some (JObj members) ->
             assoc "toString" members = None -> reply = settled (Rejected "[object Object]"))
       /\ (forall members v, assoc "error" fields = Some (JObj members) ->
             assoc "toString" members = Some v ->
             reply = (stranded reqId pending st, []))
       /\ (forall e, assoc "error" fields = Some e -> truthy (Some e) = true ->
             reply = match js_String e with
                     | Some text => settled (Rejected text)
                     | None => (stranded reqId pending st, [])
                     end).
Proof.
  unfold unlisted. intros Hst Htag Hwc Hpong Hsid Hcmd Hid Hrow.
  apply andb_true_iff in Htag as [Htag Hext]. apply andb_true_iff in Htag as [Hhello Hclient].
  apply negb_true_iff in Hhello, Hclient, Hext.
  destruct (reachable_rows_live st reqId pending Hst Hrow) as (k & _ & Hk & _).
  exists k. split; [done|].
  assert (String.eqb type "keepalive" = false) as Hkeep.
  { unfold is_client_type in Hclient. repeat (apply orb_false_iff in Hclient as [Hclient ?]).
    done. }
  assert (truthy (Some (JStr reqId)) = true) as Htruthy.
  { destruct (issued_row st reqId pending) as (c & t & ->); [by apply reachable_well_formed|done|].
    by simpl. }
  assert (step st (env, WsMessage ws (Some (MOther type fields)))
          = exec (handleLegacyMessage fields) env st) as Hstep.
  { unfold step, exec, handle, message. cbn -[is_client_type is_extension_type truthy].
    rewrite Hhello, Hclient, Hext, Hsid. cbn -[truthy].
    rewrite Hwc, Hkeep, Hpong, Hid, Htruthy, Hcmd. cbn -[truthy].
    by destruct (handleLegacyMessage fields env st) as [[[] ?] ?]. }
  assert (forall outcome,
            exec (settle (pr_promise pending) outcome) env (stranded reqId pending st)
            = exec (resume k outcome) env (retire reqId pending st)) as Hsettle.
  { intros outcome. unfold exec, settle, takePromise, stranded, retire,
      mbind, mret, Act_bind, Act_ret, gets, modify. cbn. rewrite Hk. cbn.
    by destruct (resume k outcome env _) as [[[] ?] ?]. }
  assert (exec (handleLegacyMessage fields) env st
          = match assoc "error" fields with
            | Some e =>
                if truthy (Some e) then
                  match js_String e with
                  | Some text =>
                      exec (resume k (Rejected text)) env (retire reqId pending st)
                  | None => (stranded reqId pending st, [])
                  end
                else exec (resume k (Resolved (assoc "result" fields))) env
                       (retire reqId pending st)
            | None => exec (resume k (Resolved (assoc "result" fields))) env
                        (retire reqId pending st)
            end) as Hlegacy.
  { unfold handleLegacyMessage. rewrite Hid.
    unfold exec at 1. unfold clearTimeout, mbind, mret, Act_bind, Act_ret, gets, modify.
    cbn -[truthy settle]. rewrite Hrow. cbn -[truthy settle].
    fold (stranded reqId pending st).
    destruct (assoc "error" fields) as [err|]; [destruct (truthy (Some err))|].
    - destruct (js_String err) as [text|]; [|reflexivity].
      rewrite <- Hsettle. unfold exec.
      by destruct (settle _ _ env _) as [[[] ?] ?].
    - rewrite <- Hsettle. unfold exec. by destruct (settle _ _ env _) as [[[] ?] ?].
    - rewrite <- Hsettle. unfold exec. by destruct (settle _ _ env _) as [[[] ?] ?]. }
  cbv zeta. rewrite Hstep, Hlegacy. clear Hstep Hlegacy Hsettle.
  split; [|split; [|split; [|split; [|split]]]].
  - intros Hfalsy. destruct (assoc "error" fields) as [err|]; [|done].
    by rewrite Hfalsy.
  - intros text -> Hne. cbn. by destruct text.
  - intros n -> Hne Hsafe.
    replace (truthy (Some (JNum n))) with true
      by (symmetry; simpl; apply negb_true_iff; by apply Z.eqb_neq).
    unfold js_String. by rewrite Number_toString_safe.
  - intros members -> Hnone. cbn. unfold js_String. by rewrite Hnone.
  - intros members v -> Hsome. cbn. unfold js_String. by rewrite Hsome.
  - intros e -> ->. done.
Qed.
(** ** Frames to clients *)

Lemma asked_promises_set (C : Conn -> string -> string -> Prop) (h : Handle)
    (k : Continuation) (ps : list (Handle * Continuation)) :
  C (k_client k) (k_reqId k) (k_sessionId k) -> asked_promises C ps ->
  asked_promises C (JsMap.set h k ps).
Proof.
  intros Hk Hps h0 k0. destruct (decide (h = h0)) as [->|Hne].
  - rewrite get_set_eq. by intros [= <-].
  - rewrite get_set_ne by done. apply Hps.
Qed.

Lemma asked_promises_delete (C : Conn -> string -> string -> Prop) (h : Handle)
    (ps : list (Handle * Continuation)) :
  asked_promises C ps -> asked_promises C (JsMap.delete h ps).
Proof.
  intros Hps h0 k0. destruct (decide (h = h0)) as [->|Hne].
  - by rewrite get_delete_eq.
  - rewrite get_delete_ne by done. apply Hps.
Qed.

Lemma asked_sleepers_set (C : Conn -> string -> string -> Prop) (h : Handle) (z : Sleeper)
    (zs : list (Handle * Sleeper)) :
  C (sl_clientWs z) (sl_reqId z) (sl_sessionId z) -> asked_sleepers C zs ->
  asked_sleepers C (JsMap.set h z zs).
Proof.
  intros Hz Hzs h0 z0. destruct (decide (h = h0)) as [->|Hne].
  - rewrite get_set_eq. by intros [= <-].
  - rewrite get_set_ne by done. apply Hzs.
Qed.

Lemma asked_sleepers_delete (C : Conn -> string -> string -> Prop) (h : Handle)
    (zs : list (Handle * Sleeper)) :
  asked_sleepers C zs -> asked_sleepers C (JsMap.delete h zs).
Proof.
  intros Hzs h0 z0. destruct (decide (h = h0)) as [->|Hne].
  - by rewrite get_delete_eq.
  - rewrite get_delete_ne by done. apply Hzs.
Qed.

Ltac asked_solve HC HR :=
  unfold awaiting_asked in *; cbn in *;
  repeat match goal with
    | H : _ /\ _ |- _ => destruct H
    | |- _ /\ _ => split
    | |- Forall _ [] => constructor
    | |- Forall _ (_ :: _) => constructor
    | |- reply_ok _ _ _ => cbn
    | |- True => exact I
    | |- ?x = ?x => reflexivity
    | |- asked_promises _ (JsMap.set _ _ _) => apply asked_promises_set
    | |- asked_promises _ (JsMap.delete _ _) => apply asked_promises_delete
    | |- asked_sleepers _ (JsMap.set _ _ _) => apply asked_sleepers_set
    | |- asked_sleepers _ (JsMap.delete _ _) => apply asked_sleepers_delete
    | |- asked_promises _ _ => assumption
    | |- asked_sleepers _ _ => assumption
    | Hk : JsMap.get _ _ = Some ?k, HJ : asked_promises ?C _ |- ?C _ _ _ =>
        exact (HJ _ _ Hk)
    | Hz : JsMap.get _ _ = Some ?z, HZ : asked_sleepers ?C _ |- ?C _ _ _ =>
        exact (HZ _ _ Hz)
    | |- _ => solve [apply HC; cbn; auto]
    | |- _ => solve [apply HR; cbn; auto]
    end.

Lemma message_asked (C : Conn -> string -> string -> Prop) (R : Conn -> string -> Prop)
    (ws : Conn) (rawMessage : option Message) (env : Env) (st : State) :
  awaiting_asked C st ->
  (forall w r s, asks w r s (WsMessage ws rawMessage) -> C w r s) ->
  (forall w s, registers w s (WsMessage ws rawMessage) -> R w s) ->
  awaiting_asked C (fst (exec (message ws rawMessage) env st))
  /\ Forall (reply_ok C R) (snd (exec (message ws rawMessage) env st)).
Proof.
  intros HJ HC HR. destruct rawMessage as [m|]; [|by split; [|constructor]].
  destruct m; act_run; asked_solve HC HR.
Qed.

Lemma failure_frames_reply_ok (C : Conn -> string -> string -> Prop)
    (R : Conn -> string -> Prop) (message : string) (ks : list Continuation) :
  (forall k, In k ks -> C (k_client k) (k_reqId k) (k_sessionId k)) ->
  Forall (reply_ok C R) (map (failure_frame message) ks).
Proof.
  induction ks as [|k ks IH]; intros Hks; constructor.
  - apply Hks. by left.
  - apply IH. intros k' Hk'. apply Hks. by right.
Qed.

Lemma step_asked (C : Conn -> string -> string -> Prop) (R : Conn -> string -> Prop)
    (st : State) (ev : Env * Event) :
  awaiting_asked C st ->
  (forall w r s, asks w r s (snd ev) -> C w r s) ->
  (forall w s, registers w s (snd ev) -> R w s) ->
  awaiting_asked C (fst (step st ev)) /\ Forall (reply_ok C R) (snd (step st ev)).
Proof.
  intros HJ HC HR. destruct ev as [env [ws rawMessage| ws | timer | sleeper | |]].
  - by apply message_asked.
  - unfold step, exec, handle, close, setExtensionConnection,
      mbind, mret, Act_bind, Act_ret, gets, modify. cbn.
    destruct (match extensionConnection st with
              | Some e => bool_decide (ec_ws e = ws)
              | None => false
              end).
    + destruct (rejectAll_spec (pendingRequests st) env st)
        as (ks & ps & ts & -> & Hps & _ & _ & _ & Hfrom).
      rewrite for_each_rejected. cbn. destruct HJ as [HJ HZ]. split; [split|]; cbn.
      * intros h k Hk. apply (HJ h). by apply Hps.
      * done.
      * apply failure_frames_reply_ok. intros k Hk.
        destruct (Hfrom k Hk) as [h Hh]. by apply (HJ h).
    + destruct (List.find _ (clientSessions st)) as [[sid s]|]; [|by split; [|constructor]].
      destruct (unregisterClient_frame sid env st) as (s1 & c1 & r1 & ->).
      cbn. split; [done|constructor].
  - act_run; asked_solve HC HR.
  - act_run; asked_solve HC HR.
  - unfold step, exec, handle. cbn [fst snd].
    destruct (staleCheck_frame env st) as (s1 & c1 & r1 & ->).
    split; [done|constructor].
  - act_run; asked_solve HC HR.
Qed.

Lemma run_asked (C : Conn -> string -> string -> Prop) (R : Conn -> string -> Prop)
    (evs : list (Env * Event)) (st : State) :
  awaiting_asked C st ->
  (forall ev w r s, In ev evs -> asks w r s (snd ev) -> C w r s) ->
  (forall ev w s, In ev evs -> registers w s (snd ev) -> R w s) ->
  Forall (reply_ok C R) (snd (run st evs)).
Proof.
  revert st. induction evs as [|ev evs IH]; intros st HJ HC HR; [constructor|].
  simpl. destruct (step_asked C R st ev HJ) as [HJ1 Hout1].
  { intros w r s. apply HC. by left. }
  { intros w s. apply HR. by left. }
  destruct (step st ev) as [st1 o1]. cbn [fst snd] in *.
  specialize (IH st1 HJ1). destruct (run st1 evs) as [st2 o2]. cbn [fst snd] in *.
  apply Forall_app. split; [done|]. apply IH.
  - intros ev' w r s Hin. apply HC. by right.
  - intros ev' w s Hin. apply HR. by right.
Qed.

(** X17.  The daemon only ever answers: in any run from the start, a
    response or an error frame written to a socket carries the reqId and
    sessionId of a command frame that arrived on that very socket, and a
    [registered] frame reports success to a socket that sent a register
    frame for that session. *)
Theorem client_frames_answer_client_frames (evs : list (Env * Event)) (ws : Conn)
    (m : DaemonMessage) :
  In (SendClient ws m) (snd (run initial evs)) ->
  match m with
  | Registered sessionId success =>
      success = true /\ exists ev, In ev evs /\ registers ws sessionId (snd ev)
  | Response reqId sessionId _ =>
      exists ev, In ev evs /\ asks ws reqId sessionId (snd ev)
  | ErrorMessage reqId sessionId _ _ =>
      exists ev, In ev evs /\ asks ws reqId sessionId (snd ev)
  end.
Proof.
  intros Hin.
  pose proof (run_asked (fun w r s => exists ev, In ev evs /\ asks w r s (snd ev))
                (fun w s => exists ev, In ev evs /\ registers w s (snd ev))
                evs initial) as Hrun.
  assert (Forall (reply_ok (fun w r s => exists ev, In ev evs /\ asks w r s (snd ev))
                    (fun w s => exists ev, In ev evs /\ registers w s (snd ev)))
            (snd (run initial evs))) as Hall.
  { apply Hrun; [by split; intros h k| |]; eauto. }
  rewrite List.Forall_forall in Hall. specialize (Hall _ Hin).
  by destruct m.
Qed.
(** ** Request ids on the wire *)

Lemma route_ids_app (o1 o2 : list Output) :
  route_ids (o1 ++ o2) = route_ids o1 ++ route_ids o2.
Proof. unfold route_ids. apply omap_app. Qed.

Lemma route_ids_failure_frames (message : string) (ks : list Continuation) :
  route_ids (map (failure_frame message) ks) = [].
Proof. by induction ks. Qed.

(** A callback writes at most one route frame, under the next id of the
    counter; the counter moves exactly when it does. *)
Lemma step_route_ids (st : State) (env : Env) (ev : Event) :
  (route_ids (snd (step st (env, ev))) = []
   /\ requestIdCounter (fst (step st (env, ev))) = requestIdCounter st)
  \/ (route_ids (snd (step st (env, ev))) = [requestId (requestIdCounter st + 1) (now env)]
      /\ requestIdCounter (fst (step st (env, ev))) = requestIdCounter st + 1).
Proof.
  destruct ev as [ws [m|]| ws | timer | sleeper | |].
  - destruct m; act_run; first [left; split; reflexivity | right; split; reflexivity].
  - by left.
  - left. unfold step, exec, handle. cbn [fst snd].
    destruct (close_cases ws env st) as [(ks & ps & ts & -> & _)|(s1 & c1 & r1 & ->)].
    + cbn. by rewrite route_ids_failure_frames.
    + done.
  - act_run; first [left; split; reflexivity | right; split; reflexivity].
  - act_run; first [left; split; reflexivity | right; split; reflexivity].
  - left. unfold step, exec, handle. cbn [fst snd].
    by destruct (staleCheck_frame env st) as (s1 & c1 & r1 & ->).
  - act_run; first [left; split; reflexivity | right; split; reflexivity].
Qed.

Lemma run_route_ids (evs : list (Env * Event)) (st : State) :
  List.NoDup (route_ids (snd (run st evs)))
  /\ (forall r, In r (route_ids (snd (run st evs))) ->
        exists c t, r = requestId c t
                    /\ requestIdCounter st < c <= requestIdCounter (fst (run st evs)))
  /\ requestIdCounter (fst (run st evs))
     = requestIdCounter st + Z.of_nat (length (route_ids (snd (run st evs)))).
Proof.
  revert st. induction evs as [|[env ev] evs IH]; intros st.
  - simpl. split; [constructor|]. split; [done|lia].
  - simpl. pose proof (step_route_ids st env ev) as Hstep.
    destruct (step st (env, ev)) as [st1 o1]. cbn [fst snd] in Hstep.
    destruct (IH st1) as (Hnd & Hids & Hcount).
    destruct (run st1 evs) as [st2 o2]. cbn [fst snd] in *.
    rewrite route_ids_app.
    destruct Hstep as [[-> Hc]|[-> Hc]]; cbn [app length].
    + rewrite Hc in *. done.
    + split; [|split].
      * constructor; [|done]. intros Hin. destruct (Hids _ Hin) as (c & t & Heq & Hlt).
        apply requestId_inj_counter in Heq. lia.
      * intros r [<-|Hin]; [exists (requestIdCounter st + 1), (now env); split; [done|lia]|].
        destruct (Hids _ Hin) as (c & t & Heq & Hlt). exists c, t. split; [done|lia].
      * rewrite Hcount, Hc. cbn [length]. lia.
Qed.

(** X18.  No two route frames the daemon writes carry the same reqId,
    whatever the clock does: in any run from the start the request ids on
    the wire are pairwise different, each is [req_<n>_<time>] for a counter
    value [n] of its own, and the counter equals the number of route frames
    written. *)
Theorem route_ids_never_repeat (evs : list (Env * Event)) :
  List.NoDup (route_ids (snd (run initial evs)))
  /\ (forall r, In r (route_ids (snd (run initial evs))) ->
        exists c t, r = requestId c t /\ 0 < c <= requestIdCounter (fst (run initial evs)))
  /\ requestIdCounter (fst (run initial evs))
     = Z.of_nat (length (route_ids (snd (run initial evs)))).
Proof.
  destruct (run_route_ids evs initial) as (Hnd & Hids & Hcount).
  split; [done|]. split; [done|by rewrite Hcount].
Qed.

(** ** A command that waited for the extension *)

(** X19.  A command asleep in [ensureExtensionConnected] that wakes within
    15 s of its start and finds an extension bound goes on exactly as if it
    had arrived at that moment on its socket: the sleep is over, and the
    callback does what the command frame would do now. *)
Theorem waiting_command_proceeds_once_extension_is_bound (env : Env) (st : State)
    (h : Handle) (z : Sleeper) (e : ExtensionConnection) :
  JsMap.get h (sleepers st) = Some z ->
  sl_wakeAt z <= now env ->
  now env - sl_startTime z < EXTENSION_CONNECT_TIMEOUT_MS ->
  extensionConnection st = Some e ->
  step st (env, PollWake h)
  = step (set_sleepers (JsMap.delete h (sleepers st)) st)
      (env, WsMessage (sl_clientWs z)
              (Some (MCommand (sl_reqId z) (sl_sessionId z) (sl_command z) (sl_params z)))).
Proof.
  intros Hz Hwake Hsoon Hext.
  unfold step, exec, handle, message, handleClientMessage, handleCommand, pollWake,
    pollExtension, mbind, mret, Act_bind, Act_ret, gets, modify, ask.
  cbn -[ensureWindow]. rewrite Hz.
  replace (sl_wakeAt z <=? now env) with true by (symmetry; by apply Z.leb_le).
  cbn -[ensureWindow].
  replace (now env - sl_startTime z <? EXTENSION_CONNECT_TIMEOUT_MS) with true
    by (symmetry; by apply Z.ltb_lt).
  rewrite Hext. cbn -[ensureWindow]. rewrite ?Hext.
  by destruct (ensureWindow _ _ _ _ _ env _) as [[[] ?] ?].
Qed.

(** ** What clients can be told *)

Ltac codes_solve :=
  cbn;
  repeat match goal with
    | |- Forall _ [] => constructor
    | |- Forall _ (_ :: _) => constructor
    | |- daemon_error _ =>
        cbn; first [exact I | by left | by (right; left) | by (right; right)]
    end.

Lemma failure_frames_daemon_error (message : string) (ks : list Continuation) :
  Forall daemon_error (map (failure_frame message) ks).
Proof. induction ks as [|[] ks IH]; codes_solve; done. Qed.

Lemma step_daemon_error (st : State) (ev : Env * Event) :
  Forall daemon_error (snd (step st ev)).
Proof.
  destruct ev as [env [ws [m|]| ws | timer | sleeper | |]].
  - destruct m; act_run; codes_solve.
  - constructor.
  - unfold step, exec, handle. cbn [fst snd].
    destruct (close_cases ws env st) as [(ks & ps & ts & -> & _)|(s1 & c1 & r1 & ->)].
    + apply failure_frames_daemon_error.
    + constructor.
  - act_run; codes_solve.
  - act_run; codes_solve.
  - unfold step, exec, handle. cbn [fst snd].
    destruct (staleCheck_frame env st) as (s1 & c1 & r1 & ->). constructor.
  - act_run; codes_solve.
Qed.

(** X20.  The daemon knows three error codes and no other.  Whatever the
    tables and the events, an error frame it writes carries
    EXTENSION_NOT_CONNECTED (always with the text "Extension not connected
    and Chrome failed to start"), WINDOW_CREATION_FAILED or COMMAND_FAILED. *)
Theorem error_codes_are_three (st : State) (evs : list (Env * Event)) (ws : Conn)
    (reqId sessionId code message : string) :
  In (SendClient ws (ErrorMessage reqId sessionId code message)) (snd (run st evs)) ->
  (code = "EXTENSION_NOT_CONNECTED"
   /\ message = "Extension not connected and Chrome failed to start")
  \/ code = "WINDOW_CREATION_FAILED"
  \/ code = "COMMAND_FAILED".
Proof.
  intros Hin.
  assert (daemon_error (SendClient ws (ErrorMessage reqId sessionId code message))) as Hok.
  { apply (run_outputs (fun _ => True) daemon_error) with (evs := evs) (st := st);
      [done| |done|done].
    intros st0 ev o _ Ho. pose proof (step_daemon_error st0 ev) as Hall.
    rewrite List.Forall_forall in Hall. by apply Hall. }
  exact Hok.
Qed.

(** ** Frames in the name of a session that is not registered *)

(** X21.  For a session id that is not registered, a keepalive and a
    window_closed change nothing and write nothing (a keepalive does not
    register), and an unregister changes nothing and only sends the bound
    extension the session list once more. *)
Theorem frames_for_unknown_session (env : Env) (st : State) (ws : Conn)
    (sessionId : string) (windowId : Z) :
  JsMap.get sessionId (clientSessions st) = None ->
  step st (env, WsMessage ws (Some (MKeepalive sessionId))) = (st, [])
  /\ step st (env, WsMessage ws (Some (window_closed sessionId windowId))) = (st, [])
  /\ step st (env, WsMessage ws (Some (MUnregister sessionId)))
     = (st, match extensionConnection st with
            | Some e => [SendExtension (ec_ws e) (Sessions (getSessionList st) (tabRouting st))]
            | None => []
            end).
Proof.
  intros Hget. split; [|split].
  - act_run; by destruct st.
  - unfold window_closed. act_run; by destruct st.
  - act_run; by destruct st.
Qed.

(** ** Frames to the extension *)

Ltac bound_solve HH :=
  unfold bound_in in *; cbn in *;
  repeat match goal with
    | |- _ /\ _ => split
    | |- Forall _ [] => constructor
    | |- Forall _ (_ :: _) => constructor
    | |- extension_ok _ _ => cbn
    | |- True => exact I
    | |- ?x = ?x => reflexivity
    | |- forall e, _ = Some e -> _ => let e := fresh in let E := fresh in intros e E
    | E : Some _ = Some _ |- _ => injection E as <-; cbn
    | E : None = Some _ |- _ => discriminate E
    | HB : (forall e, extensionConnection ?st = Some e -> ?H (ec_ws e)),
      E : extensionConnection ?st = Some ?e |- ?H (ec_ws ?e) => exact (HB e E)
    | HB : (forall e, Some ?e0 = Some e -> ?H (ec_ws e)) |- ?H (ec_ws ?e0) =>
        exact (HB e0 eq_refl)
    | E : String.eqb _ _ = true |- _ => apply String.eqb_eq in E
    | |- _ => solve [apply HH; cbn; auto]
    end.

Lemma failure_frames_extension_ok (H : Conn -> Prop) (message : string)
    (ks : list Continuation) :
  Forall (extension_ok H) (map (failure_frame message) ks).
Proof. induction ks; constructor; done. Qed.

Lemma step_bound (H : Conn -> Prop) (st : State) (ev : Env * Event) :
  bound_in H st ->
  (forall ws, says_hello ws (snd ev) -> H ws) ->
  bound_in H (fst (step st ev)) /\ Forall (extension_ok H) (snd (step st ev)).
Proof.
  intros HB HH. destruct ev as [env [ws [m|]| ws | timer | sleeper | |]].
  - destruct m; act_run; bound_solve HH.
  - split; [done|constructor].
  - unfold step, exec, handle. cbn [fst snd].
    destruct (close_cases ws env st) as [(ks & ps & ts & -> & _)|(s1 & c1 & r1 & ->)].
    + split; [done|apply failure_frames_extension_ok].
    + split; [done|constructor].
  - act_run; bound_solve HH.
  - act_run; bound_solve HH.
  - unfold step, exec, handle. cbn [fst snd].
    destruct (staleCheck_frame env st) as (s1 & c1 & r1 & ->).
    split; [done|constructor].
  - act_run; bound_solve HH.
Qed.

Lemma run_bound (H : Conn -> Prop) (evs : list (Env * Event)) (st : State) :
  bound_in H st ->
  (forall ev ws, In ev evs -> says_hello ws (snd ev) -> H ws) ->
  Forall (extension_ok H) (snd (run st evs)).
Proof.
  revert st. induction evs as [|ev evs IH]; intros st HB HH; [constructor|].
  simpl. destruct (step_bound H st ev HB) as [HB1 Hout1].
  { intros ws. apply HH. by left. }
  destruct (step st ev) as [st1 o1]. cbn [fst snd] in *.
  specialize (IH st1 HB1). destruct (run st1 evs) as [st2 o2]. cbn [fst snd] in *.
  apply Forall_app. split; [done|]. apply IH.
  intros ev' ws Hin. apply HH. by right.
Qed.

(** X22.  Frames for the extension only ever go to a socket that said
    hello: in any run from the start, a welcome, a session list, a route or a
    ping is written to a socket from which a hello frame arrived, never to a
    client's.  The only sockets a callback closes are such sockets too, with
    code 4000 and the reason "Extension already connected". *)
Theorem extension_frames_go_to_a_hello_socket (evs : list (Env * Event)) (o : Output) :
  In o (snd (run initial evs)) ->
  match o with
  | SendExtension ws _ => exists ev, In ev evs /\ says_hello ws (snd ev)
  | CloseConn ws code reason =>
      code = 4000 /\ reason = "Extension already connected"
      /\ exists ev, In ev evs /\ says_hello ws (snd ev)
  | SendClient _ _ => True
  end.
Proof.
  intros Hin.
  assert (Forall (extension_ok (fun ws => exists ev, In ev evs /\ says_hello ws (snd ev)))
            (snd (run initial evs))) as Hall.
  { apply run_bound; [by intros e|]. eauto. }
  rewrite List.Forall_forall in Hall. specialize (Hall _ Hin).
  by destruct o.
Qed.

(** ** The server stops *)

Lemma for_each_close (sessions : list (string * ClientSession)) (env : Env) (st : State) :
  for_each sessions
    (fun '(_, session) => emit (CloseConn (cs_ws session) 1000 "Daemon shutting down"))
    env st
  = (tt, st,
     map (fun s => CloseConn (cs_ws s) 1000 "Daemon shutting down") (JsMap.values sessions)).
Proof.
  revert st. induction sessions as [|[sid s] l IH]; intros st; [done|].
  simpl. unfold mbind, Act_bind.
  change (emit (CloseConn (cs_ws s) 1000 "Daemon shutting down") env st)
    with (tt, st, [CloseConn (cs_ws s) 1000 "Daemon shutting down"]).
  cbv beta iota. by rewrite IH.
Qed.

(** X23.  [stopServer] disarms both intervals, asks every registered
    session's socket, in registration order, and then the extension's socket
    to close with code 1000 and "Daemon shutting down", and empties the
    session table and the binding.  It settles nothing: pending requests,
    their promises and timers, sleeping polls and the window cache stay as
    they are, and no client is sent an error for a command in flight.  A
    second call writes nothing.  [startServer] arms both intervals and
    writes nothing; [stopServer] after it leaves none armed. *)
Theorem stopServer_closes_every_socket (env : Env) (st : State) (iv : Intervals) :
  let stopped := {| staleCheckInterval := None; extensionPingInterval := None |} in
  let st' := set_extensionConnection None (set_clientSessions [] st) in
  stopServer iv env st
  = (stopped, st',
     map (fun s => CloseConn (cs_ws s) 1000 "Daemon shutting down")
       (JsMap.values (clientSessions st))
     ++ match extensionConnection st with
        | Some e => [CloseConn (ec_ws e) 1000 "Daemon shutting down"]
        | None => []
        end)
  /\ pendingRequests st' = pendingRequests st
  /\ promises st' = promises st
  /\ timers st' = timers st
  /\ sleepers st' = sleepers st
  /\ windowCache st' = windowCache st
  /\ stopServer stopped env st' = (stopped, st', [])
  /\ forall iv0 st0,
       snd (startServer iv0 env st0) = []
       /\ staleCheckInterval (fst (fst (startServer iv0 env st0))) <> None
       /\ extensionPingInterval (fst (fst (startServer iv0 env st0))) <> None
       /\ fst (fst (stopServer (fst (fst (startServer iv0 env st0))) env
                      (snd (fst (startServer iv0 env st0)))))
          = stopped.
Proof.
  cbv zeta.
  assert (forall iv0 st0,
            stopServer iv0 env st0
            = ({| staleCheckInterval := None; extensionPingInterval := None |},
               set_extensionConnection None (set_clientSessions [] st0),
               map (fun s => CloseConn (cs_ws s) 1000 "Daemon shutting down")
                 (JsMap.values (clientSessions st0))
               ++ match extensionConnection st0 with
                  | Some e => [CloseConn (ec_ws e) 1000 "Daemon shutting down"]
                  | None => []
                  end)) as Hstop.
  { intros iv0 st0.
    unfold stopServer, stopExtensionPing, setExtensionConnection,
      mbind, mret, Act_bind, Act_ret, gets, modify.
    rewrite for_each_close.
    destruct iv0 as [[s|] [p|]]; destruct (extensionConnection st0) as [e|] eqn:Hext;
      cbn; rewrite ?Hext; cbn; rewrite ?app_nil_r; try reflexivity;
      unfold set_extensionConnection, set_clientSessions; cbn; by rewrite Hext. }
  split; [apply Hstop|]. do 5 (split; [reflexivity|]).
  split; [by rewrite Hstop|].
  intros iv0 st0. rewrite Hstop.
  by destruct iv0 as [s [p|]].
Qed.

(** ** No command is answered twice, each is answered or suspended *)

Lemma hits_set_absent {K V} `{EqDecision K} (g : K * V -> nat) (k : K) (v : V)
    (m : list (K * V)) :
  JsMap.get k m = None ->
  sum_list_with g (JsMap.set k v m) = (sum_list_with g m + g (k, v))%nat.
Proof.
  induction m as [|[k' v'] m IH]; simpl; [lia|].
  destruct (decide (k = k')); [done|]. intros Hget. simpl. rewrite IH by done. lia.
Qed.

Lemma hits_delete_present {K V} `{EqDecision K} (g : K * V -> nat) (k : K) (v : V)
    (m : list (K * V)) :
  List.NoDup (JsMap.keys m) -> JsMap.get k m = Some v ->
  sum_list_with g m = (g (k, v) + sum_list_with g (JsMap.delete k m))%nat.
Proof.
  unfold JsMap.keys. induction m as [|[k' v'] m IH]; simpl; [done|].
  intros Hnd. inversion Hnd as [|? ? Hnotin Hnd']; subst.
  destruct (decide (k = k')) as [->|Hne].
  - intros [= ->]. rewrite delete_absent; [done|].
    apply get_absent_keys. exact Hnotin.
  - intros Hget. simpl. rewrite (IH Hnd' Hget). lia.
Qed.

Lemma get_delete_None {K V} `{EqDecision K} (k k' : K) (m : list (K * V)) :
  JsMap.get k m = None -> JsMap.get k (JsMap.delete k' m) = None.
Proof.
  intros Hget. destruct (decide (k = k')) as [->|Hne].
  - apply get_delete_eq.
  - by rewrite get_delete_ne.
Qed.

Lemma below_absent {V} (n h : Handle) (m : list (Handle * V)) :
  below n m -> (n <= h)%nat -> JsMap.get h m = None.
Proof.
  intros Hb Hle. destruct (JsMap.get h m) as [v|] eqn:Hv; [|done].
  apply Hb in Hv. lia.
Qed.

Lemma below_set {V} (n n' h : Handle) (v : V) (m : list (Handle * V)) :
  below n m -> (n <= n')%nat -> (h < n')%nat -> below n' (JsMap.set h v m).
Proof.
  intros Hb Hle Hlt h0 v0 Hget. apply get_set_cases in Hget as [[-> _]|[_ Hget]]; [done|].
  apply Hb in Hget. lia.
Qed.

Lemma below_delete {V} (n h : Handle) (m : list (Handle * V)) :
  below n m -> below n (JsMap.delete h m).
Proof. intros Hb h0 v0 Hget. apply get_delete_cases in Hget as [_ Hget]. by apply (Hb h0 v0). Qed.

Lemma below_mono {V} (n n' : Handle) (m : list (Handle * V)) :
  below n m -> (n <= n')%nat -> below n' m.
Proof. intros Hb Hle h v Hget. apply Hb in Hget. lia. Qed.

Ltac count_fresh :=
  repeat first
    [ assumption
    | apply get_delete_None
    | (eapply below_absent; [eassumption|lia]) ].

Ltac count_hits :=
  repeat match goal with
    | |- context [sum_list_with ?g (JsMap.set ?h ?v ?m)] =>
        rewrite (hits_set_absent g h v m) by count_fresh
    end;
  repeat match goal with
    | H : JsMap.get ?h ?m = Some ?v |- context [sum_list_with ?g (JsMap.delete ?h ?m)] =>
        let E := fresh "E" in
        assert (sum_list_with g m = (g (h, v) + sum_list_with g (JsMap.delete h m))%nat) as E
          by (apply (hits_delete_present g h v m); assumption);
        let x := fresh "x" in
        set (x := sum_list_with g (JsMap.delete h m)) in *
    end;
  unfold await_hits, sleep_hits in *; cbn in *.

Ltac count_solve :=
  unfold counted, suspended, answers, command_hits, well_formed, linked, linked_tables in *;
  cbn in *;
  repeat match goal with
    | H : _ /\ _ |- _ => destruct H
    end;
  try linked_contra;
  repeat match goal with
    | |- _ /\ _ => split
    end;
  repeat first
    [ assumption
    | apply NoDup_keys_set
    | apply NoDup_keys_delete
    | (eapply below_set;
        [first [eassumption | apply below_delete; eassumption]|lia|lia])
    | apply below_delete
    | (eapply below_mono; [eassumption|lia])
    | (count_hits; lia) ].

Lemma message_counted (c : Conn * string * string) (ws : Conn)
    (rawMessage : option Message) (env : Env) (st : State) :
  well_formed st -> counted st ->
  counted (fst (exec (message ws rawMessage) env st))
  /\ (answers c (snd (exec (message ws rawMessage) env st))
      + suspended c (fst (exec (message ws rawMessage) env st))
      = command_hits c (env, WsMessage ws rawMessage) + suspended c st)%nat.
Proof.
  intros Hwf Hc. destruct rawMessage as [m|]; [|split; [done|reflexivity]].
  destruct m; act_run; count_solve.
Qed.

Lemma rejectAll_counted (c : Conn * string * string)
    (table : list (string * PendingRequest)) (env : Env) (st : State) :
  List.NoDup (JsMap.keys (promises st)) ->
  exists ks ps ts,
    rejectAll table env st = (ks, set_promises ps (set_timers ts st), [])
    /\ List.NoDup (JsMap.keys ps)
    /\ (sum_list_with (fun e => await_hits c (snd e)) ps + sum_list_with (await_hits c) ks
        = sum_list_with (fun e => await_hits c (snd e)) (promises st))%nat
    /\ (forall h k, JsMap.get h ps = Some k -> JsMap.get h (promises st) = Some k).
Proof.
  revert st. induction table as [|[r0 p0] table IH]; intros st Hnd.
  - exists [], (promises st), (timers st). destruct st. simpl.
    split; [done|]. split; [done|]. split; [lia|done].
  - set (st1 := set_promises (JsMap.delete (pr_promise p0) (promises st))
                  (set_timers (JsMap.delete (pr_timeout p0) (timers st)) st)).
    destruct (IH st1) as (ks & ps & ts & Hrun & Hnd' & Hlen & Hps).
    { simpl. by apply NoDup_keys_delete. }
    assert (forall h k, JsMap.get h ps = Some k -> JsMap.get h (promises st) = Some k) as Hps'.
    { intros h k Hk. apply Hps in Hk. simpl in Hk.
      by apply get_delete_cases in Hk as [_ Hk]. }
    simpl in Hlen.
    destruct (JsMap.get (pr_promise p0) (promises st)) as [k0|] eqn:Hk0.
    + exists (k0 :: ks), ps, ts. split; [|split; [done|split; [|done]]].
      * simpl. unfold clearTimeout, takePromise, mbind, mret, Act_bind, Act_ret, gets, modify.
        cbn. rewrite Hk0. cbn. fold st1. rewrite Hrun. reflexivity.
      * rewrite (hits_delete_present _ _ _ _ Hnd Hk0). simpl. lia.
    + exists ks, ps, ts. split; [|split; [done|split; [|done]]].
      * simpl. unfold clearTimeout, takePromise, mbind, mret, Act_bind, Act_ret, gets, modify.
        cbn. rewrite Hk0. cbn.
        replace (set_timers (JsMap.delete (pr_timeout p0) (timers st)) st) with st1.
        { rewrite Hrun. reflexivity. }
        subst st1. rewrite (delete_absent _ _ Hk0). by destruct st.
      * by rewrite (delete_absent _ _ Hk0) in Hlen.
Qed.

Lemma answers_failure_frames (c : Conn * string * string) (message : string)
    (ks : list Continuation) :
  answers c (map (failure_frame message) ks) = sum_list_with (await_hits c) ks.
Proof. unfold answers. induction ks as [|k ks IH]; simpl; [done|]. by rewrite IH. Qed.

Lemma step_counted (c : Conn * string * string) (st : State) (ev : Env * Event) :
  well_formed st -> counted st ->
  counted (fst (step st ev))
  /\ (answers c (snd (step st ev)) + suspended c (fst (step st ev))
      = command_hits c ev + suspended c st)%nat.
Proof.
  intros Hwf Hc. destruct ev as [env [ws rawMessage| ws | timer | sleeper | |]].
  - by apply message_counted.
  - unfold step, exec, handle, close, setExtensionConnection,
      mbind, mret, Act_bind, Act_ret, gets, modify. cbn.
    destruct (match extensionConnection st with
              | Some e => bool_decide (ec_ws e = ws)
              | None => false
              end).
    + destruct Hc as (Hnd & Hnz & Hbp & Hbz).
      destruct (rejectAll_counted c (pendingRequests st) env st Hnd)
        as (ks & ps & ts & -> & Hnd' & Hlen & Hps).
      rewrite for_each_rejected. cbn -[answers suspended]. split.
      * split; [done|]. split; [done|]. split; [|done].
        intros h k Hk. apply (Hbp h k). by apply Hps.
      * rewrite ?app_nil_r, answers_failure_frames. unfold suspended, command_hits. cbn. lia.
    + destruct (List.find _ (clientSessions st)) as [[sid s]|]; [|by split].
      destruct (unregisterClient_frame sid env st) as (s1 & c1 & r1 & ->).
      cbn. by split.
  - act_run; count_solve.
  - act_run; count_solve.
  - unfold step, exec, handle. cbn [fst snd].
    destruct (staleCheck_frame env st) as (s1 & c1 & r1 & ->).
    by split.
  - act_run; count_solve.
Qed.

Lemma run_counted (c : Conn * string * string) (evs : list (Env * Event)) (st : State) :
  well_formed st -> counted st ->
  (answers c (snd (run st evs)) + suspended c (fst (run st evs))
   = commands c evs + suspended c st)%nat.
Proof.
  revert st. induction evs as [|ev evs IH]; intros st Hwf Hc; [done|].
  simpl. destruct (step_counted c st ev Hwf Hc) as [Hc1 Hstep].
  pose proof (step_well_formed st ev Hwf) as Hwf1.
  destruct (step st ev) as [st1 o1]. cbn [fst snd] in *.
  specialize (IH st1 Hwf1 Hc1). destruct (run st1 evs) as [st2 o2]. cbn [fst snd] in *.
  unfold answers, commands in *. simpl.
  rewrite sum_list_with_app. lia.
Qed.

(** X24.  Commands are accounted for one by one.  Take a socket, a reqId
    and a sessionId.  In any run from the start, the number of command frames
    received on that socket with that reqId and sessionId equals the number
    of response and error frames written to that socket with them, plus the
    number of [handleCommand] calls for them that are still suspended
    (awaiting a promise, or asleep waiting for the extension).  So no command
    is answered more often than it was sent, and a command without an answer
    is suspended; whether a suspended command is ever resumed is another
    matter. *)
Theorem every_command_is_answered_once_or_suspended (evs : list (Env * Event))
    (ws : Conn) (reqId sessionId : string) :
  commands (ws, reqId, sessionId) evs
  = (answers (ws, reqId, sessionId) (snd (run initial evs))
     + suspended (ws, reqId, sessionId) (fst (run initial evs)))%nat
  /\ (answers (ws, reqId, sessionId) (snd (run initial evs))
      <= commands (ws, reqId, sessionId) evs)%nat.
Proof.
  pose proof (run_counted (ws, reqId, sessionId) evs initial) as Hrun.
  assert (suspended (ws, reqId, sessionId) initial = 0%nat) as Hzero by reflexivity.
  rewrite Hzero in Hrun.
  assert (well_formed initial) as Hwf by apply reachable_well_formed, reachable_initial.
  assert (counted initial) as Hc.
  { split; [constructor|]. split; [constructor|]. by split; intros h v. }
  specialize (Hrun Hwf Hc). lia.
Qed.

(** ** A suspended command has a timer or a wake-up *)














(** S1 with its command on the way, and a legacy reply whose [error] is the
    object [{"toString": 1}]: the request and its timer are gone, the promise
    of the command is still unsettled, and nothing was written. *)
Lemma unprintable_error_strands_command :
  step s1_forwarded
    (env_at 3200,
     WsMessage 9%nat
       (Some (MOther "result"
                [("id", JStr "req_2_2e4"); ("command", JStr "navigate");
                 ("error", JObj [("toString", JNum 1)])])))
  = (stranded "req_2_2e4"
       {| pr_promise := 2%nat; pr_timeout := 3%nat; pr_sessionId := "s1" |} s1_forwarded,
     [])
  /\ pendingRequests
       (stranded "req_2_2e4"
          {| pr_promise := 2%nat; pr_timeout := 3%nat; pr_sessionId := "s1" |} s1_forwarded)
     = []
  /\ timers
       (stranded "req_2_2e4"
          {| pr_promise := 2%nat; pr_timeout := 3%nat; pr_sessionId := "s1" |} s1_forwarded)
     = []
  /\ JsMap.get 2%nat
       (promises
          (stranded "req_2_2e4"
             {| pr_promise := 2%nat; pr_timeout := 3%nat; pr_sessionId := "s1" |}
             s1_forwarded))
     = Some (AwaitCommandResult 1%nat "r1" "s1").
Proof. vm_compute. auto. Qed.

(** ** Two commands before the first window *)

(** X26.  The window cache is filled by the reply, not by the request: when
    two commands of a session without a cached window arrive before the
    reply to the first create_window, each asks the extension for a window,
    under two different request ids, and both stay suspended. *)
Theorem commands_before_the_reply_each_create_a_window (env1 env2 : Env) (st : State)
    (e : ExtensionConnection) (ws1 ws2 : Conn) (reqId1 reqId2 sessionId command1 command2 : string)
    (params1 params2 : list (string * json)) :
  extensionConnection st = Some e ->
  sessionId ∉ windowCache st ->
  let ev1 := (env1, WsMessage ws1 (Some (MCommand reqId1 sessionId command1 params1))) in
  let ev2 := (env2, WsMessage ws2 (Some (MCommand reqId2 sessionId command2 params2))) in
  snd (run st [ev1; ev2])
  = [SendExtension (ec_ws e)
       (Route (requestId (requestIdCounter st + 1) (now env1)) sessionId "create_window"
          [("sessionId", JStr sessionId)]);
     SendExtension (ec_ws e)
       (Route (requestId (requestIdCounter st + 2) (now env2)) sessionId "create_window"
          [("sessionId", JStr sessionId)])]
  /\ requestId (requestIdCounter st + 1) (now env1)
     <> requestId (requestIdCounter st + 2) (now env2)
  /\ fst (run st [ev1; ev2])
     = in_flight env2 sessionId (AwaitCreateWindow ws2 reqId2 sessionId command2 params2)
         (in_flight env1 sessionId (AwaitCreateWindow ws1 reqId1 sessionId command1 params1) st).
Proof.
  intros Hext Hcache. cbv zeta. cbn [run].
  rewrite (command_in_flight env1 st e) by done. rewrite decide_False by done.
  set (st1 := in_flight env1 sessionId _ st).
  assert (extensionConnection st1 = Some e) as Hext1 by done.
  assert (sessionId ∉ windowCache st1) as Hcache1 by done.
  rewrite (command_in_flight env2 st1 e) by done. rewrite decide_False by done.
  cbn [fst snd app]. split; [|split; [|done]].
  - subst st1. cbn.
    by replace (requestIdCounter st + 1 + 1) with (requestIdCounter st + 2) by lia.
  - intros Heq. apply requestId_inj_counter in Heq. lia.
Qed.

(** ** The further properties at the scenarios *)

Lemma window_cache_names_registered_sessions_witness :
  reachable s1_done
  /\ "s1" ∈ windowCache s1_done
  /\ exists s, JsMap.get "s1" (clientSessions s1_done) = Some s /\ cs_sessionId s = "s1".
Proof.
  assert (reachable s1_done) as Hst by apply run_reachable, reachable_initial.
  assert ("s1" ∈ windowCache s1_done) as Hin
    by (apply (bool_decide_eq_true_1 ("s1" ∈ windowCache s1_done));
        vm_compute; reflexivity).
  split; [exact Hst|]. split; [exact Hin|].
  exact (window_cache_names_registered_sessions s1_done "s1" Hst Hin).
Defined.

Lemma ready_sessions_are_cached_witness :
  reachable s1_done
  /\ In {| si_sessionId := "s1"; si_label := "L"; si_windowId := JNum 42;
           si_lastSeen := 1000; si_status := "ready" |} (getSessionList s1_done)
  /\ "s1" ∈ windowCache s1_done.
Proof.
  assert (reachable s1_done) as Hst by apply run_reachable, reachable_initial.
  assert (In {| si_sessionId := "s1"; si_label := "L"; si_windowId := JNum 42;
                si_lastSeen := 1000; si_status := "ready" |} (getSessionList s1_done))
    as Hin by (vm_compute; left; reflexivity).
  split; [exact Hst|]. split; [exact Hin|].
  destruct (ready_sessions_are_cached s1_done _ Hst Hin) as (_ & _ & Hcached).
  by apply Hcached.
Defined.

Lemma nothing_pending_without_extension_witness :
  reachable disconnected
  /\ extensionConnection disconnected = None
  /\ pendingRequests disconnected = [] /\ timers disconnected = [].
Proof.
  assert (reachable disconnected) as Hst by apply run_reachable, reachable_initial.
  assert (extensionConnection disconnected = None) as Hext by (vm_compute; reflexivity).
  split; [exact Hst|]. split; [exact Hext|].
  exact (nothing_pending_without_extension disconnected Hst Hext).
Defined.

Lemma client_close_unregisters_first_session_witness :
  (forall e, extensionConnection two_clients = Some e -> ec_ws e <> 1%nat)
  /\ snd (step two_clients (env_at 3000, WsClose 1%nat)) = []
  /\ JsMap.keys (clientSessions (fst (step two_clients (env_at 3000, WsClose 1%nat))))
     = ["B"].
Proof.
  assert (forall e, extensionConnection two_clients = Some e -> ec_ws e <> 1%nat) as Hext.
  { intros e. assert (extensionConnection two_clients
                      = Some {| ec_ws := 9%nat; ec_profileId := "default";
                                ec_capabilities := []; ec_connectedAt := 2000 |}) as ->
      by (vm_compute; reflexivity).
    intros [= <-]. simpl. lia. }
  split; [exact Hext|].
  destruct (client_close_unregisters_first_session (env_at 3000) two_clients 1%nat Hext)
    as (Hout & _).
  split; [exact Hout|]. vm_compute. reflexivity.
Defined.

Lemma reregistered_session_survives_old_socket_witness :
  reachable two_clients
  /\ 1%nat <> 3%nat
  /\ JsMap.get "A"
       (clientSessions
          (fst (step (fst (step two_clients
                             (env_at 3000, WsMessage 3%nat (Some (MRegister "A" "again")))))
                  (env_at 4000, WsClose 1%nat))))
     = Some {| cs_sessionId := "A"; cs_label := "again"; cs_ws := 3%nat;
               cs_windowId := JNull; cs_registeredAt := 3000; cs_lastSeen := 3000 |}.
Proof.
  assert (reachable two_clients) as Hst by apply run_reachable, reachable_initial.
  assert (1%nat <> 3%nat) as Hne by lia.
  split; [exact Hst|]. split; [exact Hne|].
  exact (reregistered_session_survives_old_socket (env_at 3000) (env_at 4000) two_clients
           1%nat 3%nat "A" "again" Hst Hne).
Defined.

Lemma keepalive_protects_from_sweep_witness :
  reachable two_clients
  /\ JsMap.get "A" (clientSessions two_clients)
     = Some {| cs_sessionId := "A"; cs_label := "first"; cs_ws := 1%nat;
               cs_windowId := JNull; cs_registeredAt := 1000; cs_lastSeen := 1000 |}
  /\ now (env_at 110000) - now (env_at 50000) <= CLIENT_KEEPALIVE_TIMEOUT_MS
  /\ JsMap.get "A"
       (clientSessions
          (fst (step (fst (step two_clients
                             (env_at 50000, WsMessage 1%nat (Some (MKeepalive "A")))))
                  (env_at 110000, StaleCheck))))
     = Some {| cs_sessionId := "A"; cs_label := "first"; cs_ws := 1%nat;
               cs_windowId := JNull; cs_registeredAt := 1000; cs_lastSeen := 50000 |}.
Proof.
  assert (reachable two_clients) as Hst by apply run_reachable, reachable_initial.
  assert (JsMap.get "A" (clientSessions two_clients)
          = Some {| cs_sessionId := "A"; cs_label := "first"; cs_ws := 1%nat;
                    cs_windowId := JNull; cs_registeredAt := 1000; cs_lastSeen := 1000 |})
    as Hget by (vm_compute; reflexivity).
  assert (now (env_at 110000) - now (env_at 50000) <= CLIENT_KEEPALIVE_TIMEOUT_MS) as Hsoon
    by (vm_compute; discriminate).
  split; [exact Hst|]. split; [exact Hget|]. split; [exact Hsoon|].
  destruct (keepalive_protects_from_sweep (env_at 50000) (env_at 110000) two_clients 1%nat
              "A" _ Hst Hget Hsoon) as (_ & _ & Hkept).
  exact Hkept.
Defined.

Lemma lastSeen_moves_only_on_register_and_keepalive_witness :
  reachable two_clients
  /\ ~ refreshes "A" (WsMessage 1%nat (Some (MCommand "r1" "A" "get_tabs" [])))
  /\ JsMap.get "A"
       (clientSessions
          (fst (step two_clients
                  (env_at 50000, WsMessage 1%nat (Some (MCommand "r1" "A" "get_tabs" []))))))
     = Some {| cs_sessionId := "A"; cs_label := "first"; cs_ws := 1%nat;
               cs_windowId := JNull; cs_registeredAt := 1000; cs_lastSeen := 1000 |}
  /\ exists s, JsMap.get "A" (clientSessions two_clients) = Some s /\ 1000 = cs_lastSeen s.
Proof.
  assert (reachable two_clients) as Hst by apply run_reachable, reachable_initial.
  assert (~ refreshes "A" (WsMessage 1%nat (Some (MCommand "r1" "A" "get_tabs" []))))
    as Hev by (intros []).
  assert (JsMap.get "A"
            (clientSessions
               (fst (step two_clients
                       (env_at 50000,
                        WsMessage 1%nat (Some (MCommand "r1" "A" "get_tabs" []))))))
          = Some {| cs_sessionId := "A"; cs_label := "first"; cs_ws := 1%nat;
                    cs_windowId := JNull; cs_registeredAt := 1000; cs_lastSeen := 1000 |})
    as Hget by (vm_compute; reflexivity).
  split; [exact Hst|]. split; [exact Hev|]. split; [exact Hget|].
  destruct (lastSeen_moves_only_on_register_and_keepalive (env_at 50000) _ two_clients
              "A" _ Hst Hev Hget) as (s & Hs & Hseen & _).
  exists s. split; [exact Hs|exact Hseen].
Defined.

Lemma chrome_spawn_failure_is_not_retried_witness :
  extensionConnection initial = None
  /\ chromeProcess initial = None
  /\ CHROME_PATHS
     = ["/usr/bin/google-chrome-stable"]
       ++ "/usr/bin/google-chrome"
          :: ["/usr/bin/chromium"; "/usr/bin/chromium-browser"; "/opt/google/chrome/chrome"]
  /\ (forall p, In p ["/usr/bin/google-chrome-stable"] -> existsSync (env_broken 0) p = false)
  /\ existsSync (env_broken 0) "/usr/bin/google-chrome" = true
  /\ spawn (env_broken 0) "/usr/bin/google-chrome" = None
  /\ spawn (env_broken 0) "/usr/bin/chromium" = Some 4242
  /\ step initial
       (env_broken 0, WsMessage 1%nat (Some (MCommand "r1" "s1" "navigate" navigate)))
     = (initial,
        [SendClient 1%nat
           (ErrorMessage "r1" "s1" "EXTENSION_NOT_CONNECTED"
              "Extension not connected and Chrome failed to start")]).
Proof.
  assert (forall p, In p ["/usr/bin/google-chrome-stable"] ->
                    existsSync (env_broken 0) p = false) as Hbefore
    by (intros p [<-|[]]; reflexivity).
  split; [reflexivity|]. split; [reflexivity|]. split; [reflexivity|].
  split; [exact Hbefore|]. split; [reflexivity|]. split; [reflexivity|].
  split; [reflexivity|].
  destruct (chrome_spawn_failure_is_not_retried (env_broken 0) initial 1%nat
              "r1" "s1" "navigate" navigate
              ["/usr/bin/google-chrome-stable"]
              ["/usr/bin/chromium"; "/usr/bin/chromium-browser"; "/opt/google/chrome/chrome"]
              "/usr/bin/google-chrome" eq_refl eq_refl eq_refl Hbefore eq_refl eq_refl)
    as [_ Hstep].
  exact Hstep.
Defined.

Lemma command_round_trip_witness :
  reachable s1_done
  /\ extensionConnection s1_done
     = Some {| ec_ws := 9%nat; ec_profileId := "default"; ec_capabilities := [];
               ec_connectedAt := 2000 |}
  /\ "s1" ∈ windowCache s1_done
  /\ reqId_of (MRouteResult "req_3_3uw" None (Some (JArr [])))
     = Some (requestId (requestIdCounter s1_done + 1) (now (env_at 5000)))
  /\ step (fst (step s1_done
                  (env_at 5000, WsMessage 1%nat (Some (MCommand "r2" "s1" "get_tabs" [])))))
       (env_at 5100, WsMessage 9%nat (Some (MRouteResult "req_3_3uw" None (Some (JArr [])))))
     = (answered s1_done, [SendClient 1%nat (Response "r2" "s1" (Some (JArr [])))]).
Proof.
  assert (reachable s1_done) as Hst by apply run_reachable, reachable_initial.
  assert (extensionConnection s1_done
          = Some {| ec_ws := 9%nat; ec_profileId := "default"; ec_capabilities := [];
                    ec_connectedAt := 2000 |}) as Hext by (vm_compute; reflexivity).
  assert ("s1" ∈ windowCache s1_done) as Hin
    by (apply (bool_decide_eq_true_1 ("s1" ∈ windowCache s1_done));
        vm_compute; reflexivity).
  assert (reqId_of (MRouteResult "req_3_3uw" None (Some (JArr [])))
          = Some (requestId (requestIdCounter s1_done + 1) (now (env_at 5000)))) as Hreq
    by (vm_compute; reflexivity).
  split; [exact Hst|]. split; [exact Hext|]. split; [exact Hin|]. split; [exact Hreq|].
  destruct (command_round_trip (env_at 5000) (env_at 5100) s1_done _ 1%nat 9%nat
              "r2" "s1" "get_tabs" [] _ Hst Hext Hin Hreq) as (_ & Hreply & _).
  exact Hreply.
Defined.

Lemma window_creation_failure_fails_command_witness :
  reachable two_clients
  /\ extensionConnection two_clients
     = Some {| ec_ws := 9%nat; ec_profileId := "default"; ec_capabilities := [];
               ec_connectedAt := 2000 |}
  /\ ("A" ∉ windowCache two_clients)
  /\ reqId_of (MRouteResult "req_1_2bc" None (Some (JObj [])))
     = Some (requestId (requestIdCounter two_clients + 1) (now (env_at 3000)))
  /\ (String.eqb (msg_type (MRouteResult "req_1_2bc" None (Some (JObj [])))) "error" = true
      \/ truthy (prop "windowId" (payload_of (MRouteResult "req_1_2bc" None (Some (JObj [])))))
         = false)
  /\ step (fst (step two_clients
                  (env_at 3000, WsMessage 1%nat (Some (MCommand "r1" "A" "get_tabs" [])))))
       (env_at 3100, WsMessage 9%nat (Some (MRouteResult "req_1_2bc" None (Some (JObj [])))))
     = (answered two_clients,
        [SendClient 1%nat
           (ErrorMessage "r1" "A" "WINDOW_CREATION_FAILED"
              "Window creation failed: no windowId returned")]).
Proof.
  assert (reachable two_clients) as Hst by apply run_reachable, reachable_initial.
  assert (extensionConnection two_clients
          = Some {| ec_ws := 9%nat; ec_profileId := "default"; ec_capabilities := [];
                    ec_connectedAt := 2000 |}) as Hext by (vm_compute; reflexivity).
  assert ("A" ∉ windowCache two_clients) as Hout
    by (apply (bool_decide_eq_false_1 ("A" ∈ windowCache two_clients));
        vm_compute; reflexivity).
  assert (reqId_of (MRouteResult "req_1_2bc" None (Some (JObj [])))
          = Some (requestId (requestIdCounter two_clients + 1) (now (env_at 3000)))) as Hreq
    by (vm_compute; reflexivity).
  assert (String.eqb (msg_type (MRouteResult "req_1_2bc" None (Some (JObj [])))) "error"
          = true
          \/ truthy (prop "windowId"
                       (payload_of (MRouteResult "req_1_2bc" None (Some (JObj [])))))
             = false) as Hbad by (right; reflexivity).
  split; [exact Hst|]. split; [exact Hext|]. split; [exact Hout|]. split; [exact Hreq|].
  split; [exact Hbad|].
  destruct (window_creation_failure_fails_command (env_at 3000) (env_at 3100) two_clients _
              1%nat 9%nat "r1" "A" "get_tabs" [] _ Hst Hext Hout Hreq Hbad)
    as (_ & Hreply & _).
  exact Hreply.
Defined.

Lemma unregistered_session_gets_a_window_per_command_witness :
  reachable two_clients
  /\ extensionConnection two_clients
     = Some {| ec_ws := 9%nat; ec_profileId := "default"; ec_capabilities := [];
               ec_connectedAt := 2000 |}
  /\ JsMap.get "ghost" (clientSessions two_clients) = None
  /\ reqId_of (MRouteResult "req_1_2bc" None (Some (JObj [("windowId", JNum 7)])))
     = Some (requestId (requestIdCounter two_clients + 1) (now (env_at 3000)))
  /\ String.eqb (msg_type (MRouteResult "req_1_2bc" None
                             (Some (JObj [("windowId", JNum 7)])))) "error" = false
  /\ prop "windowId"
       (payload_of (MRouteResult "req_1_2bc" None (Some (JObj [("windowId", JNum 7)]))))
     = Some (JNum 7)
  /\ truthy (Some (JNum 7)) = true
  /\ ("ghost" ∉ windowCache
        (fst (step (fst (step two_clients
                           (env_at 3000,
                            WsMessage 1%nat (Some (MCommand "r1" "ghost" "get_tabs" [])))))
                (env_at 3100,
                 WsMessage 9%nat
                   (Some (MRouteResult "req_1_2bc" None
                            (Some (JObj [("windowId", JNum 7)])))))))).
Proof.
  assert (reachable two_clients) as Hst by apply run_reachable, reachable_initial.
  assert (extensionConnection two_clients
          = Some {| ec_ws := 9%nat; ec_profileId := "default"; ec_capabilities := [];
                    ec_connectedAt := 2000 |}) as Hext by (vm_compute; reflexivity).
  assert (JsMap.get "ghost" (clientSessions two_clients) = None) as Hget
    by (vm_compute; reflexivity).
  assert (reqId_of (MRouteResult "req_1_2bc" None (Some (JObj [("windowId", JNum 7)])))
          = Some (requestId (requestIdCounter two_clients + 1) (now (env_at 3000)))) as Hreq
    by (vm_compute; reflexivity).
  split; [exact Hst|]. split; [exact Hext|]. split; [exact Hget|]. split; [exact Hreq|].
  split; [reflexivity|]. split; [reflexivity|]. split; [reflexivity|].
  pose proof (unregistered_session_gets_a_window_per_command (env_at 3000) (env_at 3100)
                two_clients _ 1%nat 9%nat "r1" "ghost" "get_tabs" [] _ (JNum 7)
                Hst Hext Hget Hreq eq_refl eq_refl eq_refl) as H.
  cbv zeta in H. destruct H as (_ & _ & Hcache & _).
  exact Hcache.
Defined.

Lemma unlisted_frame_with_session_is_dropped_witness :
  unlisted "result" = true
  /\ truthy (assoc "sessionId" (("sessionId", JStr "s1") :: legacy_reply "req_2_2e4")) = true
  /\ truthy (assoc "command" (("sessionId", JStr "s1") :: legacy_reply "req_2_2e4"))
     || truthy (assoc "reqId" (("sessionId", JStr "s1") :: legacy_reply "req_2_2e4")) = true
  /\ step s1_forwarded
       (env_at 3200,
        WsMessage 9%nat
          (Some (MOther "result" (("sessionId", JStr "s1") :: legacy_reply "req_2_2e4"))))
     = (s1_forwarded, []).
Proof.
  split; [reflexivity|]. split; [reflexivity|]. split; [reflexivity|].
  exact (unlisted_frame_with_session_is_dropped (env_at 3200) s1_forwarded 9%nat "result"
           (("sessionId", JStr "s1") :: legacy_reply "req_2_2e4") eq_refl eq_refl eq_refl).
Defined.

Lemma legacy_reply_settles_request_witness :
  reachable s1_forwarded
  /\ unlisted "result" = true
  /\ String.eqb "result" "window_closed" = false
  /\ String.eqb "result" "pong" = false
  /\ truthy (assoc "sessionId" (legacy_reply "req_2_2e4")) = false
  /\ truthy (assoc "command" (legacy_reply "req_2_2e4")) = true
  /\ assoc "id" (legacy_reply "req_2_2e4") = Some (JStr "req_2_2e4")
  /\ JsMap.get "req_2_2e4" (pendingRequests s1_forwarded)
     = Some {| pr_promise := 2%nat; pr_timeout := 3%nat; pr_sessionId := "s1" |}
  /\ truthy (assoc "error" (legacy_reply "req_2_2e4")) = false
  /\ snd (step s1_forwarded
            (env_at 3200, WsMessage 9%nat (Some (MOther "result" (legacy_reply "req_2_2e4")))))
     = [SendClient 1%nat
          (Response "r1" "s1" (Some (JObj [("success", JBool true)])))].
Proof.
  assert (reachable s1_forwarded) as Hst by apply run_reachable, reachable_initial.
  assert (JsMap.get "req_2_2e4" (pendingRequests s1_forwarded)
          = Some {| pr_promise := 2%nat; pr_timeout := 3%nat; pr_sessionId := "s1" |})
    as Hrow by (vm_compute; reflexivity).
  split; [exact Hst|]. do 6 (split; [reflexivity|]). split; [exact Hrow|].
  split; [reflexivity|].
  destruct (legacy_reply_settles_request (env_at 3200) s1_forwarded 9%nat "result"
              (legacy_reply "req_2_2e4") "req_2_2e4" _ Hst eq_refl eq_refl eq_refl
              eq_refl eq_refl eq_refl Hrow) as (k & Hk & Hsettled).
  cbv zeta in Hsettled. destruct Hsettled as (Hok & _).
  rewrite (Hok eq_refl).
  assert (JsMap.get 2%nat (promises s1_forwarded)
          = Some (AwaitCommandResult 1%nat "r1" "s1")) as Hk' by (vm_compute; reflexivity).
  change (JsMap.get 2%nat (promises s1_forwarded) = Some k) in Hk.
  assert (k = AwaitCommandResult 1%nat "r1" "s1") as -> by congruence.
  vm_compute. reflexivity.
Defined.

Lemma client_frames_answer_client_frames_witness :
  In (SendClient 1%nat
        (Response "r1" "s1"
           (Some (JObj [("success", JBool true); ("url", JStr "https://example.com")]))))
     (snd (run initial s1_events))
  /\ exists ev, In ev s1_events /\ asks 1%nat "r1" "s1" (snd ev).
Proof.
  assert (In (SendClient 1%nat
                (Response "r1" "s1"
                   (Some (JObj [("success", JBool true);
                                ("url", JStr "https://example.com")]))))
             (snd (run initial s1_events))) as Hin.
  { vm_compute. do 5 right. left. reflexivity. }
  split; [exact Hin|].
  exact (client_frames_answer_client_frames s1_events 1%nat _ Hin).
Defined.

Lemma waiting_command_proceeds_once_extension_is_bound_witness :
  JsMap.get 10%nat (sleepers waiting_bound)
  = Some {| sl_startTime := 0; sl_wakeAt := 5500; sl_clientWs := 1%nat;
            sl_reqId := "r1"; sl_sessionId := "s1"; sl_command := "navigate";
            sl_params := navigate |}
  /\ 5500 <= now (env_chrome 5500)
  /\ now (env_chrome 5500) - 0 < EXTENSION_CONNECT_TIMEOUT_MS
  /\ extensionConnection waiting_bound
     = Some {| ec_ws := 9%nat; ec_profileId := "default"; ec_capabilities := [];
               ec_connectedAt := 5200 |}
  /\ snd (step waiting_bound (env_chrome 5500, PollWake 10%nat))
     = [SendExtension 9%nat
          (Route "req_1_48s" "s1" "create_window" [("sessionId", JStr "s1")])].
Proof.
  assert (JsMap.get 10%nat (sleepers waiting_bound)
          = Some {| sl_startTime := 0; sl_wakeAt := 5500; sl_clientWs := 1%nat;
                    sl_reqId := "r1"; sl_sessionId := "s1"; sl_command := "navigate";
                    sl_params := navigate |}) as Hz by (vm_compute; reflexivity).
  assert (5500 <= now (env_chrome 5500)) as Hwake by (simpl; lia).
  assert (now (env_chrome 5500) - 0 < EXTENSION_CONNECT_TIMEOUT_MS) as Hsoon
    by (vm_compute; reflexivity).
  assert (extensionConnection waiting_bound
          = Some {| ec_ws := 9%nat; ec_profileId := "default"; ec_capabilities := [];
                    ec_connectedAt := 5200 |}) as Hext by (vm_compute; reflexivity).
  split; [exact Hz|]. split; [exact Hwake|]. split; [exact Hsoon|]. split; [exact Hext|].
  rewrite (waiting_command_proceeds_once_extension_is_bound (env_chrome 5500) waiting_bound
             10%nat _ _ Hz Hwake Hsoon Hext).
  vm_compute. reflexivity.
Defined.

Lemma error_codes_are_three_witness :
  In (SendClient 1%nat
        (ErrorMessage "r1" "s1" "EXTENSION_NOT_CONNECTED"
           "Extension not connected and Chrome failed to start"))
     (snd (run waiting [(env_chrome 15000, PollWake 29%nat)]))
  /\ (("EXTENSION_NOT_CONNECTED" = "EXTENSION_NOT_CONNECTED"
       /\ "Extension not connected and Chrome failed to start"
          = "Extension not connected and Chrome failed to start")
      \/ "EXTENSION_NOT_CONNECTED" = "WINDOW_CREATION_FAILED"
      \/ "EXTENSION_NOT_CONNECTED" = "COMMAND_FAILED").
Proof.
  assert (In (SendClient 1%nat
                (ErrorMessage "r1" "s1" "EXTENSION_NOT_CONNECTED"
                   "Extension not connected and Chrome failed to start"))
             (snd (run waiting [(env_chrome 15000, PollWake 29%nat)]))) as Hin.
  { vm_compute. left. reflexivity. }
  split; [exact Hin|].
  exact (error_codes_are_three waiting _ 1%nat "r1" "s1" _ _ Hin).
Defined.

Lemma frames_for_unknown_session_witness :
  JsMap.get "ghost" (clientSessions two_clients) = None
  /\ step two_clients (env_at 3000, WsMessage 3%nat (Some (MKeepalive "ghost")))
     = (two_clients, []).
Proof.
  assert (JsMap.get "ghost" (clientSessions two_clients) = None) as Hget
    by (vm_compute; reflexivity).
  split; [exact Hget|].
  destruct (frames_for_unknown_session (env_at 3000) two_clients 3%nat "ghost" 0 Hget)
    as (Hkeep & _).
  exact Hkeep.
Defined.

Lemma extension_frames_go_to_a_hello_socket_witness :
  In (SendExtension 9%nat (Route "req_1_2bc" "s1" "create_window" [("sessionId", JStr "s1")]))
     (snd (run initial s1_events))
  /\ exists ev, In ev s1_events /\ says_hello 9%nat (snd ev).
Proof.
  assert (In (SendExtension 9%nat
                (Route "req_1_2bc" "s1" "create_window" [("sessionId", JStr "s1")]))
             (snd (run initial s1_events))) as Hin.
  { vm_compute. do 3 right. left. reflexivity. }
  split; [exact Hin|].
  exact (extension_frames_go_to_a_hello_socket s1_events _ Hin).
Defined.


Lemma commands_before_the_reply_each_create_a_window_witness :
  extensionConnection two_clients
  = Some {| ec_ws := 9%nat; ec_profileId := "default"; ec_capabilities := [];
            ec_connectedAt := 2000 |}
  /\ ("A" ∉ windowCache two_clients)
  /\ snd (run two_clients
            [(env_at 3000, WsMessage 1%nat (Some (MCommand "r1" "A" "navigate" navigate)));
             (env_at 3001, WsMessage 1%nat (Some (MCommand "r2" "A" "get_tabs" [])))])
     = [SendExtension 9%nat
          (Route (requestId (requestIdCounter two_clients + 1) (now (env_at 3000))) "A"
             "create_window" [("sessionId", JStr "A")]);
        SendExtension 9%nat
          (Route (requestId (requestIdCounter two_clients + 2) (now (env_at 3001))) "A"
             "create_window" [("sessionId", JStr "A")])].
Proof.
  assert (extensionConnection two_clients
          = Some {| ec_ws := 9%nat; ec_profileId := "default"; ec_capabilities := [];
                    ec_connectedAt := 2000 |}) as Hext by (vm_compute; reflexivity).
  assert ("A" ∉ windowCache two_clients) as Hout
    by (apply (bool_decide_eq_false_1 ("A" ∈ windowCache two_clients));
        vm_compute; reflexivity).
  split; [exact Hext|]. split; [exact Hout|].
  destruct (commands_before_the_reply_each_create_a_window (env_at 3000) (env_at 3001)
              two_clients _ 1%nat 1%nat "r1" "r2" "A" "navigate" "get_tabs" navigate []
              Hext Hout) as (Hrun & _).
  exact Hrun.
Defined.
